(** * node-seal: the handle wrappers, their codec pass-through and the
      error normalizer, as a shallow embedding.

    The JavaScript sources are translated function by function.  A host
    value is a [JsVal]; the mutable [_instance] slot of every wrapper object
    and the objects that live on the WebAssembly side of the embind boundary
    are kept in an explicit [World] that is threaded through a small
    state-and-exception monad.  The native library handed to every factory
    ([library]) is a record of functions, so that each statement can be read
    for an arbitrary native engine and evaluated on a concrete one. *)

From Stdlib Require Import ZArith.
From stdpp Require Import base option gmap strings list fin_maps pretty.

Open Scope string_scope.
Open Scope list_scope.

(** ** Host values *)

(** An instance of [Error] (or of a subclass): what [e.name] and [e.message]
    read. *)
Record JsError := mkError { err_name : string; err_message : string }.

(** The host values the sources handle.  Numbers are the integers that
    emscripten throws as exception pointers; a [VHandle] is an embind class
    handle, with identity by reference; a [VWrapper] is one of the wrapper
    objects built by the factories of this repository; a [VObject] is an
    object literal such as the options bag [{ instance }]. *)
#[warnings="-register-all"]
Inductive JsVal : Type :=
  | VUndefined
  | VNull
  | VBool (b : bool)
  | VNum (n : Z)
  | VStr (s : string)
  | VError (e : JsError)
  | VHandle (h : nat)
  | VWrapper (w : nat)
  | VObject (fields : list (string * JsVal)).

(** [if (v)], [v || d] *)
Definition truthy (v : JsVal) : bool :=
  match v with
  | VUndefined | VNull => false
  | VBool b => b
  | VNum n => negb (n =? 0)%Z
  | VStr s => negb (String.eqb s "")
  | _ => true
  end.

(** [typeof v === 'number'] *)
Definition is_number (v : JsVal) : bool :=
  match v with VNum _ => true | _ => false end.

(** [v instanceof Error] *)
Definition instanceof_Error (v : JsVal) : bool :=
  match v with VError _ => true | _ => false end.

(** [String(v)], for objects that keep the default [toString]. *)
Definition to_string (v : JsVal) : string :=
  match v with
  | VUndefined => "undefined"
  | VNull => "null"
  | VBool true => "true"
  | VBool false => "false"
  | VNum n => pretty n
  | VStr s => s
  | VError e =>
      if String.eqb (err_name e) "" then err_message e
      else if String.eqb (err_message e) "" then err_name e
      else err_name e +:+ ": " +:+ err_message e
  | VHandle _ | VWrapper _ | VObject _ => "[object Object]"
  end.

(** [new Error(v)]: the message is [String(v)] unless [v] is undefined. *)
Definition new_Error (v : JsVal) : JsVal :=
  VError (mkError "Error"
            (match v with VUndefined => "" | _ => to_string v end)).

(** The [TypeError] the host raises when a property of [null] or
    [undefined] is read. *)
Definition TypeError_read (base : JsVal) (p : string) : JsVal :=
  VError (mkError "TypeError"
            ("Cannot read properties of " +:+ to_string base +:+
             " (reading '" +:+ p +:+ "')")).

(** The [TypeError] of calling something that is not a function. *)
Definition TypeError_call (p : string) : JsVal :=
  VError (mkError "TypeError" (p +:+ " is not a function")).

(** The error embind raises when a deleted class handle is used. *)
Definition BindingError_deleted : JsVal :=
  VError (mkError "BindingError" "instance already deleted").

Definition error_name (v : JsVal) : option string :=
  match v with VError e => Some (err_name e) | _ => None end.

Fixpoint assoc (p : string) (fields : list (string * JsVal)) : JsVal :=
  match fields with
  | [] => VUndefined
  | (k, v) :: rest => if String.eqb k p then v else assoc p rest
  end.

(** ** The native side *)

(** A live native object: its embind class and its state, an opaque blob. *)
Record NObj := mkNObj { cls : string; state : string }.

(** What crosses the boundary, in program order. *)
Inductive Event : Type :=
  | ENew (c : string) (args : list JsVal) (h : nat)
  | ECall (h : nat) (method : string) (args : list JsVal)
  | EStatic (fn : string) (args : list JsVal).

(** A completion: a value, or a thrown host value. *)
Inductive Result (A : Type) : Type :=
  | Ok (a : A)
  | Throw (v : JsVal).
Arguments Ok {A} a.
Arguments Throw {A} v.

(** The [library] argument of the factories.  Constructors and methods may
    raise any host value (emscripten raises numbers, embind raises errors).
    Serialising reads the object only; deserialising may read the heap (the
    context) and rewrites the object only; every other method is an
    arbitrary transformer of the native heap. *)
Record Library := mkLibrary {
  getException : JsVal -> string;
  ComprModeType_deflate : JsVal;
  construct : string -> list JsVal -> gmap nat NObj -> Result string;
  saveToString : NObj -> list JsVal -> Result JsVal;
  loadFromString : gmap nat NObj -> NObj -> list JsVal -> Result JsVal * NObj;
  method : string -> nat -> list JsVal -> gmap nat NObj ->
           Result JsVal * gmap nat NObj;
  static : string -> list JsVal -> gmap nat NObj ->
           Result JsVal * gmap nat NObj
}.

(** ** The world and the monad *)

Record World := mkWorld {
  slots : gmap nat JsVal;      (* the [_instance] of each wrapper object *)
  heap : gmap nat NObj;        (* the live native objects *)
  next_handle : nat;
  next_wrapper : nat;
  trace : list Event
}.

Definition M (A : Type) : Type := World -> Result A * World.

Definition ret {A} (a : A) : M A := fun W => (Ok a, W).

Definition throw {A} (v : JsVal) : M A := fun W => (Throw v, W).

Definition bind {A B} (m : M A) (k : A -> M B) : M B := fun W =>
  match m W with
  | (Ok a, W') => k a W'
  | (Throw v, W') => (Throw v, W')
  end.

(** [try { m } catch (e) { handler e }] *)
Definition try_catch {A} (m : M A) (handler : JsVal -> M A) : M A := fun W =>
  match m W with
  | (Ok a, W') => (Ok a, W')
  | (Throw v, W') => handler v W'
  end.

Declare Scope js_scope.
Delimit Scope js_scope with js.
Notation "x <~ m ;; k" := (bind m (fun x => k))
  (at level 100, m at next level, right associativity) : js_scope.
Notation "m ;;; k" := (bind m (fun _ => k))
  (at level 100, right associativity) : js_scope.
Open Scope js_scope.

Definition when (b : bool) (m : M unit) : M unit := if b then m else ret tt.

(** Reading [_instance]; a property that was never set, or was removed,
    reads as [undefined]. *)
Definition slot_of (W : World) (w : nat) : JsVal :=
  default VUndefined (slots W !! w).

Definition get_slot (w : nat) : M JsVal := fun W => (Ok (slot_of W w), W).

(** [_instance = v] *)
Definition set_slot (w : nat) (v : JsVal) : M unit := fun W =>
  (Ok tt, mkWorld (<[w := v]> (slots W)) (heap W) (next_handle W)
            (next_wrapper W) (trace W)).

(** [delete this._instance]: the host operator that removes a property. *)
Definition remove_slot (w : nat) : M unit := fun W =>
  (Ok tt, mkWorld (base.delete w (slots W)) (heap W) (next_handle W)
            (next_wrapper W) (trace W)).

(** A new wrapper object, its slot not yet assigned. *)
Definition new_wrapper : M nat := fun W =>
  (Ok (next_wrapper W),
   mkWorld (slots W) (heap W) (next_handle W) (S (next_wrapper W)) (trace W)).

(** [v.p] *)
Definition get_prop (v : JsVal) (p : string) : M JsVal :=
  match v with
  | VUndefined | VNull => throw (TypeError_read v p)
  | VObject fields => ret (assoc p fields)
  | VWrapper w => if String.eqb p "instance" then get_slot w else ret VUndefined
  | VError e =>
      if String.eqb p "message" then ret (VStr (err_message e))
      else if String.eqb p "name" then ret (VStr (err_name e))
      else ret VUndefined
  | _ => ret VUndefined
  end.

(** A parameter with a default: [p = d]. *)
Definition or_default (v d : JsVal) : JsVal :=
  match v with VUndefined => d | _ => v end.

Section Boundary.
Context (library : Library).

(** [new library.C(args)] *)
Definition native_new (c : string) (args : list JsVal) : M JsVal := fun W =>
  match construct library c args (heap W) with
  | Ok st =>
      let h := next_handle W in
      (Ok (VHandle h),
       mkWorld (slots W) (<[h := mkNObj c st]> (heap W)) (S h)
         (next_wrapper W) (trace W ++ [ENew c args h]))
  | Throw v => (Throw v, W)
  end.

(** A method of a class handle.  embind refuses a handle that was deleted;
    [delete] runs the native destructor and is provided by embind, the
    other methods by the library. *)
Definition native_call (h : nat) (m : string) (args : list JsVal)
  : M JsVal := fun W =>
  let tr := trace W ++ [ECall h m args] in
  let W1 := mkWorld (slots W) (heap W) (next_handle W) (next_wrapper W) tr in
  match heap W !! h with
  | None => (Throw BindingError_deleted, W1)
  | Some o =>
      if String.eqb m "delete" then
        (Ok VUndefined,
         mkWorld (slots W) (base.delete h (heap W)) (next_handle W)
           (next_wrapper W) tr)
      else if String.eqb m "saveToString" then
        (saveToString library o args, W1)
      else if String.eqb m "loadFromString" then
        let '(r, o') := loadFromString library (heap W) o args in
        (r, mkWorld (slots W) (<[h := o']> (heap W)) (next_handle W)
              (next_wrapper W) tr)
      else
        let '(r, hp) := method library m h args (heap W) in
        (r, mkWorld (slots W) hp (next_handle W) (next_wrapper W) tr)
  end.

(** A function of the library that is not a method: [library.f(args)]. *)
Definition native_static (fn : string) (args : list JsVal) : M JsVal :=
  fun W =>
  let '(r, hp) := static library fn args (heap W) in
  (r, mkWorld (slots W) hp (next_handle W) (next_wrapper W)
        (trace W ++ [EStatic fn args])).

(** Reading the member [recv.m] in order to call it. *)
Definition member (recv : JsVal) (m : string) : M unit :=
  match recv with
  | VUndefined | VNull => throw (TypeError_read recv m)
  | _ => ret tt
  end.

Fixpoint eval_args (args : list (M JsVal)) : M (list JsVal) :=
  match args with
  | [] => ret []
  | a :: rest => v <~ a ;; vs <~ eval_args rest ;; ret (v :: vs)
  end.

(** Calling [recv.m] with arguments already evaluated. *)
Definition apply_method (recv : JsVal) (m : string) (vs : list JsVal)
  : M JsVal :=
  match recv with
  | VHandle h => native_call h m vs
  | _ => throw (TypeError_call m)
  end.

(** [recv.m(args)]: the member is read first, then the arguments are
    evaluated from left to right, then the call is made. *)
Definition invoke (recv : JsVal) (m : string) (args : list (M JsVal))
  : M JsVal :=
  member recv m ;;;
  vs <~ eval_args args ;;
  apply_method recv m vs.

(** [recv.p] where [p] is an accessor of a class handle. *)
Definition read_accessor (recv : JsVal) (p : string) : M JsVal :=
  member recv p ;;;
  match recv with
  | VHandle h => native_call h p []
  | _ => ret VUndefined
  end.
End Boundary.

(** The block every wrapper with a native destructor shares:
    [if (_instance) { _instance.delete(); _instance = null }]. *)
Definition delete_if_held (library : Library) (this : nat) : M unit :=
  cur <~ get_slot this ;;
  when (truthy cur)
    (held <~ get_slot this ;;
     invoke library held "delete" [] ;;;
     set_slot this VNull).

(** ** Exception: the error normalizer *)

Module Exception.
Section defs.
Context (library : Library).

(** [getHuman({ pointer })]: [return _getException(pointer)] *)
Definition getHuman (options : JsVal) : M JsVal :=
  pointer <~ get_prop options "pointer" ;;
  ret (VStr (getException library pointer)).

(** [safe({ error })] *)
Definition safe (options : JsVal) : M JsVal :=
  error <~ get_prop options "error" ;;
  if is_number error then
    msg <~ getHuman (VObject [("pointer", error)]) ;;
    ret (new_Error msg)
  else if instanceof_Error error then
    ret error
  else
    ret (new_Error (if truthy error then error else VStr "Unknown Error!")).
End defs.
End Exception.

(** ** RelinKeys (class) *)

Module RelinKeys.
Section defs.
Context (library : Library).

(** [constructor({library})] *)
Definition constructor : M JsVal :=
  this <~ new_wrapper ;;
  inst <~ native_new library "RelinKeys" [] ;;
  set_slot this inst ;;;
  ret (VWrapper this).

Definition instance (this : nat) : M JsVal := get_slot this.

(** [inject({instance})] *)
Definition inject (this : nat) (options : JsVal) : M JsVal :=
  instance <~ get_prop options "instance" ;;
  delete_if_held library this ;;;
  set_slot this instance ;;;
  ret VUndefined.

(** [save({ compression = this._ComprModeType.deflate } = {})] *)
Definition save (this : nat) (options : JsVal) : M JsVal :=
  c <~ get_prop (or_default options (VObject [])) "compression" ;;
  let compression := or_default c (ComprModeType_deflate library) in
  inst <~ get_slot this ;;
  invoke library inst "saveToString" [ret compression].

(** [load({context, encoded})] *)
Definition load (this : nat) (options : JsVal) : M JsVal :=
  context <~ get_prop options "context" ;;
  encoded <~ get_prop options "encoded" ;;
  inst <~ get_slot this ;;
  invoke library inst "loadFromString"
    [get_prop context "instance"; ret encoded] ;;;
  ret VUndefined.
End defs.
End RelinKeys.

(** ** PublicKey (class) *)

Module PublicKey.
Section defs.
Context (library : Library).

Definition constructor : M JsVal :=
  this <~ new_wrapper ;;
  inst <~ native_new library "PublicKey" [] ;;
  set_slot this inst ;;;
  ret (VWrapper this).

Definition instance (this : nat) : M JsVal := get_slot this.

(** [inject({instance})]: the guarded statement is the host operator
    [delete this._instance], not a call of the handle's [delete]. *)
Definition inject (this : nat) (options : JsVal) : M JsVal :=
  instance <~ get_prop options "instance" ;;
  cur <~ get_slot this ;;
  when (truthy cur) (remove_slot this) ;;;
  set_slot this instance ;;;
  ret VUndefined.

(** [save()] *)
Definition save (this : nat) : M JsVal :=
  inst <~ get_slot this ;;
  invoke library inst "saveToString" [].

(** [load({context, encoded})]: [context] is forwarded as it is. *)
Definition load (this : nat) (options : JsVal) : M JsVal :=
  context <~ get_prop options "context" ;;
  encoded <~ get_prop options "encoded" ;;
  inst <~ get_slot this ;;
  invoke library inst "loadFromString" [ret context; ret encoded] ;;;
  ret VUndefined.
End defs.
End PublicKey.

(** ** PlainText (factory) *)

Module PlainText.
Section defs.
Context (library : Library).

(** [PlainText({library})] *)
Definition PlainText : M JsVal :=
  inst <~ native_new library "Plaintext" [] ;;
  this <~ new_wrapper ;;
  set_slot this inst ;;;
  ret (VWrapper this).

Definition instance (this : nat) : M JsVal := get_slot this.

Definition inject (this : nat) (options : JsVal) : M JsVal :=
  instance <~ get_prop options "instance" ;;
  delete_if_held library this ;;;
  set_slot this instance ;;;
  ret VUndefined.

(** The body shared by the forwarding methods: [return _instance.m()] *)
Definition forward (m : string) (this : nat) : M JsVal :=
  inst <~ get_slot this ;;
  invoke library inst m [].

Definition shrinkToFit := forward "shrinkToFit".
Definition setZero := forward "setZero".
Definition isZero := forward "isZero".
Definition capacity := forward "capacity".
Definition coeffCount := forward "coeffCount".
Definition significantCoeffCount := forward "significantCoeffCount".
Definition nonzeroCoeffCount := forward "nonzeroCoeffCount".
Definition toPolynomial := forward "toPolynomial".
Definition isNttForm := forward "isNttForm".
Definition parmsId := forward "parmsId".
Definition scale := forward "scale".
Definition pool := forward "pool".

Definition save (this : nat) (options : JsVal) : M JsVal :=
  c <~ get_prop (or_default options (VObject [])) "compression" ;;
  let compression := or_default c (ComprModeType_deflate library) in
  inst <~ get_slot this ;;
  invoke library inst "saveToString" [ret compression].

Definition load (this : nat) (options : JsVal) : M JsVal :=
  context <~ get_prop options "context" ;;
  encoded <~ get_prop options "encoded" ;;
  inst <~ get_slot this ;;
  invoke library inst "loadFromString"
    [get_prop context "instance"; ret encoded] ;;;
  ret VUndefined.
End defs.
End PlainText.

(** ** ParmsIdType (factory) *)

Module ParmsIdType.
Section defs.
Context (library : Library).

(** [createParms(instance)] *)
Definition createParms (instance : JsVal) : M JsVal :=
  if truthy instance then
    inst <~ native_new library "ParmsIdType" [instance] ;;
    invoke library instance "delete" [] ;;;
    ret inst
  else
    native_new library "ParmsIdType" [].

(** [ParmsIdType(instance = null)] *)
Definition ParmsIdType (instance : JsVal) : M JsVal :=
  inst <~ createParms (or_default instance VNull) ;;
  this <~ new_wrapper ;;
  set_slot this inst ;;;
  ret (VWrapper this).

Definition instance (this : nat) : M JsVal := get_slot this.

(** [inject(instance)]: the slot receives a copy, the argument is
    destroyed. *)
Definition inject (this : nat) (instance : JsVal) : M JsVal :=
  delete_if_held library this ;;;
  inst <~ native_new library "ParmsIdType" [instance] ;;
  set_slot this inst ;;;
  invoke library instance "delete" [] ;;;
  ret VUndefined.

Definition delete (this : nat) : M JsVal :=
  delete_if_held library this ;;;
  ret VUndefined.

(** [Exception] is injected into the factory.  The host's own string
    splitting and BigInt conversion, [values.split(',').map(x => BigInt(x))],
    are taken as a parameter. *)
Context (Exception_safe : JsVal -> M JsVal)
        (split_BigInt : JsVal -> M JsVal).

(** [catch (e) { throw Exception.safe(e) }] *)
Definition rethrow {A} (e : JsVal) : M A :=
  v <~ Exception_safe e ;; throw v.

(** [get values()] *)
Definition values (this : nat) : M JsVal :=
  try_catch
    (inst <~ get_slot this ;;
     values <~ invoke library inst "values" [] ;;
     split_BigInt values)
    rethrow.
End defs.
End ParmsIdType.

(** ** Context (factory); [Exception] is the normalizer the caller injects *)

Module Context.
Section defs.
Context (library : Library) (Exception_safe : JsVal -> M JsVal).

(** [catch (e) { throw Exception.safe(e) }] *)
Definition rethrow {A} (e : JsVal) : M A :=
  v <~ Exception_safe e ;; throw v.

(** [Context(encryptionParams, expandModChain, securityLevel)] *)
Definition Context (encryptionParams expandModChain securityLevel : JsVal)
  : M JsVal :=
  inst <~ try_catch
    (p <~ get_prop encryptionParams "instance" ;;
     native_new library "SEALContext" [p; expandModChain; securityLevel])
    rethrow ;;
  this <~ new_wrapper ;;
  set_slot this inst ;;;
  ret (VWrapper this).

Definition instance (this : nat) : M JsVal := get_slot this.

(** [unsafeInject(instance)] *)
Definition unsafeInject (this : nat) (instance : JsVal) : M JsVal :=
  delete_if_held library this ;;;
  set_slot this instance ;;;
  ret VUndefined.

Definition delete (this : nat) : M JsVal :=
  delete_if_held library this ;;;
  ret VUndefined.

(** [print()] *)
Definition print (this : nat) : M JsVal :=
  try_catch
    (inst <~ get_slot this ;;
     native_static library "printContext" [inst] ;;;
     ret VUndefined)
    rethrow.

(** [get parametersSet()]: [return _instance.parametersSet()] *)
Definition parametersSet (this : nat) : M JsVal :=
  inst <~ get_slot this ;;
  invoke library inst "parametersSet" [].

(** [get keyParmsId()]: [return ParmsIdType(_instance.keyParmsId())] *)
Definition keyParmsId (this : nat) : M JsVal :=
  inst <~ get_slot this ;;
  p <~ invoke library inst "keyParmsId" [] ;;
  ParmsIdType.ParmsIdType library p.

Definition firstParmsId (this : nat) : M JsVal :=
  inst <~ get_slot this ;;
  p <~ invoke library inst "firstParmsId" [] ;;
  ParmsIdType.ParmsIdType library p.

Definition lastParmsId (this : nat) : M JsVal :=
  inst <~ get_slot this ;;
  p <~ invoke library inst "lastParmsId" [] ;;
  ParmsIdType.ParmsIdType library p.

Definition usingKeyswitching (this : nat) : M JsVal :=
  inst <~ get_slot this ;;
  invoke library inst "usingKeyswitching" [].

(** [ContextData] is injected into the factory and its source is not among
    the files: the factory and the [unsafeInject] of the wrapper it returns
    are parameters. *)
Context (ContextData : M JsVal)
        (ContextData_unsafeInject : JsVal -> JsVal -> M JsVal).

(** The body shared by the four operations that return a ContextData:
    [try { const instance = _instance.m(args)
           const contextData = ContextData()
           contextData.unsafeInject(instance)
           return contextData } catch (e) { throw Exception.safe(e) }] *)
Definition contextData_of (m : string) (args : list (M JsVal)) (this : nat)
  : M JsVal :=
  try_catch
    (inst <~ get_slot this ;;
     instance <~ invoke library inst m args ;;
     contextData <~ ContextData ;;
     ContextData_unsafeInject contextData instance ;;;
     ret contextData)
    rethrow.

(** [getContextData(parmsId)] *)
Definition getContextData (this : nat) (parmsId : JsVal) : M JsVal :=
  contextData_of "getContextData" [get_prop parmsId "instance"] this.

Definition keyContextData := contextData_of "keyContextData" [].
Definition firstContextData := contextData_of "firstContextData" [].
Definition lastContextData := contextData_of "lastContextData" [].
End defs.
End Context.

(** ** EncryptionParameterQualifiers (factory) *)

Module EncryptionParameterQualifiers.
Section defs.
Context (library : Library).

(** [EncryptionParameterQualifiers({ library })]: [let _instance = null] *)
Definition EncryptionParameterQualifiers : M JsVal :=
  this <~ new_wrapper ;;
  set_slot this VNull ;;;
  ret (VWrapper this).

Definition instance (this : nat) : M JsVal := get_slot this.

Definition inject (this : nat) (options : JsVal) : M JsVal :=
  instance <~ get_prop options "instance" ;;
  delete_if_held library this ;;;
  set_slot this instance ;;;
  ret VUndefined.

Definition delete (this : nat) : M JsVal :=
  delete_if_held library this ;;;
  ret VUndefined.

(** [catch (e) { throw _Exception.safe({ error: e }) }] *)
Definition rethrow {A} (e : JsVal) : M A :=
  v <~ Exception.safe library (VObject [("error", e)]) ;; throw v.

(** The body shared by the getters:
    [try { return _instance.p } catch (e) { ... }] *)
Definition getter (p : string) (this : nat) : M JsVal :=
  try_catch (inst <~ get_slot this ;; read_accessor library inst p) rethrow.

Definition parametersSet := getter "parametersSet".
Definition usingFFT := getter "usingFFT".
Definition usingNTT := getter "usingNTT".
Definition usingBatching := getter "usingBatching".
Definition usingFastPlainLift := getter "usingFastPlainLift".
Definition usingDescendingModulusChain :=
  getter "usingDescendingModulusChain".
Definition securityLevel := getter "securityLevel".
End defs.
End EncryptionParameterQualifiers.

(** ** Evaluator (factory with positional arguments); [Exception],
       [MemoryPoolHandle], [CipherText] and [PlainText] are injected *)

Module Evaluator.
Section defs.
Context (library : Library) (Exception_safe : JsVal -> M JsVal)
        (MemoryPoolHandle_global : JsVal)
        (CipherText PlainText : M JsVal).

Definition rethrow {A} (e : JsVal) : M A :=
  v <~ Exception_safe e ;; throw v.

(** [Evaluator(context)] *)
Definition Evaluator (context : JsVal) : M JsVal :=
  inst <~ try_catch
    (c <~ get_prop context "instance" ;;
     native_new library "Evaluator" [c])
    rethrow ;;
  this <~ new_wrapper ;;
  set_slot this inst ;;;
  ret (VWrapper this).

Definition instance (this : nat) : M JsVal := get_slot this.

Definition inject (this : nat) (instance : JsVal) : M JsVal :=
  delete_if_held library this ;;;
  set_slot this instance ;;;
  ret VUndefined.

Definition delete (this : nat) : M JsVal :=
  delete_if_held library this ;;;
  ret VUndefined.

(** [_instance.m(args)] *)
Definition call (this : nat) (m : string) (args : list (M JsVal))
  : M JsVal :=
  inst <~ get_slot this ;;
  invoke library inst m args.

Definition negate (this : nat) (encrypted destination : JsVal) : M JsVal :=
  try_catch
    (if truthy destination then
       call this "negate"
         [get_prop encrypted "instance"; get_prop destination "instance"] ;;;
       ret VUndefined
     else
       temp <~ CipherText ;;
       call this "negate"
         [get_prop encrypted "instance"; get_prop temp "instance"] ;;;
       ret temp)
    rethrow.

Definition add (this : nat) (a b destination : JsVal) : M JsVal :=
  try_catch
    (if truthy destination then
       call this "add"
         [get_prop a "instance"; get_prop b "instance";
          get_prop destination "instance"] ;;;
       ret VUndefined
     else
       temp <~ CipherText ;;
       call this "add"
         [get_prop a "instance"; get_prop b "instance";
          get_prop temp "instance"] ;;;
       ret temp)
    rethrow.

Definition sub (this : nat) (a b destination : JsVal) : M JsVal :=
  try_catch
    (if truthy destination then
       call this "sub"
         [get_prop a "instance"; get_prop b "instance";
          get_prop destination "instance"] ;;;
       ret VUndefined
     else
       temp <~ CipherText ;;
       call this "sub"
         [get_prop a "instance"; get_prop b "instance";
          get_prop temp "instance"] ;;;
       ret temp)
    rethrow.

(** [multiply(a, b, destination, pool = MemoryPoolHandle.global)] *)
Definition multiply (this : nat) (a b destination pool : JsVal) : M JsVal :=
  let pool := or_default pool MemoryPoolHandle_global in
  try_catch
    (if truthy destination then
       call this "multiply"
         [get_prop a "instance"; get_prop b "instance";
          get_prop destination "instance"; ret pool] ;;;
       ret VUndefined
     else
       temp <~ CipherText ;;
       call this "multiply"
         [get_prop a "instance"; get_prop b "instance";
          get_prop temp "instance"; ret pool] ;;;
       ret temp)
    rethrow.

Definition plainModSwitchToNext (this : nat) (plain destination : JsVal)
  : M JsVal :=
  try_catch
    (if truthy destination then
       call this "plainModSwitchToNext"
         [get_prop plain "instance"; get_prop destination "instance"] ;;;
       ret VUndefined
     else
       temp <~ PlainText ;;
       call this "plainModSwitchToNext"
         [get_prop plain "instance"; get_prop temp "instance"] ;;;
       ret temp)
    rethrow.

(** [addPlain]: the branch without a destination passes
    [destination.instance], as the source does. *)
Definition addPlain (this : nat) (encrypted plain destination : JsVal)
  : M JsVal :=
  try_catch
    (if truthy destination then
       call this "addPlain"
         [get_prop encrypted "instance"; get_prop plain "instance";
          get_prop destination "instance"] ;;;
       ret VUndefined
     else
       temp <~ CipherText ;;
       call this "addPlain"
         [get_prop encrypted "instance"; get_prop plain "instance";
          get_prop destination "instance"] ;;;
       ret temp)
    rethrow.

Definition subPlain (this : nat) (encrypted plain destination : JsVal)
  : M JsVal :=
  try_catch
    (if truthy destination then
       call this "subPlain"
         [get_prop encrypted "instance"; get_prop plain "instance";
          get_prop destination "instance"] ;;;
       ret VUndefined
     else
       temp <~ CipherText ;;
       call this "subPlain"
         [get_prop encrypted "instance"; get_prop plain "instance";
          get_prop temp "instance"] ;;;
       ret temp)
    rethrow.

Definition cipherTransformToNtt (this : nat)
  (encrypted destinationNtt : JsVal) : M JsVal :=
  try_catch
    (if truthy destinationNtt then
       call this "cipherTransformToNtt"
         [get_prop encrypted "instance";
          get_prop destinationNtt "instance"] ;;;
       ret VUndefined
     else
       temp <~ CipherText ;;
       call this "cipherTransformToNtt"
         [get_prop encrypted "instance"; get_prop temp "instance"] ;;;
       ret temp)
    rethrow.

(** [cipherTransformFromNtt]: the branch without a destination calls
    [cipherTransformToNtt], as the source does. *)
Definition cipherTransformFromNtt (this : nat)
  (encryptedNtt destination : JsVal) : M JsVal :=
  try_catch
    (if truthy destination then
       call this "cipherTransformFromNtt"
         [get_prop encryptedNtt "instance";
          get_prop destination "instance"] ;;;
       ret VUndefined
     else
       temp <~ CipherText ;;
       call this "cipherTransformToNtt"
         [get_prop encryptedNtt "instance"; get_prop temp "instance"] ;;;
       ret temp)
    rethrow.

(** The remaining operations, each with the same two branches. *)

Definition square (this : nat)
  (encrypted destination pool : JsVal) : M JsVal :=
  let pool := or_default pool MemoryPoolHandle_global in
  try_catch
    (if truthy destination then
       call this "square"
         [get_prop encrypted "instance";
          get_prop destination "instance";
          ret pool] ;;;
       ret VUndefined
     else
       temp <~ CipherText ;;
       call this "square"
         [get_prop encrypted "instance";
          get_prop temp "instance";
          ret pool] ;;;
       ret temp)
    rethrow.

Definition relinearize (this : nat)
  (encrypted relinKeys destination pool : JsVal) : M JsVal :=
  let pool := or_default pool MemoryPoolHandle_global in
  try_catch
    (if truthy destination then
       call this "relinearize"
         [get_prop encrypted "instance";
          get_prop relinKeys "instance";
          get_prop destination "instance";
          ret pool] ;;;
       ret VUndefined
     else
       temp <~ CipherText ;;
       call this "relinearize"
         [get_prop encrypted "instance";
          get_prop relinKeys "instance";
          get_prop temp "instance";
          ret pool] ;;;
       ret temp)
    rethrow.

Definition cipherModSwitchToNext (this : nat)
  (encrypted destination pool : JsVal) : M JsVal :=
  let pool := or_default pool MemoryPoolHandle_global in
  try_catch
    (if truthy destination then
       call this "cipherModSwitchToNext"
         [get_prop encrypted "instance";
          get_prop destination "instance";
          ret pool] ;;;
       ret VUndefined
     else
       temp <~ CipherText ;;
       call this "cipherModSwitchToNext"
         [get_prop encrypted "instance";
          get_prop temp "instance";
          ret pool] ;;;
       ret temp)
    rethrow.

Definition cipherModSwitchTo (this : nat)
  (encrypted parmsId destination pool : JsVal) : M JsVal :=
  let pool := or_default pool MemoryPoolHandle_global in
  try_catch
    (if truthy destination then
       call this "cipherModSwitchTo"
         [get_prop encrypted "instance";
          get_prop parmsId "instance";
          get_prop destination "instance";
          ret pool] ;;;
       ret VUndefined
     else
       temp <~ CipherText ;;
       call this "cipherModSwitchTo"
         [get_prop encrypted "instance";
          get_prop parmsId "instance";
          get_prop temp "instance";
          ret pool] ;;;
       ret temp)
    rethrow.

Definition plainModSwitchTo (this : nat)
  (plain parmsId destination : JsVal) : M JsVal :=
  try_catch
    (if truthy destination then
       call this "plainModSwitchTo"
         [get_prop plain "instance";
          get_prop parmsId "instance";
          get_prop destination "instance"] ;;;
       ret VUndefined
     else
       temp <~ PlainText ;;
       call this "plainModSwitchTo"
         [get_prop plain "instance";
          get_prop parmsId "instance";
          get_prop temp "instance"] ;;;
       ret temp)
    rethrow.

Definition rescaleToNext (this : nat)
  (encrypted destination pool : JsVal) : M JsVal :=
  let pool := or_default pool MemoryPoolHandle_global in
  try_catch
    (if truthy destination then
       call this "rescaleToNext"
         [get_prop encrypted "instance";
          get_prop destination "instance";
          ret pool] ;;;
       ret VUndefined
     else
       temp <~ CipherText ;;
       call this "rescaleToNext"
         [get_prop encrypted "instance";
          get_prop temp "instance";
          ret pool] ;;;
       ret temp)
    rethrow.

Definition rescaleTo (this : nat)
  (encrypted parmsId destination pool : JsVal) : M JsVal :=
  let pool := or_default pool MemoryPoolHandle_global in
  try_catch
    (if truthy destination then
       call this "rescaleTo"
         [get_prop encrypted "instance";
          get_prop parmsId "instance";
          get_prop destination "instance";
          ret pool] ;;;
       ret VUndefined
     else
       temp <~ CipherText ;;
       call this "rescaleTo"
         [get_prop encrypted "instance";
          get_prop parmsId "instance";
          get_prop temp "instance";
          ret pool] ;;;
       ret temp)
    rethrow.

Definition exponentiate (this : nat)
  (encrypted exponent relinKeys destination pool : JsVal) : M JsVal :=
  let pool := or_default pool MemoryPoolHandle_global in
  try_catch
    (if truthy destination then
       call this "exponentiate"
         [get_prop encrypted "instance";
          ret exponent;
          get_prop relinKeys "instance";
          get_prop destination "instance";
          ret pool] ;;;
       ret VUndefined
     else
       temp <~ CipherText ;;
       call this "exponentiate"
         [get_prop encrypted "instance";
          ret exponent;
          get_prop relinKeys "instance";
          get_prop temp "instance";
          ret pool] ;;;
       ret temp)
    rethrow.

Definition multiplyPlain (this : nat)
  (encrypted plain destination pool : JsVal) : M JsVal :=
  let pool := or_default pool MemoryPoolHandle_global in
  try_catch
    (if truthy destination then
       call this "multiplyPlain"
         [get_prop encrypted "instance";
          get_prop plain "instance";
          get_prop destination "instance";
          ret pool] ;;;
       ret VUndefined
     else
       temp <~ CipherText ;;
       call this "multiplyPlain"
         [get_prop encrypted "instance";
          get_prop plain "instance";
          get_prop temp "instance";
          ret pool] ;;;
       ret temp)
    rethrow.

Definition plainTransformToNtt (this : nat)
  (plain parmsId destinationNtt pool : JsVal) : M JsVal :=
  let pool := or_default pool MemoryPoolHandle_global in
  try_catch
    (if truthy destinationNtt then
       call this "plainTransformToNtt"
         [get_prop plain "instance";
          get_prop parmsId "instance";
          get_prop destinationNtt "instance";
          ret pool] ;;;
       ret VUndefined
     else
       temp <~ PlainText ;;
       call this "plainTransformToNtt"
         [get_prop plain "instance";
          get_prop parmsId "instance";
          get_prop temp "instance";
          ret pool] ;;;
       ret temp)
    rethrow.

Definition applyGalois (this : nat)
  (encrypted galoisElt galoisKeys destination pool : JsVal) : M JsVal :=
  let pool := or_default pool MemoryPoolHandle_global in
  try_catch
    (if truthy destination then
       call this "applyGalois"
         [get_prop encrypted "instance";
          ret galoisElt;
          get_prop galoisKeys "instance";
          get_prop destination "instance";
          ret pool] ;;;
       ret VUndefined
     else
       temp <~ CipherText ;;
       call this "applyGalois"
         [get_prop encrypted "instance";
          ret galoisElt;
          get_prop galoisKeys "instance";
          get_prop temp "instance";
          ret pool] ;;;
       ret temp)
    rethrow.

Definition rotateRows (this : nat)
  (encrypted steps galoisKeys destination pool : JsVal) : M JsVal :=
  let pool := or_default pool MemoryPoolHandle_global in
  try_catch
    (if truthy destination then
       call this "rotateRows"
         [get_prop encrypted "instance";
          ret steps;
          get_prop galoisKeys "instance";
          get_prop destination "instance";
          ret pool] ;;;
       ret VUndefined
     else
       temp <~ CipherText ;;
       call this "rotateRows"
         [get_prop encrypted "instance";
          ret steps;
          get_prop galoisKeys "instance";
          get_prop temp "instance";
          ret pool] ;;;
       ret temp)
    rethrow.

Definition rotateColumns (this : nat)
  (encrypted galoisKeys destination pool : JsVal) : M JsVal :=
  let pool := or_default pool MemoryPoolHandle_global in
  try_catch
    (if truthy destination then
       call this "rotateColumns"
         [get_prop encrypted "instance";
          get_prop galoisKeys "instance";
          get_prop destination "instance";
          ret pool] ;;;
       ret VUndefined
     else
       temp <~ CipherText ;;
       call this "rotateColumns"
         [get_prop encrypted "instance";
          get_prop galoisKeys "instance";
          get_prop temp "instance";
          ret pool] ;;;
       ret temp)
    rethrow.

Definition rotateVector (this : nat)
  (encrypted steps galoisKeys destination pool : JsVal) : M JsVal :=
  let pool := or_default pool MemoryPoolHandle_global in
  try_catch
    (if truthy destination then
       call this "rotateVector"
         [get_prop encrypted "instance";
          ret steps;
          get_prop galoisKeys "instance";
          get_prop destination "instance";
          ret pool] ;;;
       ret VUndefined
     else
       temp <~ CipherText ;;
       call this "rotateVector"
         [get_prop encrypted "instance";
          ret steps;
          get_prop galoisKeys "instance";
          get_prop temp "instance";
          ret pool] ;;;
       ret temp)
    rethrow.

Definition complexConjugate (this : nat)
  (encrypted galoisKeys destination pool : JsVal) : M JsVal :=
  let pool := or_default pool MemoryPoolHandle_global in
  try_catch
    (if truthy destination then
       call this "complexConjugate"
         [get_prop encrypted "instance";
          get_prop galoisKeys "instance";
          get_prop destination "instance";
          ret pool] ;;;
       ret VUndefined
     else
       temp <~ CipherText ;;
       call this "complexConjugate"
         [get_prop encrypted "instance";
          get_prop galoisKeys "instance";
          get_prop temp "instance";
          ret pool] ;;;
       ret temp)
    rethrow.
End defs.
End Evaluator.

(** ** Evaluator (factory with an options object) *)

Module EvaluatorOptions.
Section defs.
Context (library : Library).

(** The catch block every method of this variant repeats:
    [throw new Error(typeof e === 'number' ? _Exception.getHuman(e)
                     : e instanceof Error ? e.message : e)] *)
Definition rethrow {A} (e : JsVal) : M A :=
  msg <~ (if is_number e then Exception.getHuman library e
          else if instanceof_Error e then get_prop e "message"
          else ret e) ;;
  throw (new_Error msg).

(** [Evaluator({ library, context })] *)
Definition Evaluator (options : JsVal) : M JsVal :=
  context <~ get_prop options "context" ;;
  inst <~ try_catch
    (c <~ get_prop context "instance" ;;
     native_new library "Evaluator" [c])
    rethrow ;;
  this <~ new_wrapper ;;
  set_slot this inst ;;;
  ret (VWrapper this).

Definition instance (this : nat) : M JsVal := get_slot this.

Definition inject (this : nat) (options : JsVal) : M JsVal :=
  instance <~ get_prop options "instance" ;;
  delete_if_held library this ;;;
  set_slot this instance ;;;
  ret VUndefined.

(** [negate({ encrypted, destination })] *)
Definition negate (this : nat) (options : JsVal) : M JsVal :=
  encrypted <~ get_prop options "encrypted" ;;
  destination <~ get_prop options "destination" ;;
  try_catch
    (inst <~ get_slot this ;;
     invoke library inst "negate"
       [get_prop encrypted "instance"; get_prop destination "instance"] ;;;
     ret VUndefined)
    rethrow.

(** [add({ a, b, destination })] *)
Definition add (this : nat) (options : JsVal) : M JsVal :=
  a <~ get_prop options "a" ;;
  b <~ get_prop options "b" ;;
  destination <~ get_prop options "destination" ;;
  try_catch
    (inst <~ get_slot this ;;
     invoke library inst "add"
       [get_prop a "instance"; get_prop b "instance";
        get_prop destination "instance"] ;;;
     ret VUndefined)
    rethrow.

(** [const _MemoryPoolHandle = MemoryPoolHandle({ library })]: the default
    of every [pool] parameter is its [global]. *)
Context (MemoryPoolHandle_global : JsVal).

(** The remaining operations; each destructures its options, makes one
    native call inside the guard and returns nothing. *)

Definition sub (this : nat) (options : JsVal) : M JsVal :=
  a <~ get_prop options "a" ;;
  b <~ get_prop options "b" ;;
  destination <~ get_prop options "destination" ;;
  try_catch
    (inst <~ get_slot this ;;
     invoke library inst "sub"
       [get_prop a "instance";
        get_prop b "instance";
        get_prop destination "instance"] ;;;
     ret VUndefined)
    rethrow.

Definition multiply (this : nat) (options : JsVal) : M JsVal :=
  a <~ get_prop options "a" ;;
  b <~ get_prop options "b" ;;
  destination <~ get_prop options "destination" ;;
  p <~ get_prop options "pool" ;;
  let pool := or_default p MemoryPoolHandle_global in
  try_catch
    (inst <~ get_slot this ;;
     invoke library inst "multiply"
       [get_prop a "instance";
        get_prop b "instance";
        get_prop destination "instance";
        ret pool] ;;;
     ret VUndefined)
    rethrow.

Definition square (this : nat) (options : JsVal) : M JsVal :=
  encrypted <~ get_prop options "encrypted" ;;
  destination <~ get_prop options "destination" ;;
  p <~ get_prop options "pool" ;;
  let pool := or_default p MemoryPoolHandle_global in
  try_catch
    (inst <~ get_slot this ;;
     invoke library inst "square"
       [get_prop encrypted "instance";
        get_prop destination "instance";
        ret pool] ;;;
     ret VUndefined)
    rethrow.

Definition relinearize (this : nat) (options : JsVal) : M JsVal :=
  encrypted <~ get_prop options "encrypted" ;;
  relinKeys <~ get_prop options "relinKeys" ;;
  destination <~ get_prop options "destination" ;;
  p <~ get_prop options "pool" ;;
  let pool := or_default p MemoryPoolHandle_global in
  try_catch
    (inst <~ get_slot this ;;
     invoke library inst "relinearize"
       [get_prop encrypted "instance";
        get_prop relinKeys "instance";
        get_prop destination "instance";
        ret pool] ;;;
     ret VUndefined)
    rethrow.

Definition cipherModSwitchToNext (this : nat) (options : JsVal) : M JsVal :=
  encrypted <~ get_prop options "encrypted" ;;
  destination <~ get_prop options "destination" ;;
  p <~ get_prop options "pool" ;;
  let pool := or_default p MemoryPoolHandle_global in
  try_catch
    (inst <~ get_slot this ;;
     invoke library inst "cipherModSwitchToNext"
       [get_prop encrypted "instance";
        get_prop destination "instance";
        ret pool] ;;;
     ret VUndefined)
    rethrow.

Definition cipherModSwitchTo (this : nat) (options : JsVal) : M JsVal :=
  encrypted <~ get_prop options "encrypted" ;;
  parmsId <~ get_prop options "parmsId" ;;
  destination <~ get_prop options "destination" ;;
  p <~ get_prop options "pool" ;;
  let pool := or_default p MemoryPoolHandle_global in
  try_catch
    (inst <~ get_slot this ;;
     invoke library inst "cipherModSwitchTo"
       [get_prop encrypted "instance";
        ret parmsId;
        get_prop destination "instance";
        ret pool] ;;;
     ret VUndefined)
    rethrow.

Definition plainModSwitchToNext (this : nat) (options : JsVal) : M JsVal :=
  plain <~ get_prop options "plain" ;;
  destination <~ get_prop options "destination" ;;
  try_catch
    (inst <~ get_slot this ;;
     invoke library inst "plainModSwitchToNext"
       [get_prop plain "instance";
        get_prop destination "instance"] ;;;
     ret VUndefined)
    rethrow.

Definition plainModSwitchTo (this : nat) (options : JsVal) : M JsVal :=
  plain <~ get_prop options "plain" ;;
  parmsId <~ get_prop options "parmsId" ;;
  destination <~ get_prop options "destination" ;;
  try_catch
    (inst <~ get_slot this ;;
     invoke library inst "plainModSwitchTo"
       [get_prop plain "instance";
        ret parmsId;
        get_prop destination "instance"] ;;;
     ret VUndefined)
    rethrow.

Definition rescaleToNext (this : nat) (options : JsVal) : M JsVal :=
  encrypted <~ get_prop options "encrypted" ;;
  destination <~ get_prop options "destination" ;;
  p <~ get_prop options "pool" ;;
  let pool := or_default p MemoryPoolHandle_global in
  try_catch
    (inst <~ get_slot this ;;
     invoke library inst "rescaleToNext"
       [get_prop encrypted "instance";
        get_prop destination "instance";
        ret pool] ;;;
     ret VUndefined)
    rethrow.

Definition rescaleTo (this : nat) (options : JsVal) : M JsVal :=
  encrypted <~ get_prop options "encrypted" ;;
  parmsId <~ get_prop options "parmsId" ;;
  destination <~ get_prop options "destination" ;;
  p <~ get_prop options "pool" ;;
  let pool := or_default p MemoryPoolHandle_global in
  try_catch
    (inst <~ get_slot this ;;
     invoke library inst "rescaleTo"
       [get_prop encrypted "instance";
        ret parmsId;
        get_prop destination "instance";
        ret pool] ;;;
     ret VUndefined)
    rethrow.

Definition exponentiate (this : nat) (options : JsVal) : M JsVal :=
  encrypted <~ get_prop options "encrypted" ;;
  exponent <~ get_prop options "exponent" ;;
  relinKeys <~ get_prop options "relinKeys" ;;
  destination <~ get_prop options "destination" ;;
  p <~ get_prop options "pool" ;;
  let pool := or_default p MemoryPoolHandle_global in
  try_catch
    (inst <~ get_slot this ;;
     invoke library inst "exponentiate"
       [get_prop encrypted "instance";
        ret exponent;
        get_prop relinKeys "instance";
        get_prop destination "instance";
        ret pool] ;;;
     ret VUndefined)
    rethrow.

Definition addPlain (this : nat) (options : JsVal) : M JsVal :=
  encrypted <~ get_prop options "encrypted" ;;
  plain <~ get_prop options "plain" ;;
  destination <~ get_prop options "destination" ;;
  try_catch
    (inst <~ get_slot this ;;
     invoke library inst "addPlain"
       [get_prop encrypted "instance";
        get_prop plain "instance";
        get_prop destination "instance"] ;;;
     ret VUndefined)
    rethrow.

Definition subPlain (this : nat) (options : JsVal) : M JsVal :=
  encrypted <~ get_prop options "encrypted" ;;
  plain <~ get_prop options "plain" ;;
  destination <~ get_prop options "destination" ;;
  try_catch
    (inst <~ get_slot this ;;
     invoke library inst "subPlain"
       [get_prop encrypted "instance";
        get_prop plain "instance";
        get_prop destination "instance"] ;;;
     ret VUndefined)
    rethrow.

Definition multiplyPlain (this : nat) (options : JsVal) : M JsVal :=
  encrypted <~ get_prop options "encrypted" ;;
  plain <~ get_prop options "plain" ;;
  destination <~ get_prop options "destination" ;;
  p <~ get_prop options "pool" ;;
  let pool := or_default p MemoryPoolHandle_global in
  try_catch
    (inst <~ get_slot this ;;
     invoke library inst "multiplyPlain"
       [get_prop encrypted "instance";
        get_prop plain "instance";
        get_prop destination "instance";
        ret pool] ;;;
     ret VUndefined)
    rethrow.

Definition plainTransformToNtt (this : nat) (options : JsVal) : M JsVal :=
  plain <~ get_prop options "plain" ;;
  parmsId <~ get_prop options "parmsId" ;;
  destinationNtt <~ get_prop options "destinationNtt" ;;
  p <~ get_prop options "pool" ;;
  let pool := or_default p MemoryPoolHandle_global in
  try_catch
    (inst <~ get_slot this ;;
     invoke library inst "plainTransformToNtt"
       [get_prop plain "instance";
        ret parmsId;
        get_prop destinationNtt "instance";
        ret pool] ;;;
     ret VUndefined)
    rethrow.

Definition cipherTransformToNtt (this : nat) (options : JsVal) : M JsVal :=
  encrypted <~ get_prop options "encrypted" ;;
  destinationNtt <~ get_prop options "destinationNtt" ;;
  try_catch
    (inst <~ get_slot this ;;
     invoke library inst "cipherTransformToNtt"
       [get_prop encrypted "instance";
        get_prop destinationNtt "instance"] ;;;
     ret VUndefined)
    rethrow.

Definition cipherTransformFromNtt (this : nat) (options : JsVal) : M JsVal :=
  encryptedNtt <~ get_prop options "encryptedNtt" ;;
  destination <~ get_prop options "destination" ;;
  try_catch
    (inst <~ get_slot this ;;
     invoke library inst "cipherTransformFromNtt"
       [get_prop encryptedNtt "instance";
        get_prop destination "instance"] ;;;
     ret VUndefined)
    rethrow.

Definition applyGalois (this : nat) (options : JsVal) : M JsVal :=
  encrypted <~ get_prop options "encrypted" ;;
  galoisElt <~ get_prop options "galoisElt" ;;
  galoisKeys <~ get_prop options "galoisKeys" ;;
  destination <~ get_prop options "destination" ;;
  p <~ get_prop options "pool" ;;
  let pool := or_default p MemoryPoolHandle_global in
  try_catch
    (inst <~ get_slot this ;;
     invoke library inst "applyGalois"
       [get_prop encrypted "instance";
        ret galoisElt;
        get_prop galoisKeys "instance";
        get_prop destination "instance";
        ret pool] ;;;
     ret VUndefined)
    rethrow.

Definition rotateRows (this : nat) (options : JsVal) : M JsVal :=
  encrypted <~ get_prop options "encrypted" ;;
  steps <~ get_prop options "steps" ;;
  galoisKeys <~ get_prop options "galoisKeys" ;;
  destination <~ get_prop options "destination" ;;
  p <~ get_prop options "pool" ;;
  let pool := or_default p MemoryPoolHandle_global in
  try_catch
    (inst <~ get_slot this ;;
     invoke library inst "rotateRows"
       [get_prop encrypted "instance";
        ret steps;
        get_prop galoisKeys "instance";
        get_prop destination "instance";
        ret pool] ;;;
     ret VUndefined)
    rethrow.

Definition rotateColumns (this : nat) (options : JsVal) : M JsVal :=
  encrypted <~ get_prop options "encrypted" ;;
  galoisKeys <~ get_prop options "galoisKeys" ;;
  destination <~ get_prop options "destination" ;;
  p <~ get_prop options "pool" ;;
  let pool := or_default p MemoryPoolHandle_global in
  try_catch
    (inst <~ get_slot this ;;
     invoke library inst "rotateColumns"
       [get_prop encrypted "instance";
        get_prop galoisKeys "instance";
        get_prop destination "instance";
        ret pool] ;;;
     ret VUndefined)
    rethrow.

Definition rotateVector (this : nat) (options : JsVal) : M JsVal :=
  encrypted <~ get_prop options "encrypted" ;;
  steps <~ get_prop options "steps" ;;
  galoisKeys <~ get_prop options "galoisKeys" ;;
  destination <~ get_prop options "destination" ;;
  p <~ get_prop options "pool" ;;
  let pool := or_default p MemoryPoolHandle_global in
  try_catch
    (inst <~ get_slot this ;;
     invoke library inst "rotateVector"
       [get_prop encrypted "instance";
        ret steps;
        get_prop galoisKeys "instance";
        get_prop destination "instance";
        ret pool] ;;;
     ret VUndefined)
    rethrow.

Definition complexConjugate (this : nat) (options : JsVal) : M JsVal :=
  encrypted <~ get_prop options "encrypted" ;;
  galoisKeys <~ get_prop options "galoisKeys" ;;
  destination <~ get_prop options "destination" ;;
  p <~ get_prop options "pool" ;;
  let pool := or_default p MemoryPoolHandle_global in
  try_catch
    (inst <~ get_slot this ;;
     invoke library inst "complexConjugate"
       [get_prop encrypted "instance";
        get_prop galoisKeys "instance";
        get_prop destination "instance";
        ret pool] ;;;
     ret VUndefined)
    rethrow.
End defs.
End EvaluatorOptions.

(** ** The wrapper contract over the kinds of the sources *)

(** Kinds whose [inject] stores the handle it is given. *)
Inductive InjectKind :=
  | IRelinKeys | IPlainText | IContext | IQualifiers | IEvaluator
  | IEvaluatorOptions.

(** [wrapper.inject(instance)], with the calling convention of each kind. *)
Definition inject_of (library : Library) (k : InjectKind) (this : nat)
  (instance : JsVal) : M JsVal :=
  match k with
  | IRelinKeys =>
      RelinKeys.inject library this (VObject [("instance", instance)])
  | IPlainText =>
      PlainText.inject library this (VObject [("instance", instance)])
  | IContext => Context.unsafeInject library this instance
  | IQualifiers =>
      EncryptionParameterQualifiers.inject library this
        (VObject [("instance", instance)])
  | IEvaluator => Evaluator.inject library this instance
  | IEvaluatorOptions =>
      EvaluatorOptions.inject library this (VObject [("instance", instance)])
  end.

(** Kinds that have a [delete]. *)
Inductive ReleaseKind :=
  | RParmsIdType | RContext | RQualifiers | REvaluator.

Definition release_of (library : Library) (k : ReleaseKind) (this : nat)
  : M JsVal :=
  match k with
  | RParmsIdType => ParmsIdType.delete library this
  | RContext => Context.delete library this
  | RQualifiers => EncryptionParameterQualifiers.delete library this
  | REvaluator => Evaluator.delete library this
  end.

(** Kinds that have [save] and [load]. *)
Inductive CodecKind := KRelinKeys | KPublicKey | KPlainText.

Definition class_of (k : CodecKind) : string :=
  match k with
  | KRelinKeys => "RelinKeys"
  | KPublicKey => "PublicKey"
  | KPlainText => "Plaintext"
  end.

(** A fresh wrapper of the kind. *)
Definition fresh_of (library : Library) (k : CodecKind) : M JsVal :=
  match k with
  | KRelinKeys => RelinKeys.constructor library
  | KPublicKey => PublicKey.constructor library
  | KPlainText => PlainText.PlainText library
  end.

(** [wrapper.save()], called without an argument. *)
Definition save_of (library : Library) (k : CodecKind) (this : nat)
  : M JsVal :=
  match k with
  | KRelinKeys => RelinKeys.save library this VUndefined
  | KPublicKey => PublicKey.save library this
  | KPlainText => PlainText.save library this VUndefined
  end.

(** [wrapper.load({context, encoded})] *)
Definition load_of (library : Library) (k : CodecKind) (this : nat)
  (context encoded : JsVal) : M JsVal :=
  let options := VObject [("context", context); ("encoded", encoded)] in
  match k with
  | KRelinKeys => RelinKeys.load library this options
  | KPublicKey => PublicKey.load library this options
  | KPlainText => PlainText.load library this options
  end.

(** [wrapper.inject({instance})] for the kinds with a codec. *)
Definition codec_inject_of (library : Library) (k : CodecKind) (this : nat)
  (instance : JsVal) : M JsVal :=
  let options := VObject [("instance", instance)] in
  match k with
  | KRelinKeys => RelinKeys.inject library this options
  | KPublicKey => PublicKey.inject this options
  | KPlainText => PlainText.inject library this options
  end.

(** What the kind's [saveToString] receives when [save] has no argument. *)
Definition save_args (library : Library) (k : CodecKind) : list JsVal :=
  match k with
  | KPublicKey => []
  | _ => [ComprModeType_deflate library]
  end.

(** Modelled from the spec: the error of its taxonomy for an operation on
    a wrapper that holds no handle; the sources define no such error. *)
Definition InvalidStateError : JsVal :=
  VError (mkError "InvalidStateError" "the wrapper holds no handle").

(** Modelled from the spec: [move(dst, src)] of the wrapper contract.  The
    components that define it (GaloisKeys and its siblings) are not among
    the sources, only their test is.  It transfers the handle of [src] into
    [dst] as [inject(dst, take(src))] does, [take] reading the handle and
    leaving [src] without one, and fails with [InvalidStateError] when
    [src] holds no handle. *)
Definition move (library : Library) (k : CodecKind) (dst src : nat)
  : M JsVal :=
  held <~ get_slot src ;;
  match held with
  | VHandle _ =>
      set_slot src VNull ;;;
      codec_inject_of library k dst held
  | _ => throw InvalidStateError
  end.

(** ** The operations the properties range over *)

(** The operations of the kinds with a [delete] that read or call a member
    of [_instance], with or without a guard that goes through
    [Exception.safe({ error: e })]. *)
Inductive DomainOp :=
  | Context_parametersSet | Context_usingKeyswitching
  | Context_keyParmsId | Context_firstParmsId | Context_lastParmsId
  | Qualifiers_parametersSet | Qualifiers_usingFFT | Qualifiers_usingNTT
  | Qualifiers_usingBatching | Qualifiers_usingFastPlainLift
  | Qualifiers_usingDescendingModulusChain | Qualifiers_securityLevel.

Definition kind_of_op (op : DomainOp) : ReleaseKind :=
  match op with
  | Context_parametersSet | Context_usingKeyswitching
  | Context_keyParmsId | Context_firstParmsId | Context_lastParmsId =>
      RContext
  | _ => RQualifiers
  end.

Definition run_op (library : Library) (op : DomainOp) (this : nat)
  : M JsVal :=
  match op with
  | Context_parametersSet => Context.parametersSet library this
  | Context_usingKeyswitching => Context.usingKeyswitching library this
  | Context_keyParmsId => Context.keyParmsId library this
  | Context_firstParmsId => Context.firstParmsId library this
  | Context_lastParmsId => Context.lastParmsId library this
  | Qualifiers_parametersSet =>
      EncryptionParameterQualifiers.parametersSet library this
  | Qualifiers_usingFFT => EncryptionParameterQualifiers.usingFFT library this
  | Qualifiers_usingNTT => EncryptionParameterQualifiers.usingNTT library this
  | Qualifiers_usingBatching =>
      EncryptionParameterQualifiers.usingBatching library this
  | Qualifiers_usingFastPlainLift =>
      EncryptionParameterQualifiers.usingFastPlainLift library this
  | Qualifiers_usingDescendingModulusChain =>
      EncryptionParameterQualifiers.usingDescendingModulusChain library this
  | Qualifiers_securityLevel =>
      EncryptionParameterQualifiers.securityLevel library this
  end.

(** The completion is a thrown error object with the given [name]. *)
Definition fails_with {A} (name : string) (r : Result A) : Prop :=
  exists e, r = Throw (VError e) /\ err_name e = name.

(** The native member an operation reads or calls. *)
Definition method_name (op : DomainOp) : string :=
  match op with
  | Context_parametersSet | Qualifiers_parametersSet => "parametersSet"
  | Context_usingKeyswitching => "usingKeyswitching"
  | Context_keyParmsId => "keyParmsId"
  | Context_firstParmsId => "firstParmsId"
  | Context_lastParmsId => "lastParmsId"
  | Qualifiers_usingFFT => "usingFFT"
  | Qualifiers_usingNTT => "usingNTT"
  | Qualifiers_usingBatching => "usingBatching"
  | Qualifiers_usingFastPlainLift => "usingFastPlainLift"
  | Qualifiers_usingDescendingModulusChain => "usingDescendingModulusChain"
  | Qualifiers_securityLevel => "securityLevel"
  end.

(** What [load] hands to the native loader as its context: RelinKeys and
    PlainText read [context.instance], PublicKey passes [context] on. *)
Definition forwarded_context (k : CodecKind) (context : JsVal) (W : World)
  : Result JsVal :=
  match k with
  | KPublicKey => Ok context
  | _ => fst (get_prop context "instance" W)
  end.

(** What [safe] makes of a raised value. *)
Definition normalized (library : Library) (error : JsVal) : JsVal :=
  match error with
  | VNum _ => new_Error (VStr (getException library error))
  | VError e => VError e
  | _ => if truthy error then new_Error (VStr (to_string error))
         else new_Error (VStr "Unknown Error!")
  end.

(** ** The operations of the Evaluator *)

Inductive EvOp :=
  | E_negate | E_add | E_sub | E_multiply | E_square | E_relinearize
  | E_cipherModSwitchToNext | E_cipherModSwitchTo
  | E_plainModSwitchToNext | E_plainModSwitchTo
  | E_rescaleToNext | E_rescaleTo | E_exponentiate
  | E_addPlain | E_subPlain | E_multiplyPlain
  | E_plainTransformToNtt | E_cipherTransformToNtt | E_cipherTransformFromNtt
  | E_applyGalois | E_rotateRows | E_rotateColumns | E_rotateVector
  | E_complexConjugate.

(** The native method of the same name. *)
Definition op_name (op : EvOp) : string :=
  match op with
  | E_negate => "negate" | E_add => "add" | E_sub => "sub"
  | E_multiply => "multiply" | E_square => "square"
  | E_relinearize => "relinearize"
  | E_cipherModSwitchToNext => "cipherModSwitchToNext"
  | E_cipherModSwitchTo => "cipherModSwitchTo"
  | E_plainModSwitchToNext => "plainModSwitchToNext"
  | E_plainModSwitchTo => "plainModSwitchTo"
  | E_rescaleToNext => "rescaleToNext" | E_rescaleTo => "rescaleTo"
  | E_exponentiate => "exponentiate"
  | E_addPlain => "addPlain" | E_subPlain => "subPlain"
  | E_multiplyPlain => "multiplyPlain"
  | E_plainTransformToNtt => "plainTransformToNtt"
  | E_cipherTransformToNtt => "cipherTransformToNtt"
  | E_cipherTransformFromNtt => "cipherTransformFromNtt"
  | E_applyGalois => "applyGalois" | E_rotateRows => "rotateRows"
  | E_rotateColumns => "rotateColumns" | E_rotateVector => "rotateVector"
  | E_complexConjugate => "complexConjugate"
  end.

(** The operands that precede the destination, as the options object names
    them. *)
Definition op_fields (op : EvOp) : list string :=
  match op with
  | E_add | E_sub | E_multiply => ["a"; "b"]
  | E_negate | E_square | E_cipherModSwitchToNext | E_rescaleToNext
  | E_cipherTransformToNtt => ["encrypted"]
  | E_cipherTransformFromNtt => ["encryptedNtt"]
  | E_relinearize => ["encrypted"; "relinKeys"]
  | E_cipherModSwitchTo | E_rescaleTo => ["encrypted"; "parmsId"]
  | E_plainModSwitchToNext => ["plain"]
  | E_plainModSwitchTo | E_plainTransformToNtt => ["plain"; "parmsId"]
  | E_exponentiate => ["encrypted"; "exponent"; "relinKeys"]
  | E_addPlain | E_subPlain | E_multiplyPlain => ["encrypted"; "plain"]
  | E_applyGalois => ["encrypted"; "galoisElt"; "galoisKeys"]
  | E_rotateRows | E_rotateVector => ["encrypted"; "steps"; "galoisKeys"]
  | E_rotateColumns | E_complexConjugate => ["encrypted"; "galoisKeys"]
  end.

(** The name of the destination parameter. *)
Definition op_destination (op : EvOp) : string :=
  match op with
  | E_plainTransformToNtt | E_cipherTransformToNtt => "destinationNtt"
  | _ => "destination"
  end.

(** For each operand, whether its [instance] is passed ([true]) or the
    operand itself.  The variant with an options object passes [parmsId]
    itself, the positional variant its [instance]. *)
Definition op_modes (options_variant : bool) (op : EvOp) : list bool :=
  match op with
  | E_exponentiate | E_applyGalois | E_rotateRows | E_rotateVector =>
      [true; false; true]
  | E_cipherModSwitchTo | E_rescaleTo | E_plainModSwitchTo
  | E_plainTransformToNtt => [true; negb options_variant]
  | _ => map (fun _ => true) (op_fields op)
  end.

(** Whether the operation has a trailing [pool] parameter. *)
Definition op_has_pool (op : EvOp) : bool :=
  match op with
  | E_negate | E_add | E_sub | E_plainModSwitchToNext | E_plainModSwitchTo
  | E_addPlain | E_subPlain | E_cipherTransformToNtt
  | E_cipherTransformFromNtt => false
  | _ => true
  end.

(** Whether the result is a PlainText. *)
Definition op_makes_plain (op : EvOp) : bool :=
  match op with
  | E_plainModSwitchToNext | E_plainModSwitchTo | E_plainTransformToNtt =>
      true
  | _ => false
  end.

(** The two operations whose branch without a destination departs from the
    others. *)
Definition op_regular (op : EvOp) : bool :=
  match op with
  | E_addPlain | E_cipherTransformFromNtt => false
  | _ => true
  end.

Definition nullish (v : JsVal) : bool :=
  match v with VUndefined | VNull => true | _ => false end.

(** What [v.instance] reads when [v] is neither [null] nor [undefined]. *)
Definition instance_of (W : World) (v : JsVal) : JsVal :=
  match v with
  | VWrapper w => slot_of W w
  | VObject fields => assoc "instance" fields
  | _ => VUndefined
  end.

Fixpoint operand_values (W : World) (modes : list bool) (xs : list JsVal)
  : list JsVal :=
  match modes, xs with
  | m :: modes', x :: xs' =>
      (if m then instance_of W x else x) :: operand_values W modes' xs'
  | _, _ => []
  end.

(** The operands whose [instance] is read are neither [null] nor
    [undefined]. *)
Fixpoint operands_ok (modes : list bool) (xs : list JsVal) : Prop :=
  match modes, xs with
  | m :: modes', x :: xs' =>
      (m = true -> nullish x = false) /\ operands_ok modes' xs'
  | _, _ => True
  end.

(** The arguments the native method receives: the operands, the instance of
    the target, and the pool where the operation has one. *)
Definition native_args (options_variant : bool) (global : JsVal) (op : EvOp)
  (W : World) (xs : list JsVal) (target pool : JsVal) : list JsVal :=
  operand_values W (op_modes options_variant op) xs
  ++ [instance_of W target]
  ++ (if op_has_pool op then [or_default pool global] else []).

(** An operation of the positional Evaluator on operands [x], [y], [z] (as
    many as it takes). *)
Definition run_evaluator (library : Library) (safe : JsVal -> M JsVal)
  (global : JsVal) (CipherText PlainText : M JsVal) (this : nat) (op : EvOp)
  (x y z destination pool : JsVal) : M JsVal :=
  match op with
  | E_negate => Evaluator.negate library safe CipherText this x destination
  | E_add => Evaluator.add library safe CipherText this x y destination
  | E_sub => Evaluator.sub library safe CipherText this x y destination
  | E_multiply =>
      Evaluator.multiply library safe global CipherText this x y destination
        pool
  | E_square =>
      Evaluator.square library safe global CipherText this x destination pool
  | E_relinearize =>
      Evaluator.relinearize library safe global CipherText this x y
        destination pool
  | E_cipherModSwitchToNext =>
      Evaluator.cipherModSwitchToNext library safe global CipherText this x
        destination pool
  | E_cipherModSwitchTo =>
      Evaluator.cipherModSwitchTo library safe global CipherText this x y
        destination pool
  | E_plainModSwitchToNext =>
      Evaluator.plainModSwitchToNext library safe PlainText this x destination
  | E_plainModSwitchTo =>
      Evaluator.plainModSwitchTo library safe PlainText this x y destination
  | E_rescaleToNext =>
      Evaluator.rescaleToNext library safe global CipherText this x
        destination pool
  | E_rescaleTo =>
      Evaluator.rescaleTo library safe global CipherText this x y destination
        pool
  | E_exponentiate =>
      Evaluator.exponentiate library safe global CipherText this x y z
        destination pool
  | E_addPlain =>
      Evaluator.addPlain library safe CipherText this x y destination
  | E_subPlain =>
      Evaluator.subPlain library safe CipherText this x y destination
  | E_multiplyPlain =>
      Evaluator.multiplyPlain library safe global CipherText this x y
        destination pool
  | E_plainTransformToNtt =>
      Evaluator.plainTransformToNtt library safe global PlainText this x y
        destination pool
  | E_cipherTransformToNtt =>
      Evaluator.cipherTransformToNtt library safe CipherText this x
        destination
  | E_cipherTransformFromNtt =>
      Evaluator.cipherTransformFromNtt library safe CipherText this x
        destination
  | E_applyGalois =>
      Evaluator.applyGalois library safe global CipherText this x y z
        destination pool
  | E_rotateRows =>
      Evaluator.rotateRows library safe global CipherText this x y z
        destination pool
  | E_rotateColumns =>
      Evaluator.rotateColumns library safe global CipherText this x y
        destination pool
  | E_rotateVector =>
      Evaluator.rotateVector library safe global CipherText this x y z
        destination pool
  | E_complexConjugate =>
      Evaluator.complexConjugate library safe global CipherText this x y
        destination pool
  end.

(** The operands an operation takes, out of [x], [y], [z]. *)
Definition taken (op : EvOp) (x y z : JsVal) : list JsVal :=
  firstn (length (op_fields op)) [x; y; z].

(** An operation of the Evaluator that takes an options object. *)
Definition run_evaluator_options (library : Library) (global : JsVal)
  (this : nat) (op : EvOp) (options : JsVal) : M JsVal :=
  match op with
  | E_negate => EvaluatorOptions.negate library this options
  | E_add => EvaluatorOptions.add library this options
  | E_sub => EvaluatorOptions.sub library this options
  | E_multiply => EvaluatorOptions.multiply library global this options
  | E_square => EvaluatorOptions.square library global this options
  | E_relinearize => EvaluatorOptions.relinearize library global this options
  | E_cipherModSwitchToNext =>
      EvaluatorOptions.cipherModSwitchToNext library global this options
  | E_cipherModSwitchTo =>
      EvaluatorOptions.cipherModSwitchTo library global this options
  | E_plainModSwitchToNext =>
      EvaluatorOptions.plainModSwitchToNext library this options
  | E_plainModSwitchTo =>
      EvaluatorOptions.plainModSwitchTo library this options
  | E_rescaleToNext =>
      EvaluatorOptions.rescaleToNext library global this options
  | E_rescaleTo => EvaluatorOptions.rescaleTo library global this options
  | E_exponentiate =>
      EvaluatorOptions.exponentiate library global this options
  | E_addPlain => EvaluatorOptions.addPlain library this options
  | E_subPlain => EvaluatorOptions.subPlain library this options
  | E_multiplyPlain =>
      EvaluatorOptions.multiplyPlain library global this options
  | E_plainTransformToNtt =>
      EvaluatorOptions.plainTransformToNtt library global this options
  | E_cipherTransformToNtt =>
      EvaluatorOptions.cipherTransformToNtt library this options
  | E_cipherTransformFromNtt =>
      EvaluatorOptions.cipherTransformFromNtt library this options
  | E_applyGalois => EvaluatorOptions.applyGalois library global this options
  | E_rotateRows => EvaluatorOptions.rotateRows library global this options
  | E_rotateColumns =>
      EvaluatorOptions.rotateColumns library global this options
  | E_rotateVector =>
      EvaluatorOptions.rotateVector library global this options
  | E_complexConjugate =>
      EvaluatorOptions.complexConjugate library global this options
  end.

(** ** The operations guarded by the injected normalizer *)

(** The operations of Context and ParmsIdType whose guard is
    [catch (e) { throw Exception.safe(e) }]. *)
Inductive GuardedOp :=
  | Context_getContextData (parmsId : JsVal)
  | Context_keyContextData | Context_firstContextData
  | Context_lastContextData
  | ParmsIdType_values.

Definition kind_of_guarded (op : GuardedOp) : ReleaseKind :=
  match op with
  | ParmsIdType_values => RParmsIdType
  | _ => RContext
  end.

(** The native member each of them calls. *)
Definition guarded_name (op : GuardedOp) : string :=
  match op with
  | Context_getContextData _ => "getContextData"
  | Context_keyContextData => "keyContextData"
  | Context_firstContextData => "firstContextData"
  | Context_lastContextData => "lastContextData"
  | ParmsIdType_values => "values"
  end.

Definition run_guarded (library : Library) (safe : JsVal -> M JsVal)
  (ContextData : M JsVal)
  (ContextData_unsafeInject : JsVal -> JsVal -> M JsVal)
  (split_BigInt : JsVal -> M JsVal) (op : GuardedOp) (this : nat)
  : M JsVal :=
  match op with
  | Context_getContextData parmsId =>
      Context.getContextData library safe ContextData
        ContextData_unsafeInject this parmsId
  | Context_keyContextData =>
      Context.keyContextData library safe ContextData
        ContextData_unsafeInject this
  | Context_firstContextData =>
      Context.firstContextData library safe ContextData
        ContextData_unsafeInject this
  | Context_lastContextData =>
      Context.lastContextData library safe ContextData
        ContextData_unsafeInject this
  | ParmsIdType_values =>
      ParmsIdType.values library safe split_BigInt this
  end.

(** ** Well-formed worlds *)

(** The slot of a wrapper is empty ([null]) or holds a live handle: the
    [Option<Handle>] of the data model. *)
Definition slot_ok (W : World) (w : nat) : Prop :=
  slot_of W w = VNull \/
  exists h o, slot_of W w = VHandle h /\ heap W !! h = Some o.

(** No two wrappers hold the same handle. *)
Definition exclusive (W : World) : Prop :=
  forall w1 w2 h,
    slot_of W w1 = VHandle h -> slot_of W w2 = VHandle h -> w1 = w2.

(** The number of destructor calls made on a handle. *)
Definition is_delete_of (h : nat) (ev : Event) : bool :=
  match ev with
  | ECall h' m _ => Nat.eqb h h' && String.eqb m "delete"
  | _ => false
  end.

Definition releases_of (h : nat) (tr : list Event) : nat :=
  length (List.filter (is_delete_of h) tr).

(** ** A small native engine, to run the definitions on *)

Module Toy.
Definition decode (s : string) : option string :=
  if String.prefix "seal:" s
  then Some (String.substring 5 (String.length s - 5) s)
  else None.

(** A copy constructor copies the state of its argument; a string is
    accepted by the loader when it carries the tag; a failure is raised
    as a number, as emscripten raises a C++ exception. *)
Definition library : Library := {|
  getException := fun v => "native exception " +:+ to_string v;
  ComprModeType_deflate := VStr "deflate";
  construct := fun c args hp =>
    match args with
    | [VHandle h] =>
        match hp !! h with
        | Some o => Ok (state o)
        | None => Throw BindingError_deleted
        end
    | _ => Ok ("new " +:+ c)
    end;
  saveToString := fun o _ => Ok (VStr ("seal:" +:+ state o));
  loadFromString := fun hp o args =>
    match args with
    | [VHandle c; VStr s] =>
        match hp !! c, decode s with
        | Some _, Some st => (Ok VUndefined, mkNObj (cls o) st)
        | _, _ => (Throw (VNum 5), o)
        end
    | _ => (Throw (VNum 5), o)
    end;
  method := fun m h args hp =>
    if String.eqb m "parametersSet" then (Ok (VBool true), hp)
    else (Ok VUndefined, hp);
  static := fun fn args hp => (Ok VUndefined, hp)
|}.

(** The same engine with every method, accessor and static function
    raising the exception pointer [7]. *)
Definition failing : Library := {|
  getException := getException library;
  ComprModeType_deflate := ComprModeType_deflate library;
  construct := construct library;
  saveToString := saveToString library;
  loadFromString := loadFromString library;
  method := fun m h args hp => (Throw (VNum 7), hp);
  static := fun fn args hp => (Throw (VNum 7), hp)
|}.

(** A stand-in for the injected [CipherText] factory: a new wrapper around
    a new native ciphertext. *)
Definition CipherText : M JsVal :=
  inst <~ native_new library "Ciphertext" [] ;;
  this <~ new_wrapper ;;
  set_slot this inst ;;;
  ret (VWrapper this).

(** A stand-in for the injected [Exception.safe] that takes the raised
    value as its argument: the normalizer of the sources applied to it. *)
Definition safe (e : JsVal) : M JsVal :=
  Exception.safe library (VObject [("error", e)]).

(** Two wrappers [0] and [1] holding the live handles [0] and [1], a
    context wrapper [2] holding the live handle [2]. *)
Definition world : World := {|
  slots := <[0 := VHandle 0]> (<[1 := VHandle 1]> (<[2 := VHandle 2]> ∅));
  heap := <[0 := mkNObj "RelinKeys" "k0"]>
          (<[1 := mkNObj "RelinKeys" "k1"]>
          (<[2 := mkNObj "SEALContext" "ctx"]> ∅));
  next_handle := 3;
  next_wrapper := 3;
  trace := []
|}.
End Toy.

(** ** Worlds and tables used by the further properties *)

(** The world after the stand-in factory has made wrapper [3]. *)
Definition Toy_world_with_result : World :=
  mkWorld (<[3 := VHandle 3]> (slots Toy.world))
    (<[3 := mkNObj "Ciphertext" "new Ciphertext"]> (heap Toy.world)) 4 4
    [ENew "Ciphertext" [] 3].

(** An options object for [rescaleTo]: a ciphertext, a [parmsId] that is a
    native handle, a destination, and no pool. *)
Definition Toy_rescale_options : list (string * JsVal) :=
  [("encrypted", VWrapper 1); ("parmsId", VHandle 2);
   ("destination", VWrapper 1)].

(** The engine of [Toy] with every native constructor raising the exception
    pointer [7]. *)
Definition Toy_failing_constructor : Library :=
  mkLibrary (getException Toy.library) (ComprModeType_deflate Toy.library)
    (fun c args hp => Throw (VNum 7))
    (saveToString Toy.library) (loadFromString Toy.library)
    (method Toy.library) (static Toy.library).

(** The handles the wrappers hold are below the allocation counter. *)
Definition handles_bounded (W : World) : Prop :=
  forall w h, slot_of W w = VHandle h -> h < next_handle W.

(** The twelve methods of PlainText whose body is [return _instance.m()],
    each with the name of the native method it calls. *)
Definition PlainText_methods (library : Library)
  : list (string * (nat -> M JsVal)) :=
  [ ("shrinkToFit", PlainText.shrinkToFit library);
    ("setZero", PlainText.setZero library);
    ("isZero", PlainText.isZero library);
    ("capacity", PlainText.capacity library);
    ("coeffCount", PlainText.coeffCount library);
    ("significantCoeffCount", PlainText.significantCoeffCount library);
    ("nonzeroCoeffCount", PlainText.nonzeroCoeffCount library);
    ("toPolynomial", PlainText.toPolynomial library);
    ("isNttForm", PlainText.isNttForm library);
    ("parmsId", PlainText.parmsId library);
    ("scale", PlainText.scale library);
    ("pool", PlainText.pool library) ].

(** * Properties *)

(** ** Stepping through a sequence *)

Lemma bind_ok {A B} (m : M A) (k : A -> M B) W a W' :
  m W = (Ok a, W') -> bind m k W = k a W'.
Proof. intros H. unfold bind. by rewrite H. Qed.

Lemma bind_step {A B} (m : M A) (k : A -> M B) W a W' R :
  m W = (Ok a, W') -> k a W' = R -> bind m k W = R.
Proof. intros H <-. by apply bind_ok. Qed.

(** Unfolding the sequencing of a definition. *)
Ltac run :=
  cbv beta iota zeta delta
    [bind ret throw try_catch when get_slot set_slot remove_slot new_wrapper
     invoke member apply_method read_accessor eval_args get_prop
     or_default];
  simpl.

(** ** Releasing the held handle *)

Lemma delete_if_held_live library W w h o :
  slot_of W w = VHandle h ->
  heap W !! h = Some o ->
  delete_if_held library w W =
    (Ok tt, mkWorld (<[w := VNull]> (slots W)) (base.delete h (heap W))
              (next_handle W) (next_wrapper W)
              (trace W ++ [ECall h "delete" []])).
Proof.
  intros Hs Hh. unfold delete_if_held. run.
  repeat (rewrite Hs; simpl).
  unfold native_call. rewrite Hh. reflexivity.
Qed.

Lemma delete_if_held_empty library W w :
  truthy (slot_of W w) = false ->
  delete_if_held library w W = (Ok tt, W).
Proof.
  intros Hs. unfold delete_if_held. run. rewrite Hs. reflexivity.
Qed.

Lemma delete_if_held_dead library W w h :
  slot_of W w = VHandle h ->
  heap W !! h = None ->
  delete_if_held library w W =
    (Throw BindingError_deleted,
     mkWorld (slots W) (heap W) (next_handle W) (next_wrapper W)
       (trace W ++ [ECall h "delete" []])).
Proof.
  intros Hs Hh. unfold delete_if_held. run.
  repeat (rewrite Hs; simpl).
  unfold native_call. rewrite Hh. reflexivity.
Qed.

(** ** The error normalizer *)

Lemma safe_spec library (error : JsVal) (W : World) :
  Exception.safe library (VObject [("error", error)]) W =
    (Ok (normalized library error), W).
Proof.
  unfold Exception.safe, Exception.getHuman, normalized. run.
  destruct error as [| |b|n|s|e|h|w|fs]; simpl; try reflexivity.
  - by destruct b.
  - by destruct (String.eqb s "").
Qed.

Lemma normalized_is_Error library error :
  exists e, normalized library error = VError e.
Proof.
  destruct error as [| |b|n|s|e|h|w|fs]; simpl; eauto.
  - destruct b; simpl; eauto.
  - destruct (String.eqb s ""); simpl; eauto.
Qed.

(** C5: [safe] returns an [Error] for every raised value and never throws:
    a number is resolved through the native lookup, an [Error] is returned
    as it is, any other truthy value is stringified, and a falsy one yields
    the generic unknown error. *)
Theorem C5_safe_total library (error : JsVal) (W : World) :
  Exception.safe library (VObject [("error", error)]) W =
    (Ok (match error with
         | VNum _ => new_Error (VStr (getException library error))
         | VError e => VError e
         | _ => if truthy error then new_Error (VStr (to_string error))
                else new_Error (VStr "Unknown Error!")
         end), W)
  /\ exists e,
       fst (Exception.safe library (VObject [("error", error)]) W)
       = Ok (VError e).
Proof.
  rewrite safe_spec. split; [reflexivity|]. simpl.
  destruct (normalized_is_Error library error) as [e ->]. eauto.
Qed.

(** ** inject *)

(** The kinds that store the given handle release the one they hold, once,
    through its destructor, and then store the new one. *)
Lemma inject_releases_once library k W w h o v :
  slot_of W w = VHandle h ->
  heap W !! h = Some o ->
  inject_of library k w v W =
    (Ok VUndefined,
     mkWorld (<[w := v]> (slots W)) (base.delete h (heap W))
       (next_handle W) (next_wrapper W)
       (trace W ++ [ECall h "delete" []])).
Proof.
  intros Hs Hh.
  destruct k; simpl;
    unfold RelinKeys.inject, PlainText.inject, Context.unsafeInject,
      EncryptionParameterQualifiers.inject, Evaluator.inject,
      EvaluatorOptions.inject; simpl;
    try (erewrite bind_ok by reflexivity);
    (erewrite bind_ok by (eapply delete_if_held_live; eauto));
    run; by rewrite insert_insert_eq.
Qed.

Lemma inject_into_empty library k W w v :
  truthy (slot_of W w) = false ->
  inject_of library k w v W =
    (Ok VUndefined,
     mkWorld (<[w := v]> (slots W)) (heap W) (next_handle W)
       (next_wrapper W) (trace W)).
Proof.
  intros Hs.
  destruct k; simpl;
    unfold RelinKeys.inject, PlainText.inject, Context.unsafeInject,
      EncryptionParameterQualifiers.inject, Evaluator.inject,
      EvaluatorOptions.inject; simpl;
    try (erewrite bind_ok by reflexivity);
    (erewrite bind_ok by (eapply delete_if_held_empty; eauto));
    reflexivity.
Qed.

(** C1: [PublicKey.inject] is where the rule "release the held handle once
    through the native destructor, then absorb the new one" is broken: it
    removes the property with the host operator and never calls the
    destructor, so nothing crosses the boundary and the native heap is what
    it was, still holding the object of the handle that was dropped. *)
Theorem C1_PublicKey_inject_never_releases (W : World) (w : nat) (v : JsVal) :
  let r := PublicKey.inject w (VObject [("instance", v)]) W in
  fst r = Ok VUndefined /\
  slot_of (snd r) w = v /\
  trace (snd r) = trace W /\
  heap (snd r) = heap W.
Proof.
  unfold PublicKey.inject. run.
  destruct (truthy (slot_of W w)); simpl;
    unfold slot_of; simpl; rewrite lookup_insert_eq; auto.
Qed.

(** At the failing input: wrapper [0] holds the live handle [0] and is
    injected with handle [1].  No destructor ran, handle [0] is still live
    and no wrapper refers to it any more; [RelinKeys.inject] at the same
    input runs the destructor once. *)
Example PublicKey_inject_leaks :
  let W' := snd (PublicKey.inject 0 (VObject [("instance", VHandle 1)])
                   Toy.world) in
  releases_of 0 (trace W') = 0 /\
  heap W' !! 0 = Some (mkNObj "RelinKeys" "k0") /\
  slots W' =
    <[0 := VHandle 1]> (<[1 := VHandle 1]> (<[2 := VHandle 2]> ∅)) /\
  releases_of 0
    (trace (snd (RelinKeys.inject Toy.library 0
                   (VObject [("instance", VHandle 1)]) Toy.world))) = 1.
Proof. repeat split; vm_compute; reflexivity. Qed.

(** [ParmsIdType.inject] releases the held handle once as well; its slot
    then receives a copy made by the native constructor, and the handle it
    was given is destroyed. *)
Lemma ParmsIdType_inject_copies library W w h o h' o' st :
  slot_of W w = VHandle h ->
  heap W !! h = Some o ->
  h' <> h ->
  heap W !! h' = Some o' ->
  next_handle W <> h' ->
  construct library "ParmsIdType" [VHandle h'] (base.delete h (heap W))
    = Ok st ->
  ParmsIdType.inject library w (VHandle h') W =
    (Ok VUndefined,
     mkWorld (<[w := VHandle (next_handle W)]> (slots W))
       (base.delete h'
          (<[next_handle W := mkNObj "ParmsIdType" st]>
             (base.delete h (heap W))))
       (S (next_handle W)) (next_wrapper W)
       (trace W ++ [ECall h "delete" []]
                ++ [ENew "ParmsIdType" [VHandle h'] (next_handle W)]
                ++ [ECall h' "delete" []])).
Proof.
  intros Hs Hh Hne Hh' Hfresh Hc.
  unfold ParmsIdType.inject.
  erewrite bind_ok by (eapply delete_if_held_live; eauto).
  unfold native_new at 1. run. rewrite Hc. simpl.
  unfold native_call. simpl.
  rewrite lookup_insert_ne by done.
  rewrite lookup_delete_ne by done. rewrite Hh'.
  rewrite insert_insert_eq. by rewrite <- !app_assoc.
Qed.

(** ** release *)

Lemma release_of_unfold library k w :
  release_of library k w = (delete_if_held library w ;;; ret VUndefined).
Proof. by destruct k. Qed.

Lemma release_twice library (k : ReleaseKind) (W : World) (w : nat) :
  slot_ok W w ->
  exists W1,
    release_of library k w W = (Ok VUndefined, W1) /\
    slot_of W1 w = VNull /\
    release_of library k w W1 = (Ok VUndefined, W1) /\
    slot_of (snd (release_of library k w W1)) w = VNull.
Proof.
  intros Hok. rewrite !release_of_unfold.
  assert (Hnull : forall W1, slot_of W1 w = VNull ->
            (delete_if_held library w ;;; ret VUndefined) W1
            = (Ok VUndefined, W1)).
  { intros W1 H1. erewrite bind_ok; [reflexivity|].
    apply delete_if_held_empty. by rewrite H1. }
  destruct Hok as [Hs | (h & o & Hs & Hh)].
  - exists W. rewrite Hnull by done. auto.
  - eexists. erewrite bind_ok by (eapply delete_if_held_live; eauto).
    split; [reflexivity|].
    assert (Hs1 : slot_of
      (mkWorld (<[w := VNull]> (slots W)) (base.delete h (heap W))
         (next_handle W) (next_wrapper W)
         (trace W ++ [ECall h "delete" []])) w = VNull).
    { unfold slot_of. simpl. by rewrite lookup_insert_eq. }
    rewrite Hnull by done. auto.
Qed.

(** C4: on a wrapper whose slot is empty or holds a live handle, [delete]
    returns, leaves the slot [null], and a second [delete] returns as well
    and changes nothing: no second destructor call, the slot still [null]. *)
Theorem C4_release_idempotent library (k : ReleaseKind) (W : World) (w : nat) :
  slot_ok W w ->
  exists W1,
    release_of library k w W = (Ok VUndefined, W1) /\
    slot_of W1 w = VNull /\
    release_of library k w W1 = (Ok VUndefined, W1) /\
    slot_of (snd (release_of library k w W1)) w = VNull.
Proof. apply release_twice. Qed.

Lemma C4_release_idempotent_witness :
  exists W1,
    release_of Toy.library RContext 0 Toy.world = (Ok VUndefined, W1) /\
    slot_of W1 0 = VNull /\
    release_of Toy.library RContext 0 W1 = (Ok VUndefined, W1) /\
    slot_of (snd (release_of Toy.library RContext 0 W1)) 0 = VNull.
Proof.
  apply (C4_release_idempotent Toy.library RContext Toy.world 0).
  right. exists 0, (mkNObj "RelinKeys" "k0"). split; reflexivity.
Defined.

(** A wrapper that a factory has just built satisfies the precondition. *)
Lemma Context_built_slot_ok library safe p e s W w W' :
  Context.Context library safe p e s W = (Ok (VWrapper w), W') ->
  slot_ok W' w.
Proof.
  unfold Context.Context, Context.rethrow, native_new. run.
  destruct p; simpl; try (destruct (safe _ _) as [[?|?] ?]; discriminate);
    destruct (construct _ _ _ _); simpl;
    try (destruct (safe _ _) as [[?|?] ?]; discriminate);
    intros [= <- <-]; right; unfold slot_of; simpl;
    rewrite !lookup_insert_eq; simpl; do 2 eexists;
    (split; [reflexivity | apply lookup_insert_eq]).
Qed.

(** ** Use after release *)

Lemma run_op_on_null library op W w :
  slot_of W w = VNull ->
  exists p, run_op library op w W = (Throw (TypeError_read VNull p), W).
Proof.
  intros Hs.
  destruct op; simpl;
    unfold Context.parametersSet, Context.usingKeyswitching,
      Context.keyParmsId, Context.firstParmsId, Context.lastParmsId,
      EncryptionParameterQualifiers.parametersSet,
      EncryptionParameterQualifiers.usingFFT,
      EncryptionParameterQualifiers.usingNTT,
      EncryptionParameterQualifiers.usingBatching,
      EncryptionParameterQualifiers.usingFastPlainLift,
      EncryptionParameterQualifiers.usingDescendingModulusChain,
      EncryptionParameterQualifiers.securityLevel,
      EncryptionParameterQualifiers.getter,
      EncryptionParameterQualifiers.rethrow, Exception.safe;
    run; repeat (rewrite Hs; simpl); eauto.
Qed.

Lemma save_on_null library k W w :
  slot_of W w = VNull ->
  save_of library k w W = (Throw (TypeError_read VNull "saveToString"), W).
Proof.
  intros Hs.
  destruct k; simpl; unfold RelinKeys.save, PublicKey.save, PlainText.save;
    run; repeat (rewrite Hs; simpl); reflexivity.
Qed.

(** C2, as stated, fails: after [delete], reading [parametersSet] of a
    Context throws the host's [TypeError], not a [UseAfterReleaseError]. *)
Lemma C2_counterexample :
  ~ (forall library op W w,
       slot_ok W w ->
       fails_with "UseAfterReleaseError"
         (fst (run_op library op w
                 (snd (release_of library (kind_of_op op) w W))))).
Proof.
  intros H.
  destruct (H Toy.library Context_parametersSet Toy.world 0) as (e & He & Hn).
  - right. exists 0, (mkNObj "RelinKeys" "k0"). split; reflexivity.
  - vm_compute in He. injection He as <-. discriminate Hn.
Qed.

(** ** Exclusive ownership *)

Lemma inject_of_slots library k W w v :
  slot_ok W w ->
  fst (inject_of library k w v W) = Ok VUndefined /\
  slots (snd (inject_of library k w v W)) = <[w := v]> (slots W).
Proof.
  intros [Hs | (h & o & Hs & Hh)].
  - rewrite inject_into_empty by (by rewrite Hs). auto.
  - erewrite inject_releases_once by eauto. auto.
Qed.

Lemma delete_if_held_slots library W w :
  slot_ok W w ->
  slots (snd (delete_if_held library w W)) = slots W \/
  slots (snd (delete_if_held library w W)) = <[w := VNull]> (slots W).
Proof.
  intros [Hs | (h & o & Hs & Hh)].
  - rewrite delete_if_held_empty by (by rewrite Hs). auto.
  - erewrite delete_if_held_live by eauto. auto.
Qed.

Lemma Toy_world_slots w h :
  slot_of Toy.world w = VHandle h -> w = h /\ h < 3.
Proof.
  unfold slot_of, Toy.world. simpl.
  destruct (decide (w = 0)) as [->|];
    [rewrite lookup_insert_eq; simpl; intros [= <-]; lia|].
  rewrite lookup_insert_ne by done.
  destruct (decide (w = 1)) as [->|];
    [rewrite lookup_insert_eq; simpl; intros [= <-]; lia|].
  rewrite lookup_insert_ne by done.
  destruct (decide (w = 2)) as [->|];
    [rewrite lookup_insert_eq; simpl; intros [= <-]; lia|].
  rewrite lookup_insert_ne by done. rewrite lookup_empty. discriminate.
Qed.

Lemma Toy_world_exclusive : exclusive Toy.world.
Proof.
  intros w1 w2 h H1 H2.
  apply Toy_world_slots in H1, H2. lia.
Qed.

(** C6, as stated, fails: [inject] does not keep handles exclusive.  As in
    the test "It should delete the old instance and inject", wrapper [1] is
    injected with the instance of wrapper [0]; when the call has returned
    both wrappers hold handle [0]. *)
Lemma C6_counterexample :
  ~ (forall library k W w v,
       exclusive W -> exclusive (snd (inject_of library k w v W))).
Proof.
  intros H.
  specialize (H Toy.library IRelinKeys Toy.world 1 (slot_of Toy.world 0)
                Toy_world_exclusive 0 1 0).
  discriminate H; reflexivity.
Qed.

(** C6, amended: a slot holds one value, and [inject] writes the slot of its
    own wrapper only, without looking at the others.  Handles therefore
    stay exclusive across [inject] when the injected handle is held by no
    other wrapper, and across [delete] always; nothing in the wrappers
    enforces the condition. *)
Theorem C6_exclusive_if_unshared library (k : InjectKind) (rk : ReleaseKind)
  (W : World) (w : nat) (v : JsVal) :
  exclusive W ->
  slot_ok W w ->
  (forall w' h, v = VHandle h -> slot_of W w' = VHandle h -> w' = w) ->
  let W' := snd (inject_of library k w v W) in
  exclusive W' /\
  slot_of W' w = v /\
  (forall w', w' <> w -> slot_of W' w' = slot_of W w') /\
  exclusive (snd (release_of library rk w W)).
Proof.
  intros Hex Hok Hv W'.
  destruct (inject_of_slots library k W w v Hok) as [_ Hsl].
  assert (Hw : slot_of W' w = v).
  { unfold slot_of, W'. rewrite Hsl. by rewrite lookup_insert_eq. }
  assert (Hothers : forall w', w' <> w -> slot_of W' w' = slot_of W w').
  { intros w' Hne. unfold slot_of, W'. rewrite Hsl.
    by rewrite lookup_insert_ne. }
  repeat split; auto.
  - intros w1 w2 h H1 H2.
    destruct (decide (w1 = w)) as [->|N1], (decide (w2 = w)) as [->|N2];
      auto.
    + rewrite Hw in H1. rewrite Hothers in H2 by done.
      symmetry. by apply (Hv w2 h).
    + rewrite Hw in H2. rewrite Hothers in H1 by done.
      by apply (Hv w1 h).
    + rewrite Hothers in H1, H2 by done. by apply (Hex w1 w2 h).
  - rewrite release_of_unfold.
    assert (Hs : slots (snd ((delete_if_held library w ;;; ret VUndefined) W))
                 = slots (snd (delete_if_held library w W))).
    { unfold bind, ret. by destruct (delete_if_held library w W) as [[?|?] ?]. }
    intros w1 w2 h. unfold slot_of. rewrite Hs.
    destruct (delete_if_held_slots library W w Hok) as [-> | ->];
      [apply Hex|].
    destruct (decide (w1 = w)) as [->|N1];
      [by rewrite lookup_insert_eq|].
    destruct (decide (w2 = w)) as [->|N2];
      [by rewrite (lookup_insert_eq (slots W))|].
    rewrite !lookup_insert_ne by done. apply Hex.
Qed.

Lemma C6_exclusive_if_unshared_witness :
  let W' := snd (inject_of Toy.library IContext 1 (VHandle 7) Toy.world) in
  exclusive W' /\
  slot_of W' 1 = VHandle 7 /\
  (forall w', w' <> 1 -> slot_of W' w' = slot_of Toy.world w') /\
  exclusive (snd (release_of Toy.library RContext 1 Toy.world)).
Proof.
  apply (C6_exclusive_if_unshared Toy.library IContext RContext Toy.world 1
           (VHandle 7)).
  - exact Toy_world_exclusive.
  - right. exists 1, (mkNObj "RelinKeys" "k1"). split; reflexivity.
  - intros w' h [= <-] Hs. apply Toy_world_slots in Hs. lia.
Defined.

(** ** save, and the transfer of a handle *)

Lemma save_of_handle library k W w h :
  slot_of W w = VHandle h ->
  fst (save_of library k w W) =
    match heap W !! h with
    | Some o => saveToString library o (save_args library k)
    | None => Throw BindingError_deleted
    end.
Proof.
  intros Hs.
  destruct k; simpl; unfold RelinKeys.save, PublicKey.save, PlainText.save;
    run; repeat (rewrite Hs; simpl); unfold native_call;
    destruct (heap W !! h); reflexivity.
Qed.

Lemma codec_inject_of_spec library k W w v :
  slot_ok W w ->
  exists hp,
    codec_inject_of library k w v W =
      (Ok VUndefined,
       mkWorld (<[w := v]> (slots W)) hp (next_handle W) (next_wrapper W)
         (trace (snd (codec_inject_of library k w v W)))) /\
    forall h, slot_of W w <> VHandle h -> hp !! h = heap W !! h.
Proof.
  intros Hok. destruct k.
  - change (codec_inject_of library KRelinKeys w v)
      with (inject_of library IRelinKeys w v).
    destruct Hok as [Hs | (h & o & Hs & Hh)].
    + rewrite inject_into_empty by (by rewrite Hs). simpl. eauto.
    + erewrite inject_releases_once by eauto. simpl.
      eexists. split; [reflexivity|].
      intros h0 Hne. apply lookup_delete_ne. congruence.
  - exists (heap W). split; [|done].
    simpl. unfold PublicKey.inject. run.
    destruct (truthy (slot_of W w)); simpl; [|reflexivity].
    f_equal. f_equal. apply map_eq. intros i.
    destruct (decide (i = w)) as [->|];
      [by rewrite !lookup_insert_eq|].
    rewrite !lookup_insert_ne by done. by rewrite lookup_delete_ne.
  - change (codec_inject_of library KPlainText w v)
      with (inject_of library IPlainText w v).
    destruct Hok as [Hs | (h & o & Hs & Hh)].
    + rewrite inject_into_empty by (by rewrite Hs). simpl. eauto.
    + erewrite inject_releases_once by eauto. simpl.
      eexists. split; [reflexivity|].
      intros h0 Hne. apply lookup_delete_ne. congruence.
Qed.

(** C7: [move(dst, src)] between two wrappers, [src] holding a handle that
    [dst] does not hold: it returns, [src] is left with [null], [dst] holds
    the handle and saves to what [src] saved to before.  When [src] holds
    no handle it fails with [InvalidStateError] and changes nothing. *)
Theorem C7_move_transfers library (k : CodecKind) (W : World)
  (dst src h : nat) :
  dst <> src ->
  slot_of W src = VHandle h ->
  slot_ok W dst ->
  slot_of W dst <> VHandle h ->
  let r := move library k dst src W in
  (fst r = Ok VUndefined /\
   slot_of (snd r) src = VNull /\
   slot_of (snd r) dst = VHandle h /\
   fst (save_of library k dst (snd r)) = fst (save_of library k src W)) /\
  (forall W0, (forall h0, slot_of W0 src <> VHandle h0) ->
     fails_with "InvalidStateError" (fst (move library k dst src W0)) /\
     snd (move library k dst src W0) = W0).
Proof.
  intros Hne Hs Hok Hdst r. split.
  - subst r. unfold move.
    erewrite bind_ok by reflexivity. rewrite Hs.
    erewrite bind_ok by reflexivity.
    set (W1 := mkWorld (<[src := VNull]> (slots W)) (heap W) (next_handle W)
                 (next_wrapper W) (trace W)).
    assert (Hd1 : slot_of W1 dst = slot_of W dst).
    { unfold slot_of, W1. simpl. by rewrite lookup_insert_ne. }
    assert (Hok1 : slot_ok W1 dst).
    { unfold slot_ok. rewrite Hd1. exact Hok. }
    destruct (codec_inject_of_spec library k W1 dst (VHandle h) Hok1)
      as (hp & -> & Hhp).
    simpl. rewrite Hd1 in Hhp.
    assert (Hsrc : slot_of
      (mkWorld (<[dst := VHandle h]> (<[src := VNull]> (slots W))) hp
         (next_handle W) (next_wrapper W)
         (trace (snd (codec_inject_of library k dst (VHandle h) W1)))) src
      = VNull).
    { unfold slot_of. simpl. rewrite lookup_insert_ne by done.
      by rewrite lookup_insert_eq. }
    assert (Hdst' : slot_of
      (mkWorld (<[dst := VHandle h]> (<[src := VNull]> (slots W))) hp
         (next_handle W) (next_wrapper W)
         (trace (snd (codec_inject_of library k dst (VHandle h) W1)))) dst
      = VHandle h).
    { unfold slot_of. simpl. by rewrite lookup_insert_eq. }
    repeat split; auto.
    rewrite (save_of_handle library k _ dst h Hdst').
    rewrite (save_of_handle library k W src h Hs). simpl.
    by rewrite Hhp.
  - intros W0 Hnone. unfold move. run.
    destruct (slot_of W0 src) eqn:E; simpl;
      try (split; [eexists; split; reflexivity | reflexivity]).
    by destruct (Hnone h0).
Qed.

Lemma C7_move_transfers_witness :
  let r := move Toy.library KRelinKeys 1 0 Toy.world in
  (fst r = Ok VUndefined /\
   slot_of (snd r) 0 = VNull /\
   slot_of (snd r) 1 = VHandle 0 /\
   fst (save_of Toy.library KRelinKeys 1 (snd r))
   = fst (save_of Toy.library KRelinKeys 0 Toy.world)) /\
  (forall W0, (forall h0, slot_of W0 0 <> VHandle h0) ->
     fails_with "InvalidStateError"
       (fst (move Toy.library KRelinKeys 1 0 W0)) /\
     snd (move Toy.library KRelinKeys 1 0 W0) = W0).
Proof.
  apply (C7_move_transfers Toy.library KRelinKeys Toy.world 1 0 0).
  - discriminate.
  - reflexivity.
  - right. exists 1, (mkNObj "RelinKeys" "k1"). split; reflexivity.
  - discriminate.
Defined.

(** ** load *)

Lemma get_prop_pure v p W : snd (get_prop v p W) = W.
Proof.
  destruct v; simpl; try reflexivity.
  - by destruct (String.eqb p "message"), (String.eqb p "name").
  - by destruct (String.eqb p "instance").
Qed.

Lemma get_prop_ok v p W a :
  fst (get_prop v p W) = Ok a -> get_prop v p W = (Ok a, W).
Proof.
  intros H. pose proof (get_prop_pure v p W) as Hp.
  destruct (get_prop v p W) as [r W']. simpl in *. by subst.
Qed.

Lemma bind_invoke_handle {B} library h m args vs (k : JsVal -> M B) W :
  eval_args args W = (Ok vs, W) ->
  bind (invoke library (VHandle h) m args) k W =
    match native_call library h m vs W with
    | (Ok a, W') => k a W'
    | (Throw v, W') => (Throw v, W')
    end.
Proof.
  intros H. unfold invoke. simpl member. unfold bind at 1.
  replace ((ret tt ;;; vs0 <~ eval_args args ;;
            apply_method library (VHandle h) m vs0) W)
    with (native_call library h m vs W); [reflexivity|].
  symmetry. eapply bind_step; [reflexivity|].
  eapply bind_step; [exact H|]. reflexivity.
Qed.

(** [load] on a wrapper that holds a live handle: the native loader is
    called once on the object, with the forwarded context and the encoding,
    and its completion is the completion of [load]. *)
Lemma load_of_spec library k W w h o context encoded ctxv r o' :
  slot_of W w = VHandle h ->
  heap W !! h = Some o ->
  forwarded_context k context W = Ok ctxv ->
  loadFromString library (heap W) o [ctxv; encoded] = (r, o') ->
  load_of library k w context encoded W =
    (match r with Ok _ => Ok VUndefined | Throw v => Throw v end,
     mkWorld (slots W) (<[h := o']> (heap W)) (next_handle W)
       (next_wrapper W)
       (trace W ++ [ECall h "loadFromString" [ctxv; encoded]])).
Proof.
  intros Hs Hh Hc Hl.
  assert (Hcall : native_call library h "loadFromString" [ctxv; encoded] W =
    (r, mkWorld (slots W) (<[h := o']> (heap W)) (next_handle W)
          (next_wrapper W)
          (trace W ++ [ECall h "loadFromString" [ctxv; encoded]]))).
  { unfold native_call. rewrite Hh. simpl. by rewrite Hl. }
  destruct k; simpl in Hc |- *;
    unfold RelinKeys.load, PublicKey.load, PlainText.load;
    try apply get_prop_ok in Hc; try injection Hc as ->;
    do 3 (eapply bind_step; [reflexivity|]; cbv beta);
    rewrite Hs;
    (erewrite bind_invoke_handle;
      [| simpl; first [eapply bind_step; [exact Hc|]; reflexivity
                      | reflexivity]]);
    rewrite Hcall; by destruct r.
Qed.

(** C8, as stated, fails: the corrupted string of the test makes the native
    loader raise a number, and [load] lets it through as it is; no
    [DeserializationError] is made of it. *)
Lemma C8_counterexample :
  ~ (forall library k W w context encoded v,
       fst (load_of library k w context encoded W) = Throw v ->
       error_name v = Some "DeserializationError").
Proof.
  intros H.
  specialize (H Toy.library KRelinKeys Toy.world 0 (VWrapper 2)
    (VStr "XqEQAwUBAAAoAAAAAAAAAHicY2CgCHywj1sowMwKZEmgyQAAOaoCXw==")
    (VNum 5) eq_refl).
  discriminate H.
Qed.

(** C8, amended: when the native loader raises on an encoding, [load]
    raises that very value and returns nothing; no slot changes, so the
    wrapper still holds the handle it held, and the native heap differs at
    most in the object that was being loaded, which is as the loader left
    it (unchanged if the loader left it unchanged). *)
Theorem C8_failed_load_propagates library (k : CodecKind) (W : World)
  (w h : nat) (o o' : NObj) (context encoded ctxv v : JsVal) :
  slot_of W w = VHandle h ->
  heap W !! h = Some o ->
  forwarded_context k context W = Ok ctxv ->
  loadFromString library (heap W) o [ctxv; encoded] = (Throw v, o') ->
  let r := load_of library k w context encoded W in
  fst r = Throw v /\
  slots (snd r) = slots W /\
  heap (snd r) = <[h := o']> (heap W) /\
  (o' = o -> heap (snd r) = heap W).
Proof.
  intros Hs Hh Hc Hl r. subst r.
  erewrite load_of_spec by eauto. simpl.
  repeat split. intros ->. by apply insert_id.
Qed.

Lemma C8_failed_load_propagates_witness :
  let r := load_of Toy.library KPlainText 0 (VWrapper 2) (VStr "XqEQ")
             Toy.world in
  fst r = Throw (VNum 5) /\
  slots (snd r) = slots Toy.world /\
  heap (snd r) = <[0 := mkNObj "RelinKeys" "k0"]> (heap Toy.world) /\
  (mkNObj "RelinKeys" "k0" = mkNObj "RelinKeys" "k0" ->
   heap (snd r) = heap Toy.world).
Proof.
  apply (C8_failed_load_propagates Toy.library KPlainText Toy.world 0 0
           (mkNObj "RelinKeys" "k0") (mkNObj "RelinKeys" "k0")
           (VWrapper 2) (VStr "XqEQ") (VHandle 2) (VNum 5));
    reflexivity.
Defined.

(** ** The failure path of a native call *)

Lemma native_call_method library h m args W o r hp :
  heap W !! h = Some o ->
  String.eqb m "delete" = false ->
  String.eqb m "saveToString" = false ->
  String.eqb m "loadFromString" = false ->
  method library m h args (heap W) = (r, hp) ->
  native_call library h m args W =
    (r, mkWorld (slots W) hp (next_handle W) (next_wrapper W)
          (trace W ++ [ECall h m args])).
Proof.
  intros Hh H1 H2 H3 Hm. unfold native_call.
  by rewrite Hh, H1, H2, H3, Hm.
Qed.

Lemma run_op_raises library op W w h o v hp :
  slot_of W w = VHandle h ->
  heap W !! h = Some o ->
  method library (method_name op) h [] (heap W) = (Throw v, hp) ->
  fst (run_op library op w W) =
    match kind_of_op op with
    | RContext => Throw v
    | _ => Throw (normalized library v)
    end.
Proof.
  intros Hs Hh Hm.
  pose proof (native_call_method library h (method_name op) [] W o
                (Throw v) hp Hh) as Hcall.
  destruct op; simpl in *;
    specialize (Hcall eq_refl eq_refl eq_refl Hm);
    unfold Context.parametersSet, Context.usingKeyswitching,
      Context.keyParmsId, Context.firstParmsId, Context.lastParmsId,
      EncryptionParameterQualifiers.parametersSet,
      EncryptionParameterQualifiers.usingFFT,
      EncryptionParameterQualifiers.usingNTT,
      EncryptionParameterQualifiers.usingBatching,
      EncryptionParameterQualifiers.usingFastPlainLift,
      EncryptionParameterQualifiers.usingDescendingModulusChain,
      EncryptionParameterQualifiers.securityLevel,
      EncryptionParameterQualifiers.getter,
      EncryptionParameterQualifiers.rethrow;
    run; repeat (rewrite Hs; simpl); rewrite Hcall; simpl;
    rewrite ?safe_spec; reflexivity.
Qed.

Lemma EvaluatorOptions_negate_raises library W w h o we wd e hp :
  slot_of W w = VHandle h ->
  heap W !! h = Some o ->
  method library "negate" h [slot_of W we; slot_of W wd] (heap W)
    = (Throw (VError e), hp) ->
  fst (EvaluatorOptions.negate library w
         (VObject [("encrypted", VWrapper we); ("destination", VWrapper wd)])
         W)
  = Throw (VError (mkError "Error" (err_message e))).
Proof.
  intros Hs Hh Hm.
  pose proof (native_call_method library h "negate"
                [slot_of W we; slot_of W wd] W o _ hp Hh
                eq_refl eq_refl eq_refl Hm) as Hcall.
  unfold EvaluatorOptions.negate, EvaluatorOptions.rethrow.
  run. repeat (rewrite Hs; simpl).
  change (default VUndefined (slots W !! we)) with (slot_of W we).
  change (default VUndefined (slots W !! wd)) with (slot_of W wd).
  rewrite Hcall. reflexivity.
Qed.

Lemma save_of_raises library k W w h o v :
  slot_of W w = VHandle h ->
  heap W !! h = Some o ->
  saveToString library o (save_args library k) = Throw v ->
  fst (save_of library k w W) = Throw v.
Proof.
  intros Hs Hh Hv. rewrite (save_of_handle library k W w h Hs).
  by rewrite Hh.
Qed.

(** C9, as stated, fails: [Context.parametersSet] has no guard, so the
    number the native call raises reaches the caller as it is, not as the
    normalizer's [Error]. *)
Lemma C9_counterexample :
  ~ (forall library op W w h o v hp,
       slot_of W w = VHandle h ->
       heap W !! h = Some o ->
       method library (method_name op) h [] (heap W) = (Throw v, hp) ->
       fst (run_op library op w W) = Throw (normalized library v)).
Proof.
  intros H.
  specialize (H Toy.failing Context_parametersSet Toy.world 0 0
                (mkNObj "RelinKeys" "k0") (VNum 7) (heap Toy.world)
                eq_refl eq_refl eq_refl).
  vm_compute in H. discriminate H.
Qed.

(** C9, amended: a failure of a native call goes through the normalizer
    once where the call site is guarded by
    [catch (e) { throw _Exception.safe({ error: e }) }], as the getters of
    EncryptionParameterQualifiers are: the caller then observes what [safe]
    returns.  The unguarded call sites (the getters of Context, [save]) let
    the raised value through as it is, and the Evaluator that takes an
    options object does not call [safe]: it throws a new [Error] carrying
    the message of the [Error] that was raised. *)
Theorem C9_failure_paths library (op : DomainOp) (W : World) (w h : nat)
  (o : NObj) (v : JsVal) (hp : gmap nat NObj) :
  slot_of W w = VHandle h ->
  heap W !! h = Some o ->
  method library (method_name op) h [] (heap W) = (Throw v, hp) ->
  (fst (run_op library op w W) =
     match kind_of_op op with
     | RContext => Throw v
     | _ => Throw (normalized library v)
     end) /\
  (forall W0, Exception.safe library (VObject [("error", v)]) W0
              = (Ok (normalized library v), W0)) /\
  (forall k v0, saveToString library o (save_args library k) = Throw v0 ->
     fst (save_of library k w W) = Throw v0) /\
  (forall we wd e hp0,
     method library "negate" h [slot_of W we; slot_of W wd] (heap W)
       = (Throw (VError e), hp0) ->
     fst (EvaluatorOptions.negate library w
            (VObject [("encrypted", VWrapper we);
                      ("destination", VWrapper wd)]) W)
     = Throw (VError (mkError "Error" (err_message e)))).
Proof.
  intros Hs Hh Hm. repeat split.
  - eapply run_op_raises; eauto.
  - intros W0. apply safe_spec.
  - intros k v0 Hv. eapply save_of_raises; eauto.
  - intros we wd e hp0 Hn.
    eapply EvaluatorOptions_negate_raises; eauto.
Qed.

Lemma C9_failure_paths_witness :
  (fst (run_op Toy.failing Qualifiers_usingNTT 0 Toy.world) =
     Throw (normalized Toy.failing (VNum 7))) /\
  (forall W0, Exception.safe Toy.failing (VObject [("error", VNum 7)]) W0
              = (Ok (normalized Toy.failing (VNum 7)), W0)) /\
  (forall k v0,
     saveToString Toy.failing (mkNObj "RelinKeys" "k0")
       (save_args Toy.failing k) = Throw v0 ->
     fst (save_of Toy.failing k 0 Toy.world) = Throw v0) /\
  (forall we wd e hp0,
     method Toy.failing "negate" 0
       [slot_of Toy.world we; slot_of Toy.world wd] (heap Toy.world)
       = (Throw (VError e), hp0) ->
     fst (EvaluatorOptions.negate Toy.failing 0
            (VObject [("encrypted", VWrapper we);
                      ("destination", VWrapper wd)]) Toy.world)
     = Throw (VError (mkError "Error" (err_message e)))).
Proof.
  apply (C9_failure_paths Toy.failing Qualifiers_usingNTT Toy.world 0 0
           (mkNObj "RelinKeys" "k0") (VNum 7) (heap Toy.world));
    reflexivity.
Defined.

(** ** The Evaluator without a destination *)

Lemma Evaluator_rethrow_throws safe e W :
  exists v, fst (Evaluator.rethrow (A := JsVal) safe e W) = Throw v.
Proof.
  unfold Evaluator.rethrow, bind, throw.
  destruct (safe e W) as [[a|v] W']; simpl; eauto.
Qed.

Lemma eval_args_third_throws (a b : M JsVal) W :
  exists v W',
    eval_args [a; b; get_prop VUndefined "instance"] W = (Throw v, W').
Proof.
  simpl. unfold bind, throw.
  destruct (a W) as [[x|x] W1]; [|eauto].
  destruct (b W1) as [[y|y] W2]; eauto.
Qed.

(** [add] follows the rule: with a destination the native [add] is run
    into it and nothing is returned; without one, the same native [add] is
    run into the wrapper the factory has just made, and that wrapper is
    returned. *)
Lemma Evaluator_add_spec library safe CT this wa wb W h o :
  slot_of W this = VHandle h ->
  heap W !! h = Some o ->
  (forall wd r hp,
     method library "add" h [slot_of W wa; slot_of W wb; slot_of W wd]
       (heap W) = (Ok r, hp) ->
     Evaluator.add library safe CT this (VWrapper wa) (VWrapper wb)
       (VWrapper wd) W =
       (Ok VUndefined,
        mkWorld (slots W) hp (next_handle W) (next_wrapper W)
          (trace W ++
           [ECall h "add" [slot_of W wa; slot_of W wb; slot_of W wd]]))) /\
  (forall wt W1 r hp,
     CT W = (Ok (VWrapper wt), W1) ->
     slot_of W1 this = VHandle h ->
     heap W1 !! h = Some o ->
     method library "add" h [slot_of W1 wa; slot_of W1 wb; slot_of W1 wt]
       (heap W1) = (Ok r, hp) ->
     Evaluator.add library safe CT this (VWrapper wa) (VWrapper wb)
       VUndefined W =
       (Ok (VWrapper wt),
        mkWorld (slots W1) hp (next_handle W1) (next_wrapper W1)
          (trace W1 ++
           [ECall h "add" [slot_of W1 wa; slot_of W1 wb; slot_of W1 wt]]))).
Proof.
  intros Hs Hh. split.
  - intros wd r hp Hm.
    pose proof (native_call_method library h "add" _ W o _ hp Hh
                  eq_refl eq_refl eq_refl Hm) as Hcall.
    unfold Evaluator.add, Evaluator.call. run. repeat (rewrite Hs; simpl).
    change (default VUndefined (slots W !! wa)) with (slot_of W wa).
    change (default VUndefined (slots W !! wb)) with (slot_of W wb).
    change (default VUndefined (slots W !! wd)) with (slot_of W wd).
    by rewrite Hcall.
  - intros wt W1 r hp Hct Hs1 Hh1 Hm.
    pose proof (native_call_method library h "add" _ W1 o _ hp Hh1
                  eq_refl eq_refl eq_refl Hm) as Hcall.
    unfold Evaluator.add, Evaluator.call. run. rewrite Hct.
    repeat (rewrite Hs1; simpl).
    change (default VUndefined (slots W1 !! wa)) with (slot_of W1 wa).
    change (default VUndefined (slots W1 !! wb)) with (slot_of W1 wb).
    change (default VUndefined (slots W1 !! wt)) with (slot_of W1 wt).
    by rewrite Hcall.
Qed.

(** [sub] is the pattern all the operations follow: without a destination
    the native operation is run into a fresh wrapper and that wrapper is
    returned; with one, the same native operation is run into it and
    nothing is returned. *)
Example Evaluator_sub_runs :
  Evaluator.sub Toy.library Toy.safe Toy.CipherText 0
    (VWrapper 1) (VWrapper 2) VUndefined Toy.world
  = (Ok (VWrapper 3),
     mkWorld (<[3 := VHandle 3]> (slots Toy.world))
       (<[3 := mkNObj "Ciphertext" "new Ciphertext"]> (heap Toy.world))
       4 4
       [ENew "Ciphertext" [] 3;
        ECall 0 "sub" [VHandle 1; VHandle 2; VHandle 3]])
  /\
  Evaluator.sub Toy.library Toy.safe Toy.CipherText 0
    (VWrapper 1) (VWrapper 2) (VWrapper 2) Toy.world
  = (Ok VUndefined,
     mkWorld (slots Toy.world) (heap Toy.world) 3 3
       [ECall 0 "sub" [VHandle 1; VHandle 2; VHandle 2]]).
Proof. split; vm_compute; reflexivity. Qed.

(** C10: two operations break the rule when no destination is given.
    [addPlain] reads [destination.instance] of the missing destination, so
    it throws for every engine, normalizer and operand, and never returns
    the fresh wrapper; [cipherTransformFromNtt] runs the native
    [cipherTransformToNtt] into the fresh wrapper, not the operation that
    its form with a destination runs. *)
Theorem C10_destinationless_slips :
  (forall library safe CipherText this encrypted plain W,
     exists v,
       fst (Evaluator.addPlain library safe CipherText this encrypted plain
              VUndefined W) = Throw v) /\
  trace (snd (Evaluator.cipherTransformFromNtt Toy.library Toy.safe
                Toy.CipherText 0 (VWrapper 1) VUndefined Toy.world))
  = [ENew "Ciphertext" [] 3;
     ECall 0 "cipherTransformToNtt" [VHandle 1; VHandle 3]] /\
  trace (snd (Evaluator.cipherTransformFromNtt Toy.library Toy.safe
                Toy.CipherText 0 (VWrapper 1) (VWrapper 2) Toy.world))
  = [ECall 0 "cipherTransformFromNtt" [VHandle 1; VHandle 2]] /\
  fst (Evaluator.addPlain Toy.library Toy.safe Toy.CipherText 0
         (VWrapper 1) (VWrapper 2) VUndefined Toy.world)
  = Throw (TypeError_read VUndefined "instance") /\
  fst (Evaluator.subPlain Toy.library Toy.safe Toy.CipherText 0
         (VWrapper 1) (VWrapper 2) VUndefined Toy.world)
  = Ok (VWrapper 3).
Proof.
  split; [|repeat split; vm_compute; reflexivity].
  intros library safe CT this enc plain W.
  unfold Evaluator.addPlain. simpl truthy. cbv iota.
  assert (Hbody : exists v W',
    (temp <~ CT ;;
     Evaluator.call library this "addPlain"
       [get_prop enc "instance"; get_prop plain "instance";
        get_prop VUndefined "instance"] ;;;
     ret temp) W = (Throw v, W')).
  { unfold bind at 1. destruct (CT W) as [[t|v] W1]; [|eauto].
    unfold Evaluator.call, invoke.
    unfold bind at 1. unfold bind at 1. unfold get_slot at 1.
    unfold bind at 1.
    destruct (member (slot_of W1 this) "addPlain" W1) as [[u|v] W2] eqn:E;
      [|eauto].
    unfold bind at 1.
    destruct (eval_args_third_throws (get_prop enc "instance")
                (get_prop plain "instance") W2) as (v & W3 & ->).
    eauto. }
  destruct Hbody as (v & W' & Hb).
  unfold try_catch. rewrite Hb.
  apply Evaluator_rethrow_throws.
Qed.

(** ** save followed by load *)

Lemma save_of_live library k W w h o :
  slot_of W w = VHandle h ->
  heap W !! h = Some o ->
  save_of library k w W =
    (saveToString library o (save_args library k),
     mkWorld (slots W) (heap W) (next_handle W) (next_wrapper W)
       (trace W ++ [ECall h "saveToString" (save_args library k)])).
Proof.
  intros Hs Hh.
  destruct k; simpl; unfold RelinKeys.save, PublicKey.save, PlainText.save;
    run; repeat (rewrite Hs; simpl); unfold native_call; rewrite Hh;
    reflexivity.
Qed.

Lemma fresh_of_spec library k W st :
  construct library (class_of k) [] (heap W) = Ok st ->
  fresh_of library k W =
    (Ok (VWrapper (next_wrapper W)),
     mkWorld (<[next_wrapper W := VHandle (next_handle W)]> (slots W))
       (<[next_handle W := mkNObj (class_of k) st]> (heap W))
       (S (next_handle W)) (S (next_wrapper W))
       (trace W ++ [ENew (class_of k) [] (next_handle W)])).
Proof.
  intros Hc.
  destruct k; simpl in *;
    unfold RelinKeys.constructor, PublicKey.constructor, PlainText.PlainText,
      native_new;
    run; rewrite Hc; reflexivity.
Qed.

Lemma forwarded_context_other k context W W' w v :
  context <> VWrapper w ->
  slots W' = <[w := v]> (slots W) ->
  forwarded_context k context W' = forwarded_context k context W.
Proof.
  intros Hne Hsl.
  assert (H : fst (get_prop context "instance" W')
              = fst (get_prop context "instance" W)).
  { destruct context; simpl; try reflexivity.
    unfold slot_of. rewrite Hsl. rewrite lookup_insert_ne; [done|].
    congruence. }
  by destruct k.
Qed.



(** At the failing input: the object of wrapper [0] is saved, a fresh
    wrapper of the kind is made (wrapper [3]), the encoding is loaded into
    it under the context wrapper [2], and the fresh wrapper is saved.  On an
    engine whose loader inverts its serializer and takes a native context,
    RelinKeys and PlainText give the encoding back; PublicKey fails in
    [load], and its fresh wrapper still saves as a new object does. *)
Example PublicKey_round_trip_fails :
  let round_trip k :=
    (s <~ save_of Toy.library k 0 ;;
     fresh_of Toy.library k ;;;
     load_of Toy.library k 3 (VWrapper 2) s ;;;
     save_of Toy.library k 3) Toy.world in
  fst (save_of Toy.library KPublicKey 0 Toy.world) = Ok (VStr "seal:k0") /\
  fst (round_trip KRelinKeys) = Ok (VStr "seal:k0") /\
  fst (round_trip KPlainText) = Ok (VStr "seal:k0") /\
  fst (round_trip KPublicKey) = Throw (VNum 5) /\
  fst ((fresh_of Toy.library KPublicKey ;;;
        try_catch
          (load_of Toy.library KPublicKey 3 (VWrapper 2) (VStr "seal:k0"))
          (fun _ => ret VUndefined) ;;;
        save_of Toy.library KPublicKey 3) Toy.world)
    = Ok (VStr "seal:new PublicKey").
Proof. repeat split; vm_compute; reflexivity. Qed.

(** * Further properties *)

(** ** Every operation of the positional Evaluator *)

Lemma guarded_ok {A} (m : M A) handler W a W' :
  m W = (Ok a, W') -> try_catch m handler W = (Ok a, W').
Proof. intros H. unfold try_catch. by rewrite H. Qed.

Lemma guarded_throw {A} (m : M A) handler W v W' :
  m W = (Throw v, W') -> try_catch m handler W = handler v W'.
Proof. intros H. unfold try_catch. by rewrite H. Qed.

Lemma bind_raise {A B} (m : M A) (k : A -> M B) W v W' :
  m W = (Throw v, W') -> bind m k W = (Throw v, W').
Proof. intros H. unfold bind. by rewrite H. Qed.

Lemma truthy_not_nullish v : truthy v = true -> nullish v = false.
Proof. by destruct v. Qed.

Lemma get_prop_instance v W :
  nullish v = false ->
  get_prop v "instance" W = (Ok (instance_of W v), W).
Proof. by destruct v. Qed.

Lemma invoke_handle library h m args vs W :
  eval_args args W = (Ok vs, W) ->
  invoke library (VHandle h) m args W = native_call library h m vs W.
Proof.
  intros H. unfold invoke. simpl member.
  eapply bind_step; [reflexivity|].
  eapply bind_step; [exact H|]. reflexivity.
Qed.

Lemma Evaluator_call_live library this m args vs W h o r hp :
  slot_of W this = VHandle h ->
  heap W !! h = Some o ->
  String.eqb m "delete" = false ->
  String.eqb m "saveToString" = false ->
  String.eqb m "loadFromString" = false ->
  eval_args args W = (Ok vs, W) ->
  method library m h vs (heap W) = (r, hp) ->
  Evaluator.call library this m args W =
    (r, mkWorld (slots W) hp (next_handle W) (next_wrapper W)
          (trace W ++ [ECall h m vs])).
Proof.
  intros Hs Hh H1 H2 H3 He Hm. unfold Evaluator.call.
  eapply bind_step; [reflexivity|]. rewrite Hs.
  rewrite (invoke_handle library h m args vs W He).
  by apply (native_call_method library h m vs W o).
Qed.

Ltac unfold_evaluator :=
  unfold run_evaluator, Evaluator.negate, Evaluator.add, Evaluator.sub,
    Evaluator.multiply, Evaluator.square, Evaluator.relinearize,
    Evaluator.cipherModSwitchToNext, Evaluator.cipherModSwitchTo,
    Evaluator.plainModSwitchToNext, Evaluator.plainModSwitchTo,
    Evaluator.rescaleToNext, Evaluator.rescaleTo, Evaluator.exponentiate,
    Evaluator.addPlain, Evaluator.subPlain, Evaluator.multiplyPlain,
    Evaluator.plainTransformToNtt, Evaluator.cipherTransformToNtt,
    Evaluator.cipherTransformFromNtt, Evaluator.applyGalois,
    Evaluator.rotateRows, Evaluator.rotateColumns, Evaluator.rotateVector,
    Evaluator.complexConjugate;
  cbv zeta.

(** The arguments of a call evaluate to the expected values and leave the
    world as it is. *)
Lemma eval_args_cons (a : M JsVal) rest v vs W :
  a W = (Ok v, W) ->
  eval_args rest W = (Ok vs, W) ->
  eval_args (a :: rest) W = (Ok (v :: vs), W).
Proof.
  intros Ha Hr. simpl.
  eapply bind_step; [exact Ha|].
  eapply bind_step; [exact Hr|]. reflexivity.
Qed.

Ltac eval_operands :=
  repeat (apply eval_args_cons;
          [first [apply get_prop_instance; auto | reflexivity] |]);
  reflexivity.

Ltac split_operands :=
  repeat match goal with
         | H : _ /\ _ |- _ => destruct H
         | H : true = true -> _ |- _ => specialize (H eq_refl)
         end.

(** With a destination, each of the twenty-four operations makes one native
    call, of its own name, on the instances of its operands and of the
    destination (and the pool, by default the global one), and returns
    nothing. *)
Theorem Evaluator_with_destination library safe global CT PT
  (this : nat) (op : EvOp) (x y z d pool : JsVal) (W : World)
  (h : nat) (o : NObj) (r : JsVal) (hp : gmap nat NObj) :
  slot_of W this = VHandle h ->
  heap W !! h = Some o ->
  truthy d = true ->
  operands_ok (op_modes false op) (taken op x y z) ->
  method library (op_name op) h
    (native_args false global op W (taken op x y z) d pool) (heap W)
    = (Ok r, hp) ->
  run_evaluator library safe global CT PT this op x y z d pool W =
    (Ok VUndefined,
     mkWorld (slots W) hp (next_handle W) (next_wrapper W)
       (trace W ++
        [ECall h (op_name op)
           (native_args false global op W (taken op x y z) d pool)])).
Proof.
  intros Hs Hh Ht Hok Hm.
  pose proof (truthy_not_nullish d Ht) as Hd.
  unfold native_args, taken in *.
  destruct op; simpl in Hok, Hm |- *; split_operands; unfold_evaluator;
    rewrite Ht; apply guarded_ok;
    (eapply bind_step; [|reflexivity]);
    (eapply Evaluator_call_live;
      [exact Hs | exact Hh | reflexivity | reflexivity | reflexivity
      | eval_operands | exact Hm]).
Qed.

(** Without a destination, every operation but [addPlain] and
    [cipherTransformFromNtt] asks the factory of its result kind for a new
    wrapper, makes the native call of its own name with the instance of
    that wrapper in the place of the destination, and returns the
    wrapper. *)
Theorem Evaluator_without_destination library safe global CT PT
  (this : nat) (op : EvOp) (x y z d pool temp : JsVal) (W W1 : World)
  (h : nat) (o : NObj) (r : JsVal) (hp : gmap nat NObj) :
  op_regular op = true ->
  truthy d = false ->
  (if op_makes_plain op then PT else CT) W = (Ok temp, W1) ->
  nullish temp = false ->
  slot_of W1 this = VHandle h ->
  heap W1 !! h = Some o ->
  operands_ok (op_modes false op) (taken op x y z) ->
  method library (op_name op) h
    (native_args false global op W1 (taken op x y z) temp pool) (heap W1)
    = (Ok r, hp) ->
  run_evaluator library safe global CT PT this op x y z d pool W =
    (Ok temp,
     mkWorld (slots W1) hp (next_handle W1) (next_wrapper W1)
       (trace W1 ++
        [ECall h (op_name op)
           (native_args false global op W1 (taken op x y z) temp pool)])).
Proof.
  intros Hreg Ht Hf Htemp Hs Hh Hok Hm.
  unfold native_args, taken in *.
  destruct op; try discriminate Hreg;
    simpl in Hok, Hm, Hf |- *; split_operands; unfold_evaluator;
    rewrite Ht; apply guarded_ok;
    (eapply bind_step; [exact Hf|]);
    (eapply bind_step; [|reflexivity]);
    (eapply Evaluator_call_live;
      [exact Hs | exact Hh | reflexivity | reflexivity | reflexivity
      | eval_operands | exact Hm]).
Qed.

Lemma Evaluator_without_destination_witness :
  run_evaluator Toy.library Toy.safe (VStr "pool") Toy.CipherText
    Toy.CipherText 0 E_rotateRows (VWrapper 1) (VNum 3) (VWrapper 2)
    VUndefined VUndefined Toy.world
  = (Ok (VWrapper 3),
     mkWorld (slots Toy_world_with_result) (heap Toy_world_with_result)
       (next_handle Toy_world_with_result)
       (next_wrapper Toy_world_with_result)
       (trace Toy_world_with_result ++
        [ECall 0 (op_name E_rotateRows)
           (native_args false (VStr "pool") E_rotateRows
              Toy_world_with_result
              (taken E_rotateRows (VWrapper 1) (VNum 3) (VWrapper 2))
              (VWrapper 3) VUndefined)])).
Proof.
  apply (Evaluator_without_destination Toy.library Toy.safe (VStr "pool")
           Toy.CipherText Toy.CipherText 0 E_rotateRows (VWrapper 1)
           (VNum 3) (VWrapper 2) VUndefined VUndefined (VWrapper 3)
           Toy.world Toy_world_with_result
           0 (mkNObj "RelinKeys" "k0") VUndefined
           (heap Toy_world_with_result));
    try reflexivity.
  simpl. tauto.
Defined.

Lemma Evaluator_with_destination_witness :
  run_evaluator Toy.library Toy.safe (VStr "pool") Toy.CipherText
    Toy.CipherText 0 E_exponentiate (VWrapper 1) (VNum 5) (VWrapper 2)
    (VWrapper 1) VUndefined Toy.world
  = (Ok VUndefined,
     mkWorld (slots Toy.world) (heap Toy.world) (next_handle Toy.world)
       (next_wrapper Toy.world)
       (trace Toy.world ++
        [ECall 0 (op_name E_exponentiate)
           (native_args false (VStr "pool") E_exponentiate Toy.world
              (taken E_exponentiate (VWrapper 1) (VNum 5) (VWrapper 2))
              (VWrapper 1) VUndefined)])).
Proof.
  apply (Evaluator_with_destination Toy.library Toy.safe (VStr "pool")
           Toy.CipherText Toy.CipherText 0 E_exponentiate (VWrapper 1)
           (VNum 5) (VWrapper 2) (VWrapper 1) VUndefined Toy.world
           0 (mkNObj "RelinKeys" "k0") VUndefined (heap Toy.world));
    try reflexivity.
  simpl. tauto.
Defined.

Lemma releases_of_call h tr h' m args :
  String.eqb m "delete" = false ->
  releases_of h (tr ++ [ECall h' m args]) = releases_of h tr.
Proof.
  intros Hm. unfold releases_of. rewrite List.filter_app, length_app.
  simpl. rewrite Hm, andb_false_r. simpl. lia.
Qed.

(** When the native call of such an operation fails and no destination was
    given, the operation throws what the injected normalizer makes of the
    raised value; the wrapper that was made for the result has not been
    returned and no destructor has been called on anything: its native
    object is left allocated. *)
Theorem Evaluator_failure_leaves_result_allocated library safe global CT PT
  (this : nat) (op : EvOp) (x y z d pool temp v : JsVal) (W W1 : World)
  (h : nat) (o : NObj) (hp : gmap nat NObj) :
  op_regular op = true ->
  truthy d = false ->
  (if op_makes_plain op then PT else CT) W = (Ok temp, W1) ->
  nullish temp = false ->
  slot_of W1 this = VHandle h ->
  heap W1 !! h = Some o ->
  operands_ok (op_modes false op) (taken op x y z) ->
  method library (op_name op) h
    (native_args false global op W1 (taken op x y z) temp pool) (heap W1)
    = (Throw v, hp) ->
  let W2 := mkWorld (slots W1) hp (next_handle W1) (next_wrapper W1)
              (trace W1 ++
               [ECall h (op_name op)
                  (native_args false global op W1 (taken op x y z) temp
                     pool)]) in
  run_evaluator library safe global CT PT this op x y z d pool W =
    (e <~ safe v ;; throw e) W2 /\
  (forall h0, releases_of h0 (trace W2) = releases_of h0 (trace W1)) /\
  slots W2 = slots W1.
Proof.
  intros Hreg Ht Hf Htemp Hs Hh Hok Hm W2. subst W2.
  split; [|split; [|reflexivity]].
  - unfold native_args, taken in *.
    destruct op; try discriminate Hreg;
      simpl in Hok, Hm, Hf |- *; split_operands; unfold_evaluator;
      rewrite Ht;
      (erewrite guarded_throw; [reflexivity|]);
      (eapply bind_step; [exact Hf|]);
      apply bind_raise;
      (eapply Evaluator_call_live;
        [exact Hs | exact Hh | reflexivity | reflexivity | reflexivity
        | eval_operands | exact Hm]).
  - intros h0. simpl. apply releases_of_call. by destruct op.
Qed.

Lemma Evaluator_failure_leaves_result_allocated_witness :
  let W2 := mkWorld (slots Toy_world_with_result)
              (heap Toy_world_with_result)
              (next_handle Toy_world_with_result)
              (next_wrapper Toy_world_with_result)
              (trace Toy_world_with_result ++
               [ECall 0 (op_name E_square)
                  (native_args false (VStr "pool") E_square
                     Toy_world_with_result
                     (taken E_square (VWrapper 1) VUndefined VUndefined)
                     (VWrapper 3) VUndefined)]) in
  run_evaluator Toy.failing Toy.safe (VStr "pool") Toy.CipherText
    Toy.CipherText 0 E_square (VWrapper 1) VUndefined VUndefined
    VUndefined VUndefined Toy.world
  = (e <~ Toy.safe (VNum 7) ;; throw e) W2 /\
  (forall h0, releases_of h0 (trace W2)
              = releases_of h0 (trace Toy_world_with_result)) /\
  slots W2 = slots Toy_world_with_result.
Proof.
  apply (Evaluator_failure_leaves_result_allocated Toy.failing Toy.safe
           (VStr "pool") Toy.CipherText Toy.CipherText 0 E_square
           (VWrapper 1) VUndefined VUndefined VUndefined VUndefined
           (VWrapper 3) (VNum 7) Toy.world Toy_world_with_result
           0 (mkNObj "RelinKeys" "k0") (heap Toy_world_with_result));
    try reflexivity.
  simpl. tauto.
Defined.

(** ** Every operation of the Evaluator that takes an options object *)

Ltac unfold_evaluator_options :=
  unfold run_evaluator_options, EvaluatorOptions.negate,
    EvaluatorOptions.add, EvaluatorOptions.sub, EvaluatorOptions.multiply,
    EvaluatorOptions.square, EvaluatorOptions.relinearize,
    EvaluatorOptions.cipherModSwitchToNext,
    EvaluatorOptions.cipherModSwitchTo,
    EvaluatorOptions.plainModSwitchToNext,
    EvaluatorOptions.plainModSwitchTo, EvaluatorOptions.rescaleToNext,
    EvaluatorOptions.rescaleTo, EvaluatorOptions.exponentiate,
    EvaluatorOptions.addPlain, EvaluatorOptions.subPlain,
    EvaluatorOptions.multiplyPlain, EvaluatorOptions.plainTransformToNtt,
    EvaluatorOptions.cipherTransformToNtt,
    EvaluatorOptions.cipherTransformFromNtt, EvaluatorOptions.applyGalois,
    EvaluatorOptions.rotateRows, EvaluatorOptions.rotateColumns,
    EvaluatorOptions.rotateVector, EvaluatorOptions.complexConjugate.

(** Reading the fields of the options object. *)
Ltac destructure_options :=
  repeat (eapply bind_step; [reflexivity|]; cbv beta zeta).

Lemma EvaluatorOptions_guarded_call library this m args vs W h o r hp
  (handler : JsVal -> M JsVal) :
  slot_of W this = VHandle h ->
  heap W !! h = Some o ->
  String.eqb m "delete" = false ->
  String.eqb m "saveToString" = false ->
  String.eqb m "loadFromString" = false ->
  eval_args args W = (Ok vs, W) ->
  method library m h vs (heap W) = (r, hp) ->
  try_catch
    (inst <~ get_slot this ;; invoke library inst m args ;;; ret VUndefined)
    handler W =
    match r with
    | Ok _ =>
        (Ok VUndefined,
         mkWorld (slots W) hp (next_handle W) (next_wrapper W)
           (trace W ++ [ECall h m vs]))
    | Throw v =>
        handler v
          (mkWorld (slots W) hp (next_handle W) (next_wrapper W)
             (trace W ++ [ECall h m vs]))
    end.
Proof.
  intros Hs Hh H1 H2 H3 He Hm.
  assert (Hbody :
    (inst <~ get_slot this ;; invoke library inst m args ;;; ret VUndefined)
      W =
    match r with
    | Ok _ =>
        (Ok VUndefined,
         mkWorld (slots W) hp (next_handle W) (next_wrapper W)
           (trace W ++ [ECall h m vs]))
    | Throw v =>
        (Throw v,
         mkWorld (slots W) hp (next_handle W) (next_wrapper W)
           (trace W ++ [ECall h m vs]))
    end).
  { eapply bind_step; [reflexivity|]. rewrite Hs.
    rewrite (bind_invoke_handle library h m args vs _ W He).
    rewrite (native_call_method library h m vs W o r hp Hh H1 H2 H3 Hm).
    by destruct r. }
  unfold try_catch. rewrite Hbody. by destruct r.
Qed.

Lemma EvaluatorOptions_call_ok library this m args vs W h o r hp
  (handler : JsVal -> M JsVal) :
  slot_of W this = VHandle h ->
  heap W !! h = Some o ->
  String.eqb m "delete" = false ->
  String.eqb m "saveToString" = false ->
  String.eqb m "loadFromString" = false ->
  eval_args args W = (Ok vs, W) ->
  method library m h vs (heap W) = (Ok r, hp) ->
  try_catch
    (inst <~ get_slot this ;; invoke library inst m args ;;; ret VUndefined)
    handler W =
    (Ok VUndefined,
     mkWorld (slots W) hp (next_handle W) (next_wrapper W)
       (trace W ++ [ECall h m vs])).
Proof.
  intros Hs Hh H1 H2 H3 He Hm.
  by rewrite (EvaluatorOptions_guarded_call library this m args vs W h o
                (Ok r) hp handler Hs Hh H1 H2 H3 He Hm).
Qed.

Lemma EvaluatorOptions_call_raise library this m args vs W h o v hp
  (handler : JsVal -> M JsVal) :
  slot_of W this = VHandle h ->
  heap W !! h = Some o ->
  String.eqb m "delete" = false ->
  String.eqb m "saveToString" = false ->
  String.eqb m "loadFromString" = false ->
  eval_args args W = (Ok vs, W) ->
  method library m h vs (heap W) = (Throw v, hp) ->
  try_catch
    (inst <~ get_slot this ;; invoke library inst m args ;;; ret VUndefined)
    handler W =
    handler v
      (mkWorld (slots W) hp (next_handle W) (next_wrapper W)
         (trace W ++ [ECall h m vs])).
Proof.
  intros Hs Hh H1 H2 H3 He Hm.
  by rewrite (EvaluatorOptions_guarded_call library this m args vs W h o
                (Throw v) hp handler Hs Hh H1 H2 H3 He Hm).
Qed.

Lemma EvaluatorOptions_rethrow_spec library v W :
  EvaluatorOptions.rethrow (A := JsVal) library v W =
    (Throw (new_Error
              match v with
              | VNum _ => VStr (getException library VUndefined)
              | VError e => VStr (err_message e)
              | _ => v
              end), W).
Proof.
  unfold EvaluatorOptions.rethrow, Exception.getHuman. run.
  by destruct v.
Qed.

(** Each of the twenty-four operations reads its operands, the destination
    and (where it has one) the pool from the options object, makes one
    native call of its own name and returns nothing.  [parmsId] is passed
    as it is, the other objects by their instance. *)
Theorem EvaluatorOptions_call library global (this : nat) (op : EvOp)
  (fields : list (string * JsVal)) (W : World) (h : nat) (o : NObj)
  (r : JsVal) (hp : gmap nat NObj) :
  let xs := map (fun f => assoc f fields) (op_fields op) in
  let d := assoc (op_destination op) fields in
  let args := native_args true global op W xs d (assoc "pool" fields) in
  slot_of W this = VHandle h ->
  heap W !! h = Some o ->
  operands_ok (op_modes true op) xs ->
  nullish d = false ->
  method library (op_name op) h args (heap W) = (Ok r, hp) ->
  run_evaluator_options library global this op (VObject fields) W =
    (Ok VUndefined,
     mkWorld (slots W) hp (next_handle W) (next_wrapper W)
       (trace W ++ [ECall h (op_name op) args])).
Proof.
  intros xs d args Hs Hh Hok Hd Hm. subst xs d args.
  unfold native_args in *.
  destruct op; simpl in Hok, Hd, Hm |- *; split_operands;
    unfold_evaluator_options; destructure_options;
    (eapply EvaluatorOptions_call_ok;
      [exact Hs | exact Hh | reflexivity | reflexivity | reflexivity
      | eval_operands | exact Hm]).
Qed.

Lemma EvaluatorOptions_call_witness :
  run_evaluator_options Toy.library (VStr "pool") 0 E_rescaleTo
    (VObject Toy_rescale_options) Toy.world =
    (Ok VUndefined,
     mkWorld (slots Toy.world) (heap Toy.world) (next_handle Toy.world)
       (next_wrapper Toy.world)
       (trace Toy.world ++
        [ECall 0 (op_name E_rescaleTo)
           (native_args true (VStr "pool") E_rescaleTo Toy.world
              (map (fun f => assoc f Toy_rescale_options)
                 (op_fields E_rescaleTo))
              (assoc (op_destination E_rescaleTo) Toy_rescale_options)
              (assoc "pool" Toy_rescale_options))])).
Proof.
  apply (EvaluatorOptions_call Toy.library (VStr "pool") 0 E_rescaleTo
           Toy_rescale_options Toy.world 0 (mkNObj "RelinKeys" "k0")
           VUndefined (heap Toy.world));
    try reflexivity.
  simpl. tauto.
Defined.

(** When the native call fails, every operation throws a new [Error]: with
    the message of the [Error] that was raised, with the raised value as
    its message when that is neither a number nor an [Error], and, when a
    number was raised, with what the lookup returns for [undefined],
    because [getHuman] is handed the number where it reads the property
    [pointer] of its argument.  The message does not depend on the
    number. *)
Theorem EvaluatorOptions_failure library global (this : nat) (op : EvOp)
  (fields : list (string * JsVal)) (W : World) (h : nat) (o : NObj)
  (v : JsVal) (hp : gmap nat NObj) :
  let xs := map (fun f => assoc f fields) (op_fields op) in
  let d := assoc (op_destination op) fields in
  let args := native_args true global op W xs d (assoc "pool" fields) in
  slot_of W this = VHandle h ->
  heap W !! h = Some o ->
  operands_ok (op_modes true op) xs ->
  nullish d = false ->
  method library (op_name op) h args (heap W) = (Throw v, hp) ->
  run_evaluator_options library global this op (VObject fields) W =
    (Throw (new_Error
              match v with
              | VNum _ => VStr (getException library VUndefined)
              | VError e => VStr (err_message e)
              | _ => v
              end),
     mkWorld (slots W) hp (next_handle W) (next_wrapper W)
       (trace W ++ [ECall h (op_name op) args])).
Proof.
  intros xs d args Hs Hh Hok Hd Hm. subst xs d args.
  unfold native_args in *.
  destruct op; simpl in Hok, Hd, Hm |- *; split_operands;
    unfold_evaluator_options; destructure_options;
    (erewrite EvaluatorOptions_call_raise;
      [apply EvaluatorOptions_rethrow_spec
      | exact Hs | exact Hh | reflexivity | reflexivity
      | reflexivity | eval_operands | exact Hm]).
Qed.

Lemma EvaluatorOptions_failure_witness :
  run_evaluator_options Toy.failing (VStr "pool") 0 E_rescaleTo
    (VObject Toy_rescale_options) Toy.world =
    (Throw (new_Error (VStr (getException Toy.failing VUndefined))),
     mkWorld (slots Toy.world) (heap Toy.world) (next_handle Toy.world)
       (next_wrapper Toy.world)
       (trace Toy.world ++
        [ECall 0 (op_name E_rescaleTo)
           (native_args true (VStr "pool") E_rescaleTo Toy.world
              (map (fun f => assoc f Toy_rescale_options)
                 (op_fields E_rescaleTo))
              (assoc (op_destination E_rescaleTo) Toy_rescale_options)
              (assoc "pool" Toy_rescale_options))])).
Proof.
  apply (EvaluatorOptions_failure Toy.failing (VStr "pool") 0 E_rescaleTo
           Toy_rescale_options Toy.world 0 (mkNObj "RelinKeys" "k0")
           (VNum 7) (heap Toy.world));
    try reflexivity.
  simpl. tauto.
Defined.

Lemma eval_args_head_raise (a : M JsVal) rest e W W' :
  a W = (Throw e, W') -> eval_args (a :: rest) W = (Throw e, W').
Proof. intros H. simpl. by apply bind_raise. Qed.

Lemma eval_args_cons_raise (a : M JsVal) rest v e W W' :
  a W = (Ok v, W) ->
  eval_args rest W = (Throw e, W') ->
  eval_args (a :: rest) W = (Throw e, W').
Proof.
  intros Ha Hr. simpl. eapply bind_step; [exact Ha|].
  by apply bind_raise.
Qed.

Lemma invoke_args_raise library h m args e W W' :
  eval_args args W = (Throw e, W') ->
  invoke library (VHandle h) m args W = (Throw e, W').
Proof.
  intros H. unfold invoke. simpl member.
  eapply bind_step; [reflexivity|]. by apply bind_raise.
Qed.

Ltac operands_raise :=
  repeat first
    [ apply eval_args_head_raise; reflexivity
    | eapply eval_args_cons_raise;
      [first [apply get_prop_instance; auto | reflexivity] |] ].

(** This variant has no form without a destination: when the options carry
    none, the [TypeError] of reading [instance] of [undefined] is caught
    and a plain [Error] is thrown in its place; the native method is not
    called and nothing changes. *)
Theorem EvaluatorOptions_needs_destination library global (this : nat)
  (op : EvOp) (fields : list (string * JsVal)) (W : World) (h : nat) :
  slot_of W this = VHandle h ->
  operands_ok (op_modes true op)
    (map (fun f => assoc f fields) (op_fields op)) ->
  assoc (op_destination op) fields = VUndefined ->
  exists msg,
    run_evaluator_options library global this op (VObject fields) W =
      (Throw (VError (mkError "Error" msg)), W).
Proof.
  intros Hs Hok Hd. eexists.
  assert (Hbody : forall m args W0,
    slot_of W0 this = VHandle h ->
    eval_args args W0 = (Throw (TypeError_read VUndefined "instance"), W0) ->
    try_catch
      (inst <~ get_slot this ;; invoke library inst m args ;;;
       ret VUndefined)
      (EvaluatorOptions.rethrow library) W0 =
    (Throw (VError (mkError "Error"
              "Cannot read properties of undefined (reading 'instance')")),
     W0)).
  { intros m args W0 Hs0 He.
    rewrite (guarded_throw _ _ W0
               (TypeError_read VUndefined "instance") W0).
    - by rewrite EvaluatorOptions_rethrow_spec.
    - eapply bind_step; [reflexivity|]. rewrite Hs0.
      apply bind_raise. by apply invoke_args_raise. }
  destruct op; simpl in Hok, Hd |- *; split_operands;
    unfold_evaluator_options; destructure_options; rewrite Hd;
    (apply Hbody; [exact Hs | operands_raise]).
Qed.

Lemma EvaluatorOptions_needs_destination_witness :
  exists msg,
    run_evaluator_options Toy.library (VStr "pool") 0 E_negate
      (VObject [("encrypted", VWrapper 1)]) Toy.world =
      (Throw (VError (mkError "Error" msg)), Toy.world).
Proof.
  apply (EvaluatorOptions_needs_destination Toy.library (VStr "pool") 0
           E_negate [("encrypted", VWrapper 1)] Toy.world 0);
    try reflexivity.
  simpl. tauto.
Defined.

(** ** ParmsIdType *)

Lemma ParmsIdType_factory_copy library (W : World) (p : nat)
  (op : NObj) (st : string) :
  heap W !! p = Some op ->
  next_handle W <> p ->
  construct library "ParmsIdType" [VHandle p] (heap W) = Ok st ->
  ParmsIdType.ParmsIdType library (VHandle p) W =
    (Ok (VWrapper (next_wrapper W)),
     mkWorld (<[next_wrapper W := VHandle (next_handle W)]> (slots W))
       (base.delete p
          (<[next_handle W := mkNObj "ParmsIdType" st]> (heap W)))
       (S (next_handle W)) (S (next_wrapper W))
       (trace W ++ [ENew "ParmsIdType" [VHandle p] (next_handle W)]
                ++ [ECall p "delete" []])).
Proof.
  intros Hp Hne Hc.
  unfold ParmsIdType.ParmsIdType, ParmsIdType.createParms. simpl.
  unfold native_new at 1. run. rewrite Hc. simpl.
  unfold native_call. simpl.
  rewrite lookup_insert_ne by done. rewrite Hp. simpl.
  by rewrite <- app_assoc.
Qed.

(** Built from a native instance, a ParmsIdType never keeps it: the wrapper
    holds a copy made by the native copy constructor, and the instance that
    was passed in is destroyed, once. *)
Theorem ParmsIdType_adopts_by_copy library (W : World) (p : nat)
  (op : NObj) (st : string) :
  heap W !! p = Some op ->
  next_handle W <> p ->
  construct library "ParmsIdType" [VHandle p] (heap W) = Ok st ->
  ParmsIdType.ParmsIdType library (VHandle p) W =
    (Ok (VWrapper (next_wrapper W)),
     mkWorld (<[next_wrapper W := VHandle (next_handle W)]> (slots W))
       (base.delete p
          (<[next_handle W := mkNObj "ParmsIdType" st]> (heap W)))
       (S (next_handle W)) (S (next_wrapper W))
       (trace W ++ [ENew "ParmsIdType" [VHandle p] (next_handle W)]
                ++ [ECall p "delete" []])).
Proof.
  intros Hp Hne Hc. by apply ParmsIdType_factory_copy with (op := op).
Qed.

Lemma ParmsIdType_adopts_by_copy_witness :
  ParmsIdType.ParmsIdType Toy.library (VHandle 2) Toy.world =
    (Ok (VWrapper (next_wrapper Toy.world)),
     mkWorld
       (<[next_wrapper Toy.world := VHandle (next_handle Toy.world)]>
          (slots Toy.world))
       (base.delete 2
          (<[next_handle Toy.world := mkNObj "ParmsIdType" "ctx"]>
             (heap Toy.world)))
       (S (next_handle Toy.world)) (S (next_wrapper Toy.world))
       (trace Toy.world
          ++ [ENew "ParmsIdType" [VHandle 2] (next_handle Toy.world)]
          ++ [ECall 2 "delete" []])).
Proof.
  apply (ParmsIdType_adopts_by_copy Toy.library Toy.world 2
           (mkNObj "SEALContext" "ctx") "ctx"); try reflexivity.
  discriminate.
Defined.

(** When the copy constructor fails, the factory lets the raised value
    through as it is, builds no wrapper, and the instance that was passed
    in has not been destroyed: nothing has changed. *)
Theorem ParmsIdType_failed_copy library (W : World) (instance v : JsVal) :
  truthy instance = true ->
  construct library "ParmsIdType" [instance] (heap W) = Throw v ->
  ParmsIdType.ParmsIdType library instance W = (Throw v, W).
Proof.
  intros Ht Hc.
  unfold ParmsIdType.ParmsIdType, ParmsIdType.createParms.
  replace (or_default instance VNull) with instance
    by (by destruct instance).
  rewrite Ht. unfold native_new. run. by rewrite Hc.
Qed.

Lemma ParmsIdType_failed_copy_witness :
  ParmsIdType.ParmsIdType Toy.library (VHandle 9) Toy.world
  = (Throw BindingError_deleted, Toy.world).
Proof.
  apply (ParmsIdType_failed_copy Toy.library Toy.world (VHandle 9));
    reflexivity.
Defined.

(** A failed [inject] is not undone: the handle the wrapper held has been
    destroyed and its slot is [null] by the time the copy constructor
    fails; the raised value gets through as it is and the instance that
    was passed in is not destroyed. *)
Theorem ParmsIdType_failed_inject library (W : World) (w h : nat) (o : NObj)
  (instance v : JsVal) :
  slot_of W w = VHandle h ->
  heap W !! h = Some o ->
  construct library "ParmsIdType" [instance] (base.delete h (heap W))
    = Throw v ->
  ParmsIdType.inject library w instance W =
    (Throw v,
     mkWorld (<[w := VNull]> (slots W)) (base.delete h (heap W))
       (next_handle W) (next_wrapper W)
       (trace W ++ [ECall h "delete" []])).
Proof.
  intros Hs Hh Hc. unfold ParmsIdType.inject.
  eapply bind_step; [eapply delete_if_held_live; eauto|].
  apply bind_raise. unfold native_new. simpl. by rewrite Hc.
Qed.

Lemma ParmsIdType_failed_inject_witness :
  ParmsIdType.inject Toy.library 0 (VHandle 9) Toy.world =
    (Throw BindingError_deleted,
     mkWorld (<[0 := VNull]> (slots Toy.world))
       (base.delete 0 (heap Toy.world))
       (next_handle Toy.world) (next_wrapper Toy.world)
       (trace Toy.world ++ [ECall 0 "delete" []])).
Proof.
  apply (ParmsIdType_failed_inject Toy.library Toy.world 0 0
           (mkNObj "RelinKeys" "k0") (VHandle 9)); reflexivity.
Defined.

(** ** inject and release together *)

(** Injecting a wrapper with the instance it already holds destroys that
    instance and stores it again: the wrapper is left holding a handle
    whose destructor has run. *)
Theorem inject_own_instance_dangles library (k : InjectKind) (W : World)
  (w h : nat) (o : NObj) :
  slot_of W w = VHandle h ->
  heap W !! h = Some o ->
  let W' := snd (inject_of library k w (slot_of W w) W) in
  slot_of W' w = VHandle h /\
  heap W' !! h = None /\
  releases_of h (trace W') = S (releases_of h (trace W)).
Proof.
  intros Hs Hh W'. subst W'. rewrite Hs.
  rewrite (inject_releases_once library k W w h o (VHandle h) Hs Hh).
  simpl. repeat split.
  - unfold slot_of. simpl. by rewrite lookup_insert_eq.
  - apply lookup_delete_eq.
  - unfold releases_of. rewrite List.filter_app, length_app. simpl.
    rewrite Nat.eqb_refl. simpl. lia.
Qed.

Lemma inject_own_instance_dangles_witness :
  let W' := snd (inject_of Toy.library IContext 0 (slot_of Toy.world 0)
                   Toy.world) in
  slot_of W' 0 = VHandle 0 /\
  heap W' !! 0 = None /\
  releases_of 0 (trace W') = S (releases_of 0 (trace Toy.world)).
Proof.
  apply (inject_own_instance_dangles Toy.library IContext Toy.world 0 0
           (mkNObj "RelinKeys" "k0")); reflexivity.
Defined.

(** The lasting alias that [inject] allows is a dangling handle in waiting:
    after [w2.inject(w1.instance)], releasing [w1] destroys the instance
    that [w2] still holds. *)
Theorem release_after_shared_inject library (k : InjectKind)
  (rk : ReleaseKind) (W : World) (w1 w2 h : nat) (o : NObj) :
  w1 <> w2 ->
  slot_of W w1 = VHandle h ->
  heap W !! h = Some o ->
  slot_of W w2 = VNull ->
  let W1 := snd (inject_of library k w2 (slot_of W w1) W) in
  let W2 := snd (release_of library rk w1 W1) in
  fst (release_of library rk w1 W1) = Ok VUndefined /\
  slot_of W2 w1 = VNull /\
  slot_of W2 w2 = VHandle h /\
  heap W2 !! h = None.
Proof.
  intros Hne Hs Hh Hs2 W1 W2. subst W2 W1. rewrite Hs.
  rewrite (inject_into_empty library k W w2 (VHandle h))
    by (by rewrite Hs2).
  simpl. rewrite release_of_unfold.
  erewrite bind_step;
    [ | eapply (delete_if_held_live library _ w1 h o) | reflexivity].
  - simpl. repeat split.
    + unfold slot_of. simpl. by rewrite lookup_insert_eq.
    + unfold slot_of. simpl. rewrite lookup_insert_ne by done.
      by rewrite lookup_insert_eq.
    + apply lookup_delete_eq.
  - unfold slot_of. simpl. rewrite lookup_insert_ne by done. exact Hs.
  - exact Hh.
Qed.

Lemma release_after_shared_inject_witness :
  let W := mkWorld (<[5 := VNull]> (slots Toy.world)) (heap Toy.world) 3 6
             [] in
  let W1 := snd (inject_of Toy.library IEvaluator 5 (slot_of W 0) W) in
  let W2 := snd (release_of Toy.library REvaluator 0 W1) in
  fst (release_of Toy.library REvaluator 0 W1) = Ok VUndefined /\
  slot_of W2 0 = VNull /\
  slot_of W2 5 = VHandle 0 /\
  heap W2 !! 0 = None.
Proof.
  apply (release_after_shared_inject Toy.library IEvaluator REvaluator
           (mkWorld (<[5 := VNull]> (slots Toy.world)) (heap Toy.world) 3 6
              []) 0 5 0 (mkNObj "RelinKeys" "k0"));
    try reflexivity.
  discriminate.
Defined.

(** Two injections in a row: the handle held at first and the one injected
    first are each destroyed once, in that order, and the wrapper holds the
    value injected last. *)
Theorem inject_twice library (k : InjectKind) (W : World) (w h h1 : nat)
  (o o1 : NObj) (v : JsVal) :
  slot_of W w = VHandle h ->
  heap W !! h = Some o ->
  h1 <> h ->
  heap W !! h1 = Some o1 ->
  (inject_of library k w (VHandle h1) ;;; inject_of library k w v) W =
    (Ok VUndefined,
     mkWorld (<[w := v]> (slots W))
       (base.delete h1 (base.delete h (heap W)))
       (next_handle W) (next_wrapper W)
       (trace W ++ [ECall h "delete" []; ECall h1 "delete" []])).
Proof.
  intros Hs Hh Hne Hh1.
  eapply bind_step; [by apply (inject_releases_once library k W w h o)|].
  erewrite (inject_releases_once library k _ w h1 o1).
  - simpl. rewrite insert_insert_eq. by rewrite <- app_assoc.
  - unfold slot_of. simpl. by rewrite lookup_insert_eq.
  - simpl. by rewrite lookup_delete_ne.
Qed.

Lemma inject_twice_witness :
  (inject_of Toy.library IPlainText 0 (VHandle 1) ;;;
   inject_of Toy.library IPlainText 0 VNull) Toy.world =
    (Ok VUndefined,
     mkWorld (<[0 := VNull]> (slots Toy.world))
       (base.delete 1 (base.delete 0 (heap Toy.world)))
       (next_handle Toy.world) (next_wrapper Toy.world)
       (trace Toy.world ++ [ECall 0 "delete" []; ECall 1 "delete" []])).
Proof.
  apply (inject_twice Toy.library IPlainText Toy.world 0 0 1
           (mkNObj "RelinKeys" "k0") (mkNObj "RelinKeys" "k1") VNull);
    try reflexivity.
  discriminate.
Defined.

(** ** More on the error normalizer *)

(** [safe] reads the property [error] of its argument and nothing else.
    Handed the raised value itself, as [Exception.safe(e)] does, it finds
    no such property on a number, a string or an [Error] and returns the
    generic unknown error, whatever was raised; handed [undefined] or
    [null] it throws the [TypeError] of the failed destructuring. *)
Theorem safe_on_the_raised_value_itself library (v : JsVal) (W : World) :
  Exception.safe library v W =
    match v with
    | VUndefined | VNull => (Throw (TypeError_read v "error"), W)
    | VObject fields => (Ok (normalized library (assoc "error" fields)), W)
    | _ => (Ok (new_Error (VStr "Unknown Error!")), W)
    end.
Proof.
  destruct v; try reflexivity.
  apply safe_spec.
Qed.

(** [getHuman] likewise: handed the exception number itself it looks up
    [undefined], whatever the number. *)
Theorem getHuman_on_the_pointer_itself library (n : Z) (W : World) :
  Exception.getHuman library (VNum n) W
    = (Ok (VStr (getException library VUndefined)), W) /\
  Exception.getHuman library (VObject [("pointer", VNum n)]) W
    = (Ok (VStr (getException library (VNum n))), W).
Proof. split; reflexivity. Qed.

(** Normalizing what the normalizer returned gives it back: an error is
    never wrapped twice. *)
Theorem safe_idempotent library (v : JsVal) (W : World) :
  exists e,
    Exception.safe library (VObject [("error", v)]) W = (Ok e, W) /\
    Exception.safe library (VObject [("error", e)]) W = (Ok e, W).
Proof.
  exists (normalized library v). rewrite !safe_spec. split; [done|].
  destruct (normalized_is_Error library v) as [e ->]. reflexivity.
Qed.

(** ** Options of inject, save and load *)

(** [inject] called without its options object fails while destructuring,
    before anything is released: the wrapper and the native heap are what
    they were.  This holds for every kind that takes [{instance}]. *)
Theorem inject_without_options library (w : nat) (W : World) :
  RelinKeys.inject library w VUndefined W
    = (Throw (TypeError_read VUndefined "instance"), W) /\
  PublicKey.inject w VUndefined W
    = (Throw (TypeError_read VUndefined "instance"), W) /\
  PlainText.inject library w VUndefined W
    = (Throw (TypeError_read VUndefined "instance"), W) /\
  EncryptionParameterQualifiers.inject library w VUndefined W
    = (Throw (TypeError_read VUndefined "instance"), W) /\
  EvaluatorOptions.inject library w VUndefined W
    = (Throw (TypeError_read VUndefined "instance"), W).
Proof. repeat split. Qed.

(** [inject({})], with options that carry no instance, does release the
    held handle and leaves the slot [undefined]. *)
Theorem inject_without_instance library (W : World) (w h : nat) (o : NObj) :
  slot_of W w = VHandle h ->
  heap W !! h = Some o ->
  RelinKeys.inject library w (VObject []) W =
    (Ok VUndefined,
     mkWorld (<[w := VUndefined]> (slots W)) (base.delete h (heap W))
       (next_handle W) (next_wrapper W)
       (trace W ++ [ECall h "delete" []])).
Proof.
  intros Hs Hh.
  exact (inject_releases_once library IRelinKeys W w h o VUndefined Hs Hh).
Qed.

Lemma inject_without_instance_witness :
  RelinKeys.inject Toy.library 0 (VObject []) Toy.world =
    (Ok VUndefined,
     mkWorld (<[0 := VUndefined]> (slots Toy.world))
       (base.delete 0 (heap Toy.world))
       (next_handle Toy.world) (next_wrapper Toy.world)
       (trace Toy.world ++ [ECall 0 "delete" []])).
Proof.
  apply (inject_without_instance Toy.library Toy.world 0 0
           (mkNObj "RelinKeys" "k0")); reflexivity.
Defined.

(** The compression of [save], for RelinKeys and PlainText alike.  Called
    with no argument, with an empty options object or with options whose
    compression is [undefined], [save] hands [ComprModeType.deflate] to the
    native [saveToString] as its only argument; a compression that is given
    ([null] included) is handed over in its place; in both cases the native
    completion is the completion of [save].  With [null] in the place of the
    options, [save] fails while destructuring and calls nothing. *)
Theorem save_compression_default library (W : World) (w h : nat) (o : NObj) :
  slot_of W w = VHandle h ->
  heap W !! h = Some o ->
  let saved_with c :=
    (saveToString library o [c],
     mkWorld (slots W) (heap W) (next_handle W) (next_wrapper W)
       (trace W ++ [ECall h "saveToString" [c]])) in
  (forall options,
     In options
       [VUndefined; VObject []; VObject [("compression", VUndefined)]] ->
     RelinKeys.save library w options W
       = saved_with (ComprModeType_deflate library) /\
     PlainText.save library w options W
       = saved_with (ComprModeType_deflate library)) /\
  (forall c,
     c <> VUndefined ->
     RelinKeys.save library w (VObject [("compression", c)]) W
       = saved_with c /\
     PlainText.save library w (VObject [("compression", c)]) W
       = saved_with c) /\
  RelinKeys.save library w VNull W
    = (Throw (TypeError_read VNull "compression"), W) /\
  PlainText.save library w VNull W
    = (Throw (TypeError_read VNull "compression"), W).
Proof.
  intros Hs Hh saved_with.
  assert (Hcall : forall c,
    native_call library h "saveToString" [c] W = saved_with c).
  { intros c. unfold native_call. by rewrite Hh. }
  assert (Hgiven : forall c fields,
    or_default (assoc "compression" fields) (ComprModeType_deflate library)
      = c ->
    RelinKeys.save library w (VObject fields) W = saved_with c /\
    PlainText.save library w (VObject fields) W = saved_with c).
  { intros c fields Hc.
    unfold RelinKeys.save, PlainText.save. run.
    change (match assoc "compression" fields with
            | VUndefined => ComprModeType_deflate library
            | _ => assoc "compression" fields
            end)
      with (or_default (assoc "compression" fields)
              (ComprModeType_deflate library)).
    rewrite Hc.
    repeat (rewrite Hs; simpl). by rewrite Hcall. }
  split; [|split; [|split; reflexivity]].
  - intros options [<-|[<-|[<-|[]]]];
      first [ by apply (Hgiven (ComprModeType_deflate library) [])
            | by apply (Hgiven (ComprModeType_deflate library)
                          [("compression", VUndefined)]) ].
  - intros c Hc. apply Hgiven. simpl. by destruct c.
Qed.

Lemma save_compression_default_witness :
  RelinKeys.save Toy.library 0 VUndefined Toy.world =
    (Ok (VStr "seal:k0"),
     mkWorld (slots Toy.world) (heap Toy.world) (next_handle Toy.world)
       (next_wrapper Toy.world)
       (trace Toy.world ++ [ECall 0 "saveToString" [VStr "deflate"]])) /\
  PlainText.save Toy.library 0 (VObject [("compression", VStr "none")])
    Toy.world =
    (Ok (VStr "seal:k0"),
     mkWorld (slots Toy.world) (heap Toy.world) (next_handle Toy.world)
       (next_wrapper Toy.world)
       (trace Toy.world ++ [ECall 0 "saveToString" [VStr "none"]])).
Proof.
  destruct (save_compression_default Toy.library Toy.world 0 0
              (mkNObj "RelinKeys" "k0") eq_refl eq_refl)
    as (Hdefault & Hgiven & _).
  split.
  - apply (Hdefault VUndefined). simpl. tauto.
  - apply (Hgiven (VStr "none")). discriminate.
Defined.

(** [load] into a wrapper whose slot is [null] throws the host's
    [TypeError] whatever the context and the encoding are, calls nothing
    and changes nothing. *)
Theorem load_into_empty library (k : CodecKind) (W : World) (w : nat)
  (context encoded : JsVal) :
  slot_of W w = VNull ->
  load_of library k w context encoded W
    = (Throw (TypeError_read VNull "loadFromString"), W).
Proof.
  intros Hs.
  destruct k; simpl; unfold RelinKeys.load, PublicKey.load, PlainText.load;
    run; repeat (rewrite Hs; simpl); reflexivity.
Qed.

Lemma load_into_empty_witness :
  load_of Toy.library KRelinKeys 5 VUndefined VUndefined
    (mkWorld (<[5 := VNull]> ∅) ∅ 0 6 [])
  = (Throw (TypeError_read VNull "loadFromString"),
     mkWorld (<[5 := VNull]> ∅) ∅ 0 6 []).
Proof.
  apply (load_into_empty Toy.library KRelinKeys
           (mkWorld (<[5 := VNull]> ∅) ∅ 0 6 []) 5 VUndefined VUndefined).
  reflexivity.
Defined.

(** [load] without a context: RelinKeys and PlainText fail on reading
    [context.instance] before the native loader is reached; PublicKey
    passes [undefined] on to the native loader. *)
Theorem load_without_context library (W : World) (w h : nat) (o : NObj)
  (encoded : JsVal) :
  slot_of W w = VHandle h ->
  heap W !! h = Some o ->
  load_of library KRelinKeys w VUndefined encoded W
    = (Throw (TypeError_read VUndefined "instance"), W) /\
  load_of library KPlainText w VUndefined encoded W
    = (Throw (TypeError_read VUndefined "instance"), W) /\
  trace (snd (load_of library KPublicKey w VUndefined encoded W))
    = trace W ++ [ECall h "loadFromString" [VUndefined; encoded]].
Proof.
  intros Hs Hh. repeat split.
  - simpl. unfold RelinKeys.load. run. repeat (rewrite Hs; simpl).
    reflexivity.
  - simpl. unfold PlainText.load. run. repeat (rewrite Hs; simpl).
    reflexivity.
  - destruct (loadFromString library (heap W) o [VUndefined; encoded])
      as [r o'] eqn:Hl.
    by rewrite (load_of_spec library KPublicKey W w h o VUndefined encoded
                  VUndefined r o' Hs Hh eq_refl Hl).
Qed.

Lemma load_without_context_witness :
  load_of Toy.library KRelinKeys 0 VUndefined (VStr "seal:k") Toy.world
    = (Throw (TypeError_read VUndefined "instance"), Toy.world) /\
  load_of Toy.library KPlainText 0 VUndefined (VStr "seal:k") Toy.world
    = (Throw (TypeError_read VUndefined "instance"), Toy.world) /\
  trace (snd (load_of Toy.library KPublicKey 0 VUndefined (VStr "seal:k")
                Toy.world))
    = trace Toy.world
      ++ [ECall 0 "loadFromString" [VUndefined; VStr "seal:k"]].
Proof.
  apply (load_without_context Toy.library Toy.world 0 0
           (mkNObj "RelinKeys" "k0") (VStr "seal:k")); reflexivity.
Defined.

(** ** Building wrappers *)

Lemma bind_after_rethrow {B} (safe : JsVal -> M JsVal) (m : M JsVal)
  (k : JsVal -> M B) v W :
  m W = (x <~ safe v ;; throw x) W ->
  bind m k W = (x <~ safe v ;; throw x) W.
Proof.
  intros H. unfold bind at 1. rewrite H. unfold bind, throw.
  destruct (safe v W) as [[x|x] W']; reflexivity.
Qed.

(** When the native constructor fails, the factories of Context and of the
    positional Evaluator build no wrapper and throw what the injected
    normalizer makes of the raised value; the factory of the Evaluator that
    takes an options object throws a new [Error] as its operations do.
    Nothing has been allocated. *)
Theorem failed_construction library safe (p e s v : JsVal) (W : World) :
  nullish p = false ->
  (construct library "SEALContext" [instance_of W p; e; s] (heap W)
     = Throw v ->
   Context.Context library safe p e s W = (x <~ safe v ;; throw x) W) /\
  (construct library "Evaluator" [instance_of W p] (heap W) = Throw v ->
   Evaluator.Evaluator library safe p W = (x <~ safe v ;; throw x) W) /\
  (construct library "Evaluator" [instance_of W p] (heap W) = Throw v ->
   EvaluatorOptions.Evaluator library (VObject [("context", p)]) W =
     (Throw (new_Error
               match v with
               | VNum _ => VStr (getException library VUndefined)
               | VError err => VStr (err_message err)
               | _ => v
               end), W)).
Proof.
  intros Hp. repeat split; intros Hc.
  - unfold Context.Context.
    apply bind_after_rethrow. erewrite guarded_throw; [reflexivity|].
    eapply bind_step; [by apply get_prop_instance|].
    unfold native_new. by rewrite Hc.
  - unfold Evaluator.Evaluator.
    apply bind_after_rethrow. erewrite guarded_throw; [reflexivity|].
    eapply bind_step; [by apply get_prop_instance|].
    unfold native_new. by rewrite Hc.
  - unfold EvaluatorOptions.Evaluator.
    eapply bind_step; [reflexivity|]. cbv beta. simpl assoc.
    apply bind_raise.
    rewrite (guarded_throw _ _ W v W).
    + apply EvaluatorOptions_rethrow_spec.
    + eapply bind_step; [by apply get_prop_instance|].
      unfold native_new. by rewrite Hc.
Qed.

Lemma failed_construction_witness :
  Context.Context Toy_failing_constructor Toy.safe
    (VObject [("instance", VHandle 2)]) (VBool true) (VNum 128) Toy.world
  = (x <~ Toy.safe (VNum 7) ;; throw x) Toy.world /\
  Evaluator.Evaluator Toy_failing_constructor Toy.safe
    (VObject [("instance", VHandle 2)]) Toy.world
  = (x <~ Toy.safe (VNum 7) ;; throw x) Toy.world /\
  EvaluatorOptions.Evaluator Toy_failing_constructor
    (VObject [("context", VObject [("instance", VHandle 2)])]) Toy.world =
    (Throw (new_Error
              (VStr (getException Toy_failing_constructor VUndefined))),
     Toy.world).
Proof.
  destruct (failed_construction Toy_failing_constructor Toy.safe
              (VObject [("instance", VHandle 2)]) (VBool true) (VNum 128)
              (VNum 7) Toy.world) as (H1 & H2 & H3); [reflexivity|].
  split; [|split]; [apply H1 | apply H2 | apply H3]; reflexivity.
Defined.

(** A wrapper that has just been built shares its handle with no other
    wrapper: building keeps the handles exclusive and below the counter. *)
Theorem fresh_wrapper_is_exclusive library (k : CodecKind) (W : World)
  (st : string) :
  exclusive W ->
  handles_bounded W ->
  construct library (class_of k) [] (heap W) = Ok st ->
  let W' := snd (fresh_of library k W) in
  fst (fresh_of library k W) = Ok (VWrapper (next_wrapper W)) /\
  slot_of W' (next_wrapper W) = VHandle (next_handle W) /\
  heap W' !! next_handle W = Some (mkNObj (class_of k) st) /\
  exclusive W' /\
  handles_bounded W'.
Proof.
  intros Hex Hb Hc W'. subst W'.
  rewrite (fresh_of_spec library k W st Hc). simpl.
  assert (Hslot : forall w,
    slot_of (mkWorld (<[next_wrapper W := VHandle (next_handle W)]> (slots W))
               (<[next_handle W := mkNObj (class_of k) st]> (heap W))
               (S (next_handle W)) (S (next_wrapper W))
               (trace W ++ [ENew (class_of k) [] (next_handle W)])) w =
    if decide (w = next_wrapper W) then VHandle (next_handle W)
    else slot_of W w).
  { intros w. unfold slot_of. simpl. case_decide as E.
    - subst. by rewrite lookup_insert_eq.
    - by rewrite lookup_insert_ne. }
  repeat split.
  - rewrite Hslot. by rewrite decide_True.
  - apply lookup_insert_eq.
  - intros w1 w2 h. rewrite !Hslot.
    repeat case_decide; subst; try done.
    + intros [= <-] H2. apply Hb in H2. lia.
    + intros H1 [= <-]. apply Hb in H1. lia.
    + apply Hex.
  - intros w h. rewrite Hslot. simpl. case_decide.
    + intros [= <-]. lia.
    + intros H1. apply Hb in H1. lia.
Qed.

Lemma Toy_world_bounded : handles_bounded Toy.world.
Proof.
  intros w h H. apply Toy_world_slots in H. unfold Toy.world. simpl. lia.
Qed.

Lemma fresh_wrapper_is_exclusive_witness :
  let W' := snd (fresh_of Toy.library KPublicKey Toy.world) in
  fst (fresh_of Toy.library KPublicKey Toy.world)
    = Ok (VWrapper (next_wrapper Toy.world)) /\
  slot_of W' (next_wrapper Toy.world) = VHandle (next_handle Toy.world) /\
  heap W' !! next_handle Toy.world
    = Some (mkNObj (class_of KPublicKey) "new PublicKey") /\
  exclusive W' /\
  handles_bounded W'.
Proof.
  apply (fresh_wrapper_is_exclusive Toy.library KPublicKey Toy.world
           "new PublicKey").
  - exact Toy_world_exclusive.
  - exact Toy_world_bounded.
  - reflexivity.
Defined.

(** ** The ParmsIdType getters of Context *)

(** [keyParmsId], [firstParmsId] and [lastParmsId] hand the instance that
    the native getter returns to the ParmsIdType factory: the caller gets a
    new wrapper around a copy, and the returned instance has been
    destroyed. *)
Theorem Context_parmsId_getters library (op : DomainOp) (W : World)
  (w h p : nat) (o po : NObj) (hp : gmap nat NObj) (st : string) :
  In op [Context_keyParmsId; Context_firstParmsId; Context_lastParmsId] ->
  slot_of W w = VHandle h ->
  heap W !! h = Some o ->
  method library (method_name op) h [] (heap W) = (Ok (VHandle p), hp) ->
  hp !! p = Some po ->
  next_handle W <> p ->
  construct library "ParmsIdType" [VHandle p] hp = Ok st ->
  run_op library op w W =
    (Ok (VWrapper (next_wrapper W)),
     mkWorld (<[next_wrapper W := VHandle (next_handle W)]> (slots W))
       (base.delete p (<[next_handle W := mkNObj "ParmsIdType" st]> hp))
       (S (next_handle W)) (S (next_wrapper W))
       (trace W ++ [ECall h (method_name op) []]
                ++ [ENew "ParmsIdType" [VHandle p] (next_handle W)]
                ++ [ECall p "delete" []])).
Proof.
  intros Hin Hs Hh Hm Hp Hne Hc.
  pose proof (native_call_method library h (method_name op) [] W o
                (Ok (VHandle p)) hp Hh) as Hcall.
  destruct Hin as [<-|[<-|[<-|[]]]]; simpl in *;
    specialize (Hcall eq_refl eq_refl eq_refl Hm);
    unfold Context.keyParmsId, Context.firstParmsId, Context.lastParmsId;
    (eapply bind_step; [reflexivity|]); rewrite Hs;
    (erewrite bind_invoke_handle; [|reflexivity]); rewrite Hcall;
    (erewrite ParmsIdType_factory_copy; [| exact Hp | exact Hne | exact Hc]);
    simpl; by rewrite <- !app_assoc.
Qed.

Lemma Context_parmsId_getters_witness :
  let lib := mkLibrary (getException Toy.library)
               (ComprModeType_deflate Toy.library) (construct Toy.library)
               (saveToString Toy.library) (loadFromString Toy.library)
               (fun m h args hp =>
                  (Ok (VHandle 8), <[8 := mkNObj "ParmsIdType" "id"]> hp))
               (static Toy.library) in
  run_op lib Context_firstParmsId 2 Toy.world =
    (Ok (VWrapper (next_wrapper Toy.world)),
     mkWorld
       (<[next_wrapper Toy.world := VHandle (next_handle Toy.world)]>
          (slots Toy.world))
       (base.delete 8
          (<[next_handle Toy.world := mkNObj "ParmsIdType" "id"]>
             (<[8 := mkNObj "ParmsIdType" "id"]> (heap Toy.world))))
       (S (next_handle Toy.world)) (S (next_wrapper Toy.world))
       (trace Toy.world
          ++ [ECall 2 (method_name Context_firstParmsId) []]
          ++ [ENew "ParmsIdType" [VHandle 8] (next_handle Toy.world)]
          ++ [ECall 8 "delete" []])).
Proof.
  intros lib.
  apply (Context_parmsId_getters lib Context_firstParmsId Toy.world 2 2 8
           (mkNObj "SEALContext" "ctx") (mkNObj "ParmsIdType" "id")
           (<[8 := mkNObj "ParmsIdType" "id"]> (heap Toy.world)) "id");
    try reflexivity; [simpl; tauto | discriminate].
Defined.

(** ** The forwarding methods of PlainText *)

Lemma PlainText_methods_forward library m f :
  In (m, f) (PlainText_methods library) ->
  f = PlainText.forward library m /\
  String.eqb m "delete" = false /\
  String.eqb m "saveToString" = false /\
  String.eqb m "loadFromString" = false.
Proof.
  unfold PlainText_methods. simpl. intros H.
  repeat (destruct H as [H|H]; [inversion H; subst; by repeat split|]).
  destruct H.
Qed.

(** A forwarding method of PlainText has no guard: on a live instance it
    makes one native call of its own name without arguments, and the
    completion of that call, a value or whatever was raised, is the
    completion of the method, unchanged.  A raised number or string is not
    turned into an [Error] as the Evaluator does.  No slot is written. *)
Theorem PlainText_forwards_unguarded library (m : string)
  (f : nat -> M JsVal) (W : World) (w h : nat) (o : NObj)
  (r : Result JsVal) (hp : gmap nat NObj) :
  In (m, f) (PlainText_methods library) ->
  slot_of W w = VHandle h ->
  heap W !! h = Some o ->
  method library m h [] (heap W) = (r, hp) ->
  f w W =
    (r, mkWorld (slots W) hp (next_handle W) (next_wrapper W)
          (trace W ++ [ECall h m []])).
Proof.
  intros Hin Hs Hh Hm.
  destruct (PlainText_methods_forward library m f Hin)
    as (-> & H1 & H2 & H3).
  unfold PlainText.forward.
  eapply bind_step; [reflexivity|]. rewrite Hs.
  rewrite <- (native_call_method library h m [] W o r hp Hh H1 H2 H3 Hm).
  unfold invoke. simpl member.
  eapply bind_step; [reflexivity|].
  eapply bind_step; [reflexivity|]. reflexivity.
Qed.

Lemma PlainText_forwards_unguarded_witness :
  PlainText.toPolynomial Toy.failing 0 Toy.world =
    (fst (method Toy.failing "toPolynomial" 0 [] (heap Toy.world)),
     mkWorld (slots Toy.world)
       (snd (method Toy.failing "toPolynomial" 0 [] (heap Toy.world)))
       (next_handle Toy.world) (next_wrapper Toy.world)
       (trace Toy.world ++ [ECall 0 "toPolynomial" []])).
Proof.
  apply (PlainText_forwards_unguarded Toy.failing "toPolynomial"
           (PlainText.toPolynomial Toy.failing) Toy.world 0 0
           (mkNObj "RelinKeys" "k0")); try reflexivity.
  simpl. tauto.
Defined.

(** PlainText has no [delete]; its instance is released by [inject] only.
    After [inject] has been handed the instance the wrapper already holds,
    every forwarding method reaches the boundary with the destroyed handle
    and fails with embind's [BindingError]; no native method runs. *)
Theorem PlainText_after_self_inject library (m : string)
  (f : nat -> M JsVal) (W : World) (w h : nat) (o : NObj) :
  In (m, f) (PlainText_methods library) ->
  slot_of W w = VHandle h ->
  heap W !! h = Some o ->
  let W' := snd (PlainText.inject library w
                   (VObject [("instance", slot_of W w)]) W) in
  f w W' =
    (Throw BindingError_deleted,
     mkWorld (slots W') (heap W') (next_handle W') (next_wrapper W')
       (trace W' ++ [ECall h m []])) /\
  heap W' = base.delete h (heap W).
Proof.
  intros Hin Hs Hh W'.
  destruct (PlainText_methods_forward library m f Hin) as (-> & _).
  pose proof (inject_releases_once library IPlainText W w h o
                (slot_of W w) Hs Hh) as Hi.
  simpl in Hi. subst W'. rewrite Hi. simpl. split; [|reflexivity].
  unfold PlainText.forward.
  eapply bind_step; [reflexivity|].
  unfold slot_of at 1. simpl. rewrite lookup_insert_eq. simpl. rewrite Hs.
  unfold invoke. simpl member.
  eapply bind_step; [reflexivity|].
  eapply bind_step; [reflexivity|].
  unfold apply_method, native_call. simpl.
  by rewrite lookup_delete_eq.
Qed.

Lemma PlainText_after_self_inject_witness :
  let W' := snd (PlainText.inject Toy.library 1
                   (VObject [("instance", slot_of Toy.world 1)])
                   Toy.world) in
  PlainText.isZero Toy.library 1 W' =
    (Throw BindingError_deleted,
     mkWorld (slots W') (heap W') (next_handle W') (next_wrapper W')
       (trace W' ++ [ECall 1 "isZero" []])) /\
  heap W' = base.delete 1 (heap Toy.world).
Proof.
  apply (PlainText_after_self_inject Toy.library "isZero"
           (PlainText.isZero Toy.library) Toy.world 1 1
           (mkNObj "RelinKeys" "k1")); try reflexivity.
  simpl. tauto.
Defined.

(** * Use after release *)

(** ** The slot after [delete] and after [inject] of [null] *)

Lemma released_slot_null library k W w :
  slot_ok W w -> slot_of (snd (release_of library k w W)) w = VNull.
Proof.
  intros Hok.
  destruct (release_twice library k W w Hok) as (W1 & -> & Hs & _).
  exact Hs.
Qed.

Lemma emptied_slot_null library k W w :
  slot_ok W w -> slot_of (snd (codec_inject_of library k w VNull W)) w = VNull.
Proof.
  intros Hok.
  destruct (codec_inject_of_spec library k W w VNull Hok) as (hp & -> & _).
  unfold slot_of. simpl. by rewrite lookup_insert_eq.
Qed.

Lemma emptied_evaluator_slot_null library W w :
  slot_ok W w ->
  slot_of (snd (EvaluatorOptions.inject library w
                  (VObject [("instance", VNull)]) W)) w = VNull.
Proof.
  intros Hok.
  destruct (inject_of_slots library IEvaluatorOptions W w VNull Hok)
    as (_ & Hsl).
  simpl in Hsl. unfold slot_of. rewrite Hsl. by rewrite lookup_insert_eq.
Qed.

(** ** Operations on an empty slot *)

(** [_instance.m(args)] with [_instance] null: the member read fails before
    any argument is evaluated. *)
Lemma invoke_on_null library m args W :
  invoke library VNull m args W = (Throw (TypeError_read VNull m), W).
Proof. reflexivity. Qed.

Lemma Evaluator_call_on_null library w m args W :
  slot_of W w = VNull ->
  Evaluator.call library w m args W = (Throw (TypeError_read VNull m), W).
Proof.
  intros Hs. unfold Evaluator.call.
  eapply bind_step; [reflexivity|]. by rewrite Hs.
Qed.

Lemma run_op_on_null_named library op W w :
  slot_of W w = VNull ->
  run_op library op w W = (Throw (TypeError_read VNull (method_name op)), W).
Proof.
  intros Hs.
  destruct op; simpl;
    unfold Context.parametersSet, Context.usingKeyswitching,
      Context.keyParmsId, Context.firstParmsId, Context.lastParmsId,
      EncryptionParameterQualifiers.parametersSet,
      EncryptionParameterQualifiers.usingFFT,
      EncryptionParameterQualifiers.usingNTT,
      EncryptionParameterQualifiers.usingBatching,
      EncryptionParameterQualifiers.usingFastPlainLift,
      EncryptionParameterQualifiers.usingDescendingModulusChain,
      EncryptionParameterQualifiers.securityLevel,
      EncryptionParameterQualifiers.getter,
      EncryptionParameterQualifiers.rethrow, Exception.safe;
    run; repeat (rewrite Hs; simpl); reflexivity.
Qed.

Lemma run_guarded_on_null library safe CD inj sb op W w :
  slot_of W w = VNull ->
  run_guarded library safe CD inj sb op w W =
    (e <~ safe (TypeError_read VNull (guarded_name op)) ;; throw e) W.
Proof.
  intros Hs.
  destruct op; simpl;
    unfold Context.getContextData, Context.keyContextData,
      Context.firstContextData, Context.lastContextData,
      Context.contextData_of, ParmsIdType.values;
    (erewrite guarded_throw;
      [reflexivity
      | eapply bind_step; [reflexivity|]; rewrite Hs;
        eapply bind_raise; apply invoke_on_null]).
Qed.

Lemma Evaluator_on_null_with_destination library safe global CT PT w op
  x y z d pool W :
  slot_of W w = VNull ->
  truthy d = true ->
  run_evaluator library safe global CT PT w op x y z d pool W =
    (e <~ safe (TypeError_read VNull (op_name op)) ;; throw e) W.
Proof.
  intros Hs Ht.
  destruct op; unfold_evaluator; rewrite Ht;
    (erewrite guarded_throw;
      [reflexivity
      | eapply bind_raise; by apply Evaluator_call_on_null]).
Qed.

Lemma Evaluator_on_null_without_destination library safe global CT PT w op
  x y z d pool temp W W1 :
  truthy d = false ->
  (if op_makes_plain op then PT else CT) W = (Ok temp, W1) ->
  slot_of W1 w = VNull ->
  exists p,
    run_evaluator library safe global CT PT w op x y z d pool W =
      (e <~ safe (TypeError_read VNull p) ;; throw e) W1.
Proof.
  intros Ht Hf Hs.
  destruct op; simpl in Hf; unfold_evaluator; rewrite Ht; eexists;
    (erewrite guarded_throw;
      [reflexivity
      | eapply bind_step; [exact Hf|];
        eapply bind_raise; by apply Evaluator_call_on_null]).
Qed.

Lemma EvaluatorOptions_on_null library global w op fields W :
  slot_of W w = VNull ->
  run_evaluator_options library global w op (VObject fields) W =
    EvaluatorOptions.rethrow library (TypeError_read VNull (op_name op)) W.
Proof.
  intros Hs.
  destruct op; unfold_evaluator_options; destructure_options;
    (erewrite guarded_throw;
      [reflexivity
      | eapply bind_step; [reflexivity|]; rewrite Hs;
        eapply bind_raise; apply invoke_on_null]).
Qed.

Lemma PlainText_method_on_null library m f W w :
  In (m, f) (PlainText_methods library) ->
  slot_of W w = VNull ->
  f w W = (Throw (TypeError_read VNull m), W).
Proof.
  intros Hin Hs.
  destruct (PlainText_methods_forward library m f Hin) as (-> & _).
  unfold PlainText.forward.
  eapply bind_step; [reflexivity|]. by rewrite Hs.
Qed.

Lemma load_on_null library k W w context encoded :
  slot_of W w = VNull ->
  load_of library k w context encoded W
    = (Throw (TypeError_read VNull "loadFromString"), W).
Proof.
  intros Hs.
  destruct k; simpl; unfold RelinKeys.load, PublicKey.load, PlainText.load;
    run; repeat (rewrite Hs; simpl); reflexivity.
Qed.

(** The normalizer of the sources reads the property [error] of its
    argument; handed the [TypeError] itself it finds none. *)
Lemma safe_of_the_TypeError library b p W :
  (e <~ Exception.safe library (TypeError_read b p) ;;
   (throw e : M JsVal)) W =
    (Throw (new_Error (VStr "Unknown Error!")), W).
Proof. reflexivity. Qed.

(** ** Every operation, after release *)

(** C2, amended.  No operation checks that the wrapper holds a handle and
    there is no [UseAfterReleaseError]: an operation that reads or calls a
    member of the instance slot fails, once the slot is [null], on that
    member read, before any argument is evaluated and before the native
    layer is reached.  What the caller sees depends on the guard of the
    operation.

    After [delete] (ParmsIdType, Context, EncryptionParameterQualifiers and
    the positional Evaluator, the kinds that have one):
    - the getters of Context (no guard) and of
      EncryptionParameterQualifiers (guard [Exception.safe({ error: e })])
      throw the host's [TypeError], and the world is as [delete] left it;
    - the ContextData operations of Context, [values] of ParmsIdType and the
      twenty-four operations of the positional Evaluator (guard
      [Exception.safe(e)] on the injected Exception) throw what the injected
      normalizer makes of that [TypeError]; an Evaluator operation called
      without a destination has asked the factory for its result wrapper
      first.  With the Exception of the sources injected, what is thrown is
      the [Error] "Unknown Error!".

    The kinds without a [delete] lose their instance through
    [inject({ instance: null })].  After it:
    - [save] and [load] of RelinKeys, PublicKey and PlainText and the
      forwarding methods of PlainText (no guard) throw the host's
      [TypeError] and leave the world as it is;
    - the operations of the Evaluator that takes an options object throw a
      new [Error] carrying the message of the [TypeError], and leave the
      world as it is. *)
Theorem C2_use_after_release_fails library (safe : JsVal -> M JsVal)
  (global : JsVal) (CipherText PlainText ContextData : M JsVal)
  (unsafeInject : JsVal -> JsVal -> M JsVal)
  (split_BigInt : JsVal -> M JsVal) (W : World) (w : nat) :
  slot_ok W w ->
  let released k := snd (release_of library k w W) in
  let emptied k := snd (codec_inject_of library k w VNull W) in
  let emptied_evaluator :=
    snd (EvaluatorOptions.inject library w (VObject [("instance", VNull)])
           W) in
  let rethrown p : M JsVal :=
    e <~ safe (TypeError_read VNull p) ;; throw e in
  (forall op,
     run_op library op w (released (kind_of_op op)) =
       (Throw (TypeError_read VNull (method_name op)),
        released (kind_of_op op))) /\
  (forall op,
     run_guarded library safe ContextData unsafeInject split_BigInt op w
       (released (kind_of_guarded op)) =
       rethrown (guarded_name op) (released (kind_of_guarded op))) /\
  (forall op x y z d pool,
     truthy d = true ->
     run_evaluator library safe global CipherText PlainText w op x y z d
       pool (released REvaluator) =
       rethrown (op_name op) (released REvaluator)) /\
  (forall op x y z d pool temp W1,
     truthy d = false ->
     (if op_makes_plain op then PlainText else CipherText)
       (released REvaluator) = (Ok temp, W1) ->
     slot_of W1 w = VNull ->
     exists p,
       run_evaluator library safe global CipherText PlainText w op x y z d
         pool (released REvaluator) = rethrown p W1) /\
  (forall p W1,
     (e <~ Exception.safe library (TypeError_read VNull p) ;;
      (throw e : M JsVal)) W1 =
       (Throw (new_Error (VStr "Unknown Error!")), W1)) /\
  (forall k,
     save_of library k w (emptied k) =
       (Throw (TypeError_read VNull "saveToString"), emptied k)) /\
  (forall k context encoded,
     load_of library k w context encoded (emptied k) =
       (Throw (TypeError_read VNull "loadFromString"), emptied k)) /\
  (forall m f,
     In (m, f) (PlainText_methods library) ->
     f w (emptied KPlainText) =
       (Throw (TypeError_read VNull m), emptied KPlainText)) /\
  (forall op fields, exists e,
     TypeError_read VNull (op_name op) = VError e /\
     run_evaluator_options library global w op (VObject fields)
       emptied_evaluator =
       (Throw (VError (mkError "Error" (err_message e))),
        emptied_evaluator)).
Proof.
  intros Hok released emptied emptied_evaluator rethrown.
  assert (Hrel : forall k, slot_of (released k) w = VNull)
    by (intros k; by apply released_slot_null).
  assert (Hemp : forall k, slot_of (emptied k) w = VNull)
    by (intros k; by apply emptied_slot_null).
  assert (Hev : slot_of emptied_evaluator w = VNull)
    by (by apply emptied_evaluator_slot_null).
  repeat apply conj.
  - intros op. by apply run_op_on_null_named.
  - intros op. by apply run_guarded_on_null.
  - intros op x y z d pool Ht.
    by apply Evaluator_on_null_with_destination.
  - intros op x y z d pool temp W1 Ht Hf Hs.
    by apply (Evaluator_on_null_without_destination library safe global
                CipherText PlainText w op x y z d pool temp).
  - intros p W1. apply safe_of_the_TypeError.
  - intros k. by apply save_on_null.
  - intros k context encoded. by apply load_on_null.
  - intros m f Hin. by apply (PlainText_method_on_null library).
  - intros op fields.
    rewrite (EvaluatorOptions_on_null library global w op fields
               emptied_evaluator Hev).
    rewrite EvaluatorOptions_rethrow_spec.
    eexists. split; reflexivity.
Qed.

Lemma C2_use_after_release_fails_witness :
  let safe := Exception.safe Toy.library in
  let released k := snd (release_of Toy.library k 0 Toy.world) in
  let emptied k := snd (codec_inject_of Toy.library k 0 VNull Toy.world) in
  let emptied_evaluator :=
    snd (EvaluatorOptions.inject Toy.library 0
           (VObject [("instance", VNull)]) Toy.world) in
  run_op Toy.library Qualifiers_usingNTT 0 (released RQualifiers) =
    (Throw (TypeError_read VNull "usingNTT"), released RQualifiers) /\
  run_evaluator Toy.library safe (VStr "pool") Toy.CipherText
    Toy.CipherText 0 E_negate (VWrapper 1) VUndefined VUndefined
    (VWrapper 1) VUndefined (released REvaluator) =
    (Throw (new_Error (VStr "Unknown Error!")), released REvaluator) /\
  (exists p,
     run_evaluator Toy.library safe (VStr "pool") Toy.CipherText
       Toy.CipherText 0 E_add (VWrapper 1) (VWrapper 1) VUndefined
       VUndefined VUndefined (released REvaluator) =
       (e <~ safe (TypeError_read VNull p) ;; throw e)
         (snd (Toy.CipherText (released REvaluator)))) /\
  save_of Toy.library KRelinKeys 0 (emptied KRelinKeys) =
    (Throw (TypeError_read VNull "saveToString"), emptied KRelinKeys) /\
  PlainText.isZero Toy.library 0 (emptied KPlainText) =
    (Throw (TypeError_read VNull "isZero"), emptied KPlainText) /\
  (exists e,
     TypeError_read VNull "square" = VError e /\
     run_evaluator_options Toy.library (VStr "pool") 0 E_square
       (VObject [("encrypted", VWrapper 1); ("destination", VWrapper 1)])
       emptied_evaluator =
       (Throw (VError (mkError "Error" (err_message e))),
        emptied_evaluator)).
Proof.
  intros safe released emptied emptied_evaluator.
  destruct (C2_use_after_release_fails Toy.library safe (VStr "pool")
              Toy.CipherText Toy.CipherText Toy.CipherText
              (fun _ _ => ret VUndefined) ret Toy.world 0)
    as (Hget & _ & Hdest & Hnodest & Hsafe & Hsave & _ & Hplain & Hopts).
  { right. exists 0, (mkNObj "RelinKeys" "k0"). split; reflexivity. }
  split; [apply (Hget Qualifiers_usingNTT)|].
  split.
  { etransitivity;
      [ apply (Hdest E_negate (VWrapper 1) VUndefined VUndefined
                 (VWrapper 1) VUndefined eq_refl)
      | apply Hsafe ]. }
  split.
  { apply (Hnodest E_add (VWrapper 1) (VWrapper 1) VUndefined VUndefined
             VUndefined (VWrapper 3)); reflexivity. }
  split; [apply (Hsave KRelinKeys)|].
  split.
  { apply (Hplain "isZero" (PlainText.isZero Toy.library)). simpl. tauto. }
  apply (Hopts E_square
           [("encrypted", VWrapper 1); ("destination", VWrapper 1)]).
Defined.
